(** * Daily reconciliation pipeline ([auto_main.py]) and the ad-hoc SLA report
      ([SLA.py]): a shallow embedding and its properties.

    The Python sources are embedded as Rocq functions.  A pandas cell is a
    value of [Cell]; a [DataFrame] is a list of column names with labelled
    rows; Python exceptions are the constructors of [Exc]; methods of
    [EveryDayAuto] are computations in the state-and-exception monad [M]
    over the object's attributes, the log, the output directory and the
    clock. *)

From Stdlib Require Import ZArith List Bool Ascii String Lia.
From Stdlib Require Import Uint63 PrimFloat SpecFloat FloatOps FloatAxioms.
From Stdlib Require Import Permutation.
From stdpp Require Import base option list gmap strings.

Local Open Scope string_scope.
Local Open Scope Z_scope.

(** ** Exceptions and fallible results *)

Inductive Exc : Type :=
| KeyError (key : string)
| TypeError
| IndexError
| AttributeError
| ValueError
| OverflowError
| FileNotFoundError
| OSError.

Inductive Result (A : Type) : Type :=
| Ok (a : A)
| Raise (e : Exc).
Arguments Ok {A} a.
Arguments Raise {A} e.

#[global] Instance Result_ret : MRet Result := fun A a => Ok a.
#[global] Instance Result_bind : MBind Result :=
  fun A B f r => match r with Ok a => f a | Raise e => Raise e end.
#[global] Instance Result_fmap : FMap Result :=
  fun A B f r => match r with Ok a => Ok (f a) | Raise e => Raise e end.

(** [mapR f l] is a Python comprehension [[f(x) for x in l]] whose body may
    raise: the first exception wins. *)
Fixpoint mapR {A B} (f : A -> Result B) (l : list A) : Result (list B) :=
  match l with
  | [] => Ok []
  | x :: l' => y ← f x; ys ← mapR f l'; Ok (y :: ys)
  end.

(** ** [datetime] and [timedelta]

    A naive [datetime.datetime] is kept as its proleptic Gregorian ordinal
    ([date.toordinal()], day 1 is 0001-01-01) and its time-of-day fields.
    CPython's [datetime.__add__] and [__sub__] work on exactly this
    representation. *)
Module PyDatetime.

Record datetime : Type := mk_datetime {
  ordinal : Z;
  hour : Z;
  minute : Z;
  second : Z;
  microsecond : Z
}.

Definition MAXORDINAL : Z := 3652059.

Definition valid (d : datetime) : Prop :=
  1 <= ordinal d <= MAXORDINAL /\ 0 <= hour d < 24 /\ 0 <= minute d < 60
  /\ 0 <= second d < 60 /\ 0 <= microsecond d < 1000000.

(** [datetime.weekday()]: Monday is 0. *)
Definition weekday (d : datetime) : Z := (ordinal d + 6) mod 7.

(** A normalized [timedelta]: [0 <= seconds < 86400],
    [0 <= microseconds < 10^6]. *)
Record timedelta : Type := mk_timedelta {
  td_days : Z;
  td_seconds : Z;
  td_microseconds : Z
}.

Definition timedelta_of (days seconds microseconds : Z) : timedelta :=
  let s := seconds + microseconds / 1000000 in
  {| td_days := days + s / 86400;
     td_seconds := s mod 86400;
     td_microseconds := microseconds mod 1000000 |}.

Definition days (n : Z) : timedelta := timedelta_of n 0 0.

(** [d - timedelta(days=n)]; the result must stay a representable date. *)
Definition sub_days (d : datetime) (n : Z) : Result datetime :=
  let o := ordinal d - n in
  if (0 <? o) && (o <=? MAXORDINAL)
  then Ok {| ordinal := o; hour := hour d; minute := minute d;
             second := second d; microsecond := microsecond d |}
  else Raise OverflowError.

(** The arguments of a method of the C implementation of [datetime] are
    converted to C [int] first: a Python integer outside that range raises
    [OverflowError]. *)
Definition INT_MIN : Z := -2147483648.
Definition INT_MAX : Z := 2147483647.

Definition c_int (n : Z) : bool := (INT_MIN <=? n) && (n <=? INT_MAX).

(** [d.replace(hour=h, minute=mi, second=s, microsecond=us)]: the fields
    are range-checked after the conversion. *)
Definition replace (d : datetime) (h mi s us : Z) : Result datetime :=
  if c_int h && c_int mi && c_int s && c_int us then
    if (0 <=? h) && (h <? 24) && (0 <=? mi) && (mi <? 60)
       && (0 <=? s) && (s <? 60) && (0 <=? us) && (us <? 1000000)
    then Ok {| ordinal := ordinal d; hour := h; minute := mi;
               second := s; microsecond := us |}
    else Raise ValueError
  else Raise OverflowError.

(** [a - b] on two datetimes. *)
Definition sub (a b : datetime) : timedelta :=
  timedelta_of (ordinal a - ordinal b)
               ((second a + minute a * 60 + hour a * 3600)
                - (second b + minute b * 60 + hour b * 3600))
               (microsecond a - microsecond b).

(** Comparison is lexicographic on the fields, as CPython's [_cmp]. *)
Definition fields (d : datetime) : list Z :=
  [ordinal d; hour d; minute d; second d; microsecond d].

Fixpoint lex_ltb (x y : list Z) : bool :=
  match x, y with
  | a :: x', b :: y' => (a <? b) || ((a =? b) && lex_ltb x' y')
  | [], _ :: _ => true
  | _, [] => false
  end.

Definition ltb (a b : datetime) : bool := lex_ltb (fields a) (fields b).

(** Nanoseconds since 1970-01-01 (ordinal 719163): the value pandas gives
    the datetime when it is compared with a [datetime64[ns]] column. *)
Definition to_ns (d : datetime) : Z :=
  (((ordinal d - 719163) * 86400 + hour d * 3600 + minute d * 60 + second d)
   * 1000000 + microsecond d) * 1000.

(** CPython's [_ord2ymd], used by [strftime]. *)
Definition days_before_month_table : list Z :=
  [0; 31; 59; 90; 120; 151; 181; 212; 243; 273; 304; 334].

Definition ord2ymd (n0 : Z) : Z * Z * Z :=
  let n := n0 - 1 in
  let n400 := n / 146097 in
  let n := n mod 146097 in
  let year := n400 * 400 + 1 in
  let n100 := n / 36524 in
  let n := n mod 36524 in
  let n4 := n / 1461 in
  let n := n mod 1461 in
  let n1 := n / 365 in
  let n := n mod 365 in
  let year := year + n100 * 100 + n4 * 4 + n1 in
  if (n1 =? 4) || (n100 =? 4) then (year - 1, 12, 31)
  else
    let leapyear := (n1 =? 3) && (negb (n4 =? 24) || (n100 =? 3)) in
    let month := (n + 50) / 32 in
    let preceding :=
      nth (Z.to_nat (month - 1)) days_before_month_table 0
      + (if (2 <? month) && leapyear then 1 else 0) in
    if n <? preceding
    then
      let month := month - 1 in
      let preceding :=
        preceding - (if (month =? 2) && leapyear then 29
                     else nth (Z.to_nat (month - 1))
                            [31; 28; 31; 30; 31; 30; 31; 31; 30; 31; 30; 31] 0) in
      (year, month, n - preceding + 1)
    else (year, month, n - preceding + 1).

(** Decimal rendering with zero padding to [width] digits. *)
Definition digit (n : Z) : string :=
  String (ascii_of_nat (48 + Z.to_nat (n mod 10))) EmptyString.

Fixpoint zfill (width : nat) (n : Z) : string :=
  match width with
  | O => ""
  | S w => zfill w (n / 10) ++ digit n
  end.

(** [d.strftime('%d.%m.%Y')]. *)
Definition strftime_dmY (d : datetime) : string :=
  let '(y, m, dd) := ord2ymd (ordinal d) in
  zfill 2 dd ++ "." ++ zfill 2 m ++ "." ++ zfill 4 y.

End PyDatetime.
Import PyDatetime.

(** ** Static configuration tables *)

Record ClientConfig : Type := mk_config {
  columns_filter : string;
  plus_time : Z
}.

(** [EveryDayAuto.CLIENTS]; a Python dict iterates in insertion order. *)
Definition CLIENTS : list (Z * ClientConfig) :=
  [ (1282, mk_config "accepted_at" 0);
    (1130, mk_config "accepted_at" 0);
    (606,  mk_config "accepted_at" 0);
    (1359, mk_config "accepted_at" 0);
    (741,  mk_config "accepted_at" 0);
    (1160, mk_config "accepted_at" 0);
    (1235, mk_config "accepted_at" 3);
    (1352, mk_config "accepted_at" 3) ].

Definition CLIENTS_get (k : Z) : option ClientConfig :=
  snd <$> List.find (fun kv => fst kv =? k) CLIENTS.

(** [EveryDayAuto.STATUS_DICT] (the daily pipeline). *)
Definition STATUS_DICT : gmap Z string :=
  list_to_map
    [ (2, "В обработке"); (3, "Провально"); (4, "Succeed");
      (8, "Фейл по нашей вине"); (10, "Отменено"); (11, "Истек");
      (12, "Reversal"); (13, "Отмена до реквизитов") ].

(** [SLA.STATUS_DICT] (the ad-hoc report). *)
Definition SLA_STATUS_DICT : gmap Z string :=
  list_to_map
    [ (2, "В обработке"); (3, "Провально"); (4, "Succeed");
      (8, "Фейл по нашей вине"); (10, "Отменено"); (11, "Истек");
      (12, "Обнуление"); (13, "Отмена до реквизитов") ].

(** [EveryDayAuto.FILE_PREFIXES]. *)
Definition FILE_PREFIXES : gmap string string :=
  list_to_map
    [ ("P2PW", "Report_Transactions"); ("WW", "Report_Transactions_UZS");
      ("LR", "Report_Transactions_LR"); ("P2P", "Report_Transactions_NEW") ].

Definition known_codes : list Z := [2; 3; 4; 8; 10; 11; 12; 13].


(** ** Cells

    One value of a pandas column.  [CNone] is Python's [None] in an object
    column, [CFloat nan] is [NaN], [CNaT] is the missing timestamp; a
    [CTime] is a [datetime64[ns]] value in nanoseconds since the epoch. *)
Inductive Cell : Type :=
| CNone
| CInt (z : Z)
| CFloat (f : float)
| CStr (s : string)
| CTime (ns : Z)
| CNaT.

Definition NaN : Cell := CFloat nan.

(** [pd.isna] on a scalar. *)
Definition isna (c : Cell) : bool :=
  match c with
  | CNone | CNaT => true
  | CFloat f => PrimFloat.is_nan f
  | _ => false
  end.

(** IEEE equality, computed on the decoded float. *)
Definition float_eqb (a b : float) : bool := SFeqb (Prim2SF a) (Prim2SF b).

(** int64 to float64. *)
Definition float_of_Z (z : Z) : float :=
  if z <? 0 then PrimFloat.opp (PrimFloat.of_uint63 (Uint63.of_Z (- z)))
  else PrimFloat.of_uint63 (Uint63.of_Z z).

(** Equality of two cells as values of one column, as the pandas hash tables
    behind [unique] and [duplicated] see it: missing values of one sort are
    equal to each other. *)
Definition cell_eqb (a b : Cell) : bool :=
  match a, b with
  | CNone, CNone => true
  | CNaT, CNaT => true
  | CInt x, CInt y => x =? y
  | CStr x, CStr y => String.eqb x y
  | CTime x, CTime y => x =? y
  | CFloat x, CFloat y =>
      float_eqb x y || (PrimFloat.is_nan x && PrimFloat.is_nan y)
  | _, _ => false
  end.

(** [cell == 'text'] and [cell == 0]: element-wise, never raising. *)
Definition cell_eq_str (s : string) (c : Cell) : bool :=
  match c with CStr x => String.eqb x s | _ => false end.

Definition cell_eq_zero (c : Cell) : bool :=
  match c with
  | CInt z => z =? 0
  | CFloat f => float_eqb f 0
  | _ => false
  end.

(** [Series.map(d)] for a dict with integer keys: a key is found when it is
    equal to the cell (an integral float finds its integer key); everything
    else becomes [NaN]. *)
Definition dict_get_cell {V} (d : gmap Z V) (c : Cell) : option V :=
  match c with
  | CInt z => d !! z
  | CFloat f =>
      snd <$> List.find (fun kv => float_eqb f (float_of_Z (fst kv))) (map_to_list d)
  | _ => None
  end.

Definition map_dict (d : gmap Z string) (c : Cell) : Cell :=
  match dict_get_cell d c with
  | Some label => CStr label
  | None => NaN
  end.

(** Arithmetic of numeric columns.  Integer cells stay integers under [+];
    [/] is true division; anything that is not a number raises. *)
Definition as_float (c : Cell) : Result float :=
  match c with
  | CFloat f => Ok f
  | CInt z => Ok (float_of_Z z)
  | _ => Raise TypeError
  end.

Definition cell_add (a b : Cell) : Result Cell :=
  match a, b with
  | CInt x, CInt y => Ok (CInt (x + y))
  | _, _ => x ← as_float a; y ← as_float b; Ok (CFloat (PrimFloat.add x y))
  end.

Definition cell_truediv (a : Cell) (k : float) : Result Cell :=
  x ← as_float a; Ok (CFloat (PrimFloat.div x k)).

Definition cell_mul (a b : Cell) : Result Cell :=
  match a, b with
  | CInt x, CInt y => Ok (CInt (x * y))
  | _, _ => x ← as_float a; y ← as_float b; Ok (CFloat (PrimFloat.mul x y))
  end.

(** [np.rint]: round to the nearest integer, ties to even.  Below [2^52] it
    is the sum-and-difference with [2^52] under the default rounding mode;
    from [2^52] on every float is an integer. *)
Definition two52 : float := 4503599627370496%float.

Definition rint (x : float) : float :=
  let a := PrimFloat.abs x in
  if PrimFloat.ltb a two52 then
    let r := PrimFloat.sub (PrimFloat.add a two52) two52 in
    if PrimFloat.get_sign x then PrimFloat.opp r else r
  else x.

(** [np.round(x, 3)] is [rint(x * 10**3) / 10**3]. *)
Definition round3 (x : float) : float :=
  PrimFloat.div (rint (PrimFloat.mul x 1000%float)) 1000%float.

Definition cell_round3 (c : Cell) : Result Cell :=
  match c with
  | CFloat f => Ok (CFloat (round3 f))
  | CInt z => Ok (CInt z)
  | _ => Raise TypeError
  end.

(** Ordering of the keys of [sort_values]: one kind per column. *)
Definition is_str (c : Cell) : bool := match c with CStr _ => true | _ => false end.
Definition is_int (c : Cell) : bool := match c with CInt _ => true | _ => false end.
Definition is_float (c : Cell) : bool := match c with CFloat _ => true | _ => false end.
Definition is_time (c : Cell) : bool := match c with CTime _ => true | _ => false end.

Definition one_kind (keys : list Cell) : bool :=
  forallb is_str keys || forallb is_int keys
  || forallb is_float keys || forallb is_time keys.

Definition key_leb (a b : Cell) : bool :=
  match a, b with
  | CStr x, CStr y => String.leb x y
  | CInt x, CInt y => x <=? y
  | CFloat x, CFloat y => PrimFloat.leb x y
  | CTime x, CTime y => x <=? y
  | _, _ => false
  end.

(** ** Data frames

    A frame is its column names and its rows; a row carries its index label
    and a dictionary from column name to cell.  Every operation below is the
    pandas call of the same name as the scripts use it. *)
Abbreviation Row := (gmap string Cell).

Record DataFrame : Type := mk_df {
  df_columns : list string;
  df_rows : list (nat * Row)
}.

(** [pd.DataFrame()]. *)
Definition empty_df : DataFrame := mk_df [] [].

(** [df.empty]: no column or no row. *)
Definition df_empty (df : DataFrame) : bool :=
  match df_columns df, df_rows df with
  | [], _ | _, [] => true
  | _, _ => false
  end.

Definition has_column (c : string) (df : DataFrame) : bool :=
  existsb (String.eqb c) (df_columns df).

Definition cell_at (c : string) (r : nat * Row) : Cell := default NaN (r.2 !! c).

(** [df[c]] as a list of cells; [KeyError] when there is no such column. *)
Definition getitem (df : DataFrame) (c : string) : Result (list Cell) :=
  if has_column c df then Ok (cell_at c <$> df_rows df) else Raise (KeyError c).

(** [df.c]: attribute access raises [AttributeError] instead. *)
Definition getattr (df : DataFrame) (c : string) : Result (list Cell) :=
  if has_column c df then Ok (cell_at c <$> df_rows df) else Raise AttributeError.

Definition set_cell (c : string) (r : nat * Row) (v : Cell) : nat * Row :=
  (r.1, <[c := v]> r.2).

Definition add_column (c : string) (cols : list string) : list string :=
  if existsb (String.eqb c) cols then cols else cols ++ [c].

(** [df[c] = vals], with [vals] aligned on the frame's own index. *)
Definition setitem (df : DataFrame) (c : string) (vals : list Cell) : DataFrame :=
  mk_df (add_column c (df_columns df)) (zip_with (set_cell c) (df_rows df) vals).

(** [df.loc[mask, c] = vals]: only the rows selected by [mask] are written;
    when [c] is a new column the other rows hold [NaN]. *)
Definition loc_setitem (df : DataFrame) (mask : list bool) (c : string)
    (vals : list Cell) : DataFrame :=
  let old := cell_at c <$> df_rows df in
  setitem df c
    (zip_with (fun (m : bool) ov => if m then ov.2 else ov.1) mask (zip old vals)).

(** [df[mask]]: boolean indexing keeps the selected rows and their labels. *)
Definition select_rows (df : DataFrame) (mask : list bool) : DataFrame :=
  mk_df (df_columns df) (fst <$> List.filter snd (zip (df_rows df) mask)).

(** [df[cols]]: projection on a list of columns, in that order. *)
Definition project (df : DataFrame) (cols : list string) : Result (list (list Cell)) :=
  match List.find (fun c => negb (has_column c df)) cols with
  | Some c => Raise (KeyError c)
  | None => Ok ((fun r => (fun c => cell_at c r) <$> cols) <$> df_rows df)
  end.

(** [Series.unique()]: the distinct values in order of first appearance. *)
Fixpoint unique_from (seen : list Cell) (l : list Cell) : list Cell :=
  match l with
  | [] => []
  | x :: l' =>
      if existsb (cell_eqb x) seen then unique_from seen l'
      else x :: unique_from (x :: seen) l'
  end.

Definition unique (l : list Cell) : list Cell := unique_from [] l.

(** [df.drop_duplicates(c)]: keep the first row of every value of [c]. *)
Fixpoint dedup_from (seen : list Cell) (c : string) (rows : list (nat * Row))
    : list (nat * Row) :=
  match rows with
  | [] => []
  | r :: rs =>
      if existsb (cell_eqb (cell_at c r)) seen then dedup_from seen c rs
      else r :: dedup_from (cell_at c r :: seen) c rs
  end.

Definition drop_duplicates (c : string) (df : DataFrame) : Result DataFrame :=
  if has_column c df
  then Ok (mk_df (df_columns df) (dedup_from [] c (df_rows df)))
  else Raise (KeyError c).

(** [df.sort_values(c)]: ascending, rows whose key is missing last.  The
    rows with a key are ordered by a stable insertion sort; pandas' default
    sort kind may order rows with equal keys differently, and nothing below
    depends on the order among them. *)
Fixpoint insert_by (c : string) (x : nat * Row) (l : list (nat * Row))
    : list (nat * Row) :=
  match l with
  | [] => [x]
  | y :: l' =>
      if key_leb (cell_at c x) (cell_at c y) then x :: y :: l'
      else y :: insert_by c x l'
  end.

Definition isort (c : string) (l : list (nat * Row)) : list (nat * Row) :=
  foldr (insert_by c) [] l.

Definition sort_values (c : string) (df : DataFrame) : Result DataFrame :=
  if has_column c df then
    let present := List.filter (fun r => negb (isna (cell_at c r))) (df_rows df) in
    let missing := List.filter (fun r => isna (cell_at c r)) (df_rows df) in
    if one_kind (cell_at c <$> present)
    then Ok (mk_df (df_columns df) (isort c present ++ missing))
    else Raise TypeError
  else Raise (KeyError c).

(** [df.reset_index(drop=True)]: the labels become 0, 1, 2, ... *)
Definition reset_index (df : DataFrame) : DataFrame :=
  mk_df (df_columns df)
        (zip (seq 0 (length (df_rows df))) (snd <$> df_rows df)).

(** Column-wise arithmetic: the first cell that is not a number raises. *)
Fixpoint zipR {A B C} (f : A -> B -> Result C) (l : list A) (k : list B)
    : Result (list C) :=
  match l, k with
  | x :: l', y :: k' => z ← f x y; zs ← zipR f l' k'; Ok (z :: zs)
  | _, _ => Ok []
  end.

(** ** The object, its surroundings and the monad of its methods *)

Inductive Level : Type := INFO | WARNING | ERROR.

(** The log lines of [auto_main.py], one constructor per call site. *)
Inductive Message : Type :=
| MsgInit
| MsgWindow (start stop : datetime)
| MsgCreateDF (client : Z)
| MsgLoaded (client : Z)
| MsgLoadError (client : Z) (e : Exc)
| MsgNormStart
| MsgNormDone
| MsgNormError (e : Exc)
| MsgFilterStart
| MsgFilterDone (name : Cell)
| MsgFilterError (e : Exc)
| MsgEmptyFrame (name : Cell)
| MsgMissingColumns (cols : list string)
| MsgNoClientId
| MsgSavedCSV (path : string)
| MsgCSVError (e : Exc)
| MsgSavedExcel (path : string)
| MsgExcelError (e : Exc)
| MsgClientStart (client : Z)
| MsgNoData (client : Z)
| MsgClientDone (client : Z).

Inductive FileFormat : Type := CSV | Excel (sheet : string).

Record FileData : Type := mk_file {
  file_format : FileFormat;
  file_header : list string;
  file_rows : list (list Cell)
}.

(** How a write fails.  [to_csv] and [to_excel] open their target first,
    which creates or truncates it: a failure at that point leaves the
    directory as it was, a failure after it leaves [remains] at the path (an
    empty or partial file) in place of what was there. *)
Inductive WriteFailure : Type :=
| AtOpen (e : Exc)
| AfterOpen (e : Exc) (remains : FileData).

Definition failure_exc (f : WriteFailure) : Exc :=
  match f with
  | AtOpen e => e
  | AfterOpen e _ => e
  end.

(** The attributes of the [EveryDayAuto] object and the part of the world
    the script touches.  [save_dir] is the directory [saveАвто]: [None]
    when it does not exist, otherwise its files by path, those whose write
    completed; [unfinished] holds what failed writes have left in it. *)
Record State : Type := mk_state {
  DF : DataFrame;
  col_filter : string;
  client_name : Cell;
  delta_time : Z;
  start_date : option datetime;
  end_date : option datetime;
  save_dir : option (list (string * FileData));
  logging_configured : bool;
  log : list (Level * Message);
  clock_reads : nat;
  unfinished : list (string * FileData)
}.

(** What the script reads from outside: the wall clock ([now n] is the
    value of the [n]-th call of [datetime.now()]), the result of the
    extraction query for a client and two bounds, pandas' timestamp parser,
    the outcome of writing a file at a path, and Python's [str()]. *)
Record Env : Type := mk_env {
  now : nat -> datetime;
  read_sql : Z -> datetime -> datetime -> Result DataFrame;
  parse_datetime : string -> option Z;
  write_error : string -> option WriteFailure;
  py_str : Cell -> string
}.

Definition M (A : Type) : Type := State -> Result A * State.

Definition ret {A} (a : A) : M A := fun st => (Ok a, st).

Definition bind {A B} (m : M A) (k : A -> M B) : M B :=
  fun st => match m st with
            | (Ok a, st') => k a st'
            | (Raise e, st') => (Raise e, st')
            end.

Definition raise {A} (e : Exc) : M A := fun st => (Raise e, st).

Definition lift {A} (r : Result A) : M A := fun st => (r, st).

Definition get : M State := fun st => (Ok st, st).

Definition modify (f : State -> State) : M unit := fun st => (Ok tt, f st).

(** [try: body except Exception as e: handler(e)]. *)
Definition try_except {A} (body : M A) (handler : Exc -> M A) : M A :=
  fun st => match body st with
            | (Ok a, st') => (Ok a, st')
            | (Raise e, st') => handler e st'
            end.

Declare Scope M_scope.
Delimit Scope M_scope with M.
Notation "x <- c ;; k" := (bind c (fun x => k))
  (at level 100, c at next level, right associativity) : M_scope.
Notation "c ;; k" := (bind c (fun _ => k))
  (at level 100, right associativity) : M_scope.

Definition with_DF (d : DataFrame) (st : State) : State :=
  mk_state d (col_filter st) (client_name st) (delta_time st) (start_date st)
           (end_date st) (save_dir st) (logging_configured st) (log st)
           (clock_reads st) (unfinished st).

Definition with_col_filter (c : string) (st : State) : State :=
  mk_state (DF st) c (client_name st) (delta_time st) (start_date st)
           (end_date st) (save_dir st) (logging_configured st) (log st)
           (clock_reads st) (unfinished st).

Definition with_client_name (c : Cell) (st : State) : State :=
  mk_state (DF st) (col_filter st) c (delta_time st) (start_date st)
           (end_date st) (save_dir st) (logging_configured st) (log st)
           (clock_reads st) (unfinished st).

Definition with_window (s e : datetime) (st : State) : State :=
  mk_state (DF st) (col_filter st) (client_name st) (delta_time st) (Some s)
           (Some e) (save_dir st) (logging_configured st) (log st)
           (clock_reads st) (unfinished st).

(** The directory replaced; without a directory nothing is left in it. *)
Definition with_save_dir (d : option (list (string * FileData))) (st : State) : State :=
  mk_state (DF st) (col_filter st) (client_name st) (delta_time st) (start_date st)
           (end_date st) d (logging_configured st) (log st) (clock_reads st)
           (match d with Some _ => unfinished st | None => [] end).

Definition with_unfinished (u : list (string * FileData)) (st : State) : State :=
  mk_state (DF st) (col_filter st) (client_name st) (delta_time st) (start_date st)
           (end_date st) (save_dir st) (logging_configured st) (log st)
           (clock_reads st) u.

Definition with_log (l : list (Level * Message)) (st : State) : State :=
  mk_state (DF st) (col_filter st) (client_name st) (delta_time st) (start_date st)
           (end_date st) (save_dir st) (logging_configured st) l (clock_reads st)
           (unfinished st).

Definition with_clock_reads (n : nat) (st : State) : State :=
  mk_state (DF st) (col_filter st) (client_name st) (delta_time st) (start_date st)
           (end_date st) (save_dir st) (logging_configured st) (log st) n
           (unfinished st).

Definition logger (lvl : Level) (msg : Message) : M unit :=
  modify (fun st => with_log (log st ++ [(lvl, msg)]) st).

(** An attribute that [activate] creates: reading it earlier raises. *)
Definition attribute {A} (field : State -> option A) : M A :=
  fun st => match field st with
            | Some a => (Ok a, st)
            | None => (Raise AttributeError, st)
            end.

(** ** The methods of [EveryDayAuto] *)

Section EveryDayAuto.

Variable env : Env.

Local Open Scope M_scope.

(** [datetime.now()]. *)
Definition datetime_now : M datetime :=
  fun st => (Ok (now env (clock_reads st)), with_clock_reads (S (clock_reads st)) st).

(** The window of [get_current_day] for a given reading of the clock
    (lines 133-135). *)
Definition current_day_of (today : datetime) (delta_time : Z)
    : Result (datetime * datetime) :=
  yesterday ← sub_days today (if weekday today =? 0 then 3 else 1);
  start_of_yesterday ← replace yesterday delta_time 0 0 0;
  stop_of_yesterday ← replace today delta_time 0 0 0;
  Ok (start_of_yesterday, stop_of_yesterday).

Definition get_current_day (delta_time : Z) : M (datetime * datetime) :=
  today <- datetime_now;;
  w <- lift (current_day_of today delta_time);;
  logger INFO (MsgWindow w.1 w.2);;
  ret w.

(** The default of the parameter [delta_time] of [get_current_day]. *)
Definition default_delta_time : Z := 0.

Definition create_df (idClient : Z) (start_of_yesterday stop_of_yesterday : datetime)
    : M DataFrame :=
  logger INFO (MsgCreateDF idClient);;
  try_except
    (df_combined <- lift (read_sql env idClient start_of_yesterday stop_of_yesterday);;
     logger INFO (MsgLoaded idClient);;
     ret df_combined)
    (fun e =>
       logger ERROR (MsgLoadError idClient e);;
       ret empty_df).

(** The body of the [try] of [set_new_col] (lines 263-279), on the frame. *)
Definition normalize (sort_column : string) (df : DataFrame) : Result DataFrame :=
  accepted ← getitem df "accepted_amount";
  kind ← getitem df "transaction_type";
  let df := loc_setitem df (cell_eq_str "withdraw" <$> kind) "amount" accepted in
  accepted ← getitem df "accepted_amount";
  amount ← getitem df "amount";
  let df := loc_setitem df (cell_eq_zero <$> amount) "amount" accepted in
  status ← getitem df "status_name";
  let df := setitem df "status_name" (map_dict STATUS_DICT <$> status) in
  mid ← getitem df "mid_commission";
  service ← getitem df "service_commission";
  rate ← zipR cell_add mid service;
  accepted ← getitem df "accepted_amount";
  share ← mapR (fun a => cell_truediv a 100%float) accepted;
  product ← zipR cell_mul rate share;
  rounded ← mapR cell_round3 product;
  let df := setitem df "overall_commission" rounded in
  df ← drop_duplicates "external_id" df;
  df ← sort_values sort_column df;
  Ok (reset_index df).

Definition set_new_col (df : DataFrame) : M DataFrame :=
  logger INFO MsgNormStart;;
  try_except
    (st <- get;;
     df' <- lift (normalize (col_filter st) df);;
     logger INFO MsgNormDone;;
     ret df')
    (fun e =>
       logger ERROR (MsgNormError e);;
       raise e).

(** [re.sub(r'\.\d+', '', value)]: every dot that is followed by a digit
    goes, with the run of digits after it ([\d] taken as an ASCII digit).
    [dropping] says that the previous character was removed as part of such
    a run. *)
Definition is_digit (c : ascii) : bool :=
  let n := nat_of_ascii c in (48 <=? n)%nat && (n <=? 57)%nat.

Definition starts_with_digit (s : string) : bool :=
  match s with
  | String c _ => is_digit c
  | EmptyString => false
  end.

Fixpoint strip_fraction (dropping : bool) (s : string) : string :=
  match s with
  | EmptyString => EmptyString
  | String c s' =>
      if dropping && is_digit c then strip_fraction true s'
      else if Ascii.eqb c "."%char && starts_with_digit s' then strip_fraction true s'
      else String c (strip_fraction false s')
  end.

Definition remove_microseconds (value : Cell) : Result Cell :=
  if isna value then Ok CNone
  else match value with
       | CStr s => Ok (CStr (strip_fraction false s))
       | _ => Raise TypeError
       end.

(** [pd.to_datetime(cell, errors='coerce')].  (A float that is not [NaN]
    would be read as epoch nanoseconds; [remove_microseconds] has raised on
    it before this point.) *)
Definition to_datetime_coerce (c : Cell) : Cell :=
  match c with
  | CStr s => match parse_datetime env s with Some t => CTime t | None => CNaT end
  | CTime t => CTime t
  | CInt n => CTime n
  | _ => CNaT
  end.

(** [pd.to_datetime(cell)], which raises on what it cannot parse. *)
Definition to_datetime_strict (c : Cell) : Result Cell :=
  match c with
  | CStr s => match parse_datetime env s with
              | Some t => Ok (CTime t)
              | None => Raise ValueError
              end
  | CTime t => Ok (CTime t)
  | CInt n => Ok (CTime n)
  | CFloat f => if PrimFloat.is_nan f then Ok CNaT else Raise TypeError
  | CNone | CNaT => Ok CNaT
  end.

(** [timestamp + timedelta] in nanoseconds; [NaT] stays [NaT]. *)
Definition add_ns (ns : Z) (c : Cell) : Cell :=
  match c with
  | CTime t => CTime (t + ns)
  | other => other
  end.

Definition hours_ns (h : Z) : Z := h * 3600 * 1000000000.
Definition seconds_ns (s : Z) : Z := s * 1000000000.

(** Lines 355-358: both timestamp columns lose their fraction, are parsed
    and are shifted by [plus] hours. *)
Definition shift_times (plus : Z) (df : DataFrame) : Result DataFrame :=
  created ← getitem df "created_at";
  created ← mapR remove_microseconds created;
  let df := setitem df "created_at" created in
  accepted ← getitem df "accepted_at";
  accepted ← mapR remove_microseconds accepted;
  let df := setitem df "accepted_at" accepted in
  created ← getitem df "created_at";
  let df := setitem df "created_at"
              (add_ns (hours_ns plus) <$> (to_datetime_coerce <$> created)) in
  accepted ← getitem df "accepted_at";
  let df := setitem df "accepted_at"
              (add_ns (hours_ns plus) <$> (to_datetime_coerce <$> accepted)) in
  Ok df.

(** [column >= bound] and [column < bound] for a [datetime] bound: a
    timestamp is compared, [NaT] compares false, anything else raises. *)
Definition cell_ge_datetime (bound : datetime) (c : Cell) : Result bool :=
  match c with
  | CTime t => Ok (to_ns bound <=? t)
  | CNaT => Ok false
  | _ => Raise TypeError
  end.

Definition cell_lt_datetime (bound : datetime) (c : Cell) : Result bool :=
  match c with
  | CTime t => Ok (t <? to_ns bound)
  | CNaT => Ok false
  | _ => Raise TypeError
  end.

(** Line 368. *)
Definition resolve_client_name (unique_clients : list Cell) : Cell :=
  match unique_clients with
  | [name] => name
  | _ => CStr "DEFAULT"
  end.

(** [self.CLIENTS.get(un_c)] for a cell of the [client_id] column. *)
Definition CLIENTS_get_cell (c : Cell) : option ClientConfig :=
  match c with
  | CInt z => CLIENTS_get z
  | CFloat f =>
      snd <$> List.find (fun kv => float_eqb f (float_of_Z (fst kv))) CLIENTS
  | _ => None
  end.

(** Lines 351-352: the offset of the client of the first row. *)
Definition client_offset (df : DataFrame) : Result Z :=
  ids ← getattr df "client_id";
  un_c ← match unique ids with
         | c :: _ => Ok c
         | [] => Raise IndexError
         end;
  match CLIENTS_get_cell un_c with
  | Some config => Ok (plus_time config)
  | None => Raise AttributeError
  end.

Definition filter_data_time (df : DataFrame) (filter_column : string) : M DataFrame :=
  logger INFO MsgFilterStart;;
  try_except
    (plus <- lift (client_offset df);;
     df <- lift (shift_times plus df);;
     lower_col <- lift (getitem df filter_column);;
     start <- attribute start_date;;
     lower <- lift (mapR (cell_ge_datetime start) lower_col);;
     upper_col <- lift (getitem df filter_column);;
     stop <- attribute end_date;;
     upper <- lift (mapR (cell_lt_datetime stop) upper_col);;
     modify (with_DF (select_rows df (zip_with andb lower upper)));;
     st <- get;;
     names <- lift (getitem (DF st) "client_name");;
     modify (with_client_name (resolve_client_name (unique names)));;
     st <- get;;
     status <- lift (getitem (DF st) "status_name");;
     modify (with_DF (select_rows (DF st) (cell_eq_str "Succeed" <$> status)));;
     st <- get;;
     logger INFO (MsgFilterDone (client_name st)))
    (fun e =>
       logger ERROR (MsgFilterError e);;
       raise e);;
  st <- get;;
  ret (DF st).

Definition output_folder : string := "saveАвто".

Definition selected_columns : list string :=
  [ "external_id"; "client_order_id"; "client_name"; "currency_name";
    "created_at"; "accepted_at"; "amount"; "overall_commission";
    "status_name"; "transaction_type"; "comment"; "accepted_amount" ].

(** [folder_path.mkdir(exist_ok=True)]: the directory is there afterwards.
    (The program has just deleted it in the same place, so creating it again
    is not given a failing case.) *)
Definition mkdir_exist_ok : M unit :=
  modify (fun st => match save_dir st with
                    | Some _ => st
                    | None => with_save_dir (Some []) st
                    end).

(** Writing a file replaces a file of the same path.  A write that fails
    after the target was opened has removed what was at the path and leaves
    an unfinished file there. *)
Definition other_path (path : string) (f : string * FileData) : bool :=
  negb (String.eqb (fst f) path).

Definition write_file (path : string) (data : FileData) : M unit :=
  fun st =>
    match write_error env path, save_dir st with
    | Some (AtOpen e), _ => (Raise e, st)
    | _, None => (Raise OSError, st)
    | Some (AfterOpen e remains), Some files =>
        (Raise e,
         with_unfinished
           ((path, remains) :: List.filter (other_path path) (unfinished st))
           (with_save_dir (Some (List.filter (other_path path) files)) st))
    | None, Some files =>
        (Ok tt,
         with_unfinished
           (List.filter (other_path path) (unfinished st))
           (with_save_dir
              (Some ((path, data)
                     :: List.filter (fun f => negb (String.eqb (fst f) path)) files))
              st))
    end.

(** [self.client_name in self.FILE_PREFIXES] and the lookup. *)
Definition file_prefix (name : Cell) : option string :=
  match name with
  | CStr s => FILE_PREFIXES !! s
  | _ => None
  end.

(** [series.astype(int) // 10**9] on a [datetime64[ns]] column: the
    conversion gives the stored 64-bit integers, which for [NaT] is the
    smallest one.  (The column has just been parsed, so it holds nothing
    but timestamps and [NaT].) *)
Definition NaT_value : Z := -9223372036854775808.

Definition epoch_seconds (c : Cell) : Result Cell :=
  match c with
  | CTime t => Ok (CInt (t / 1000000000))
  | CNaT => Ok (CInt (NaT_value / 1000000000))
  | _ => Raise TypeError
  end.

(** One turn of the loop of lines 438-442. *)
Definition nudge_column (col : string) : M unit :=
  st <- get;;
  cells <- lift (getitem (DF st) col);;
  stamps <- lift (mapR to_datetime_strict cells);;
  modify (with_DF (setitem (DF st) col (add_ns (seconds_ns 1) <$> stamps)));;
  st <- get;;
  if has_column col (DF st) && bool_decide (is_Some (file_prefix (client_name st)))
  then
    cells <- lift (getitem (DF st) col);;
    secs <- lift (mapR epoch_seconds cells);;
    modify (with_DF (setitem (DF st) col secs))
  else ret tt.

Definition name_text (name : Cell) : string :=
  match name with
  | CStr s => s
  | other => py_str env other
  end.

Definition result_save : M unit :=
  st <- get;;
  if df_empty (DF st) then
    logger WARNING (MsgEmptyFrame (client_name st))
  else
    mkdir_exist_ok;;
    let missing_columns :=
      List.filter (fun col => negb (has_column col (DF st))) selected_columns in
    match missing_columns with
    | _ :: _ => logger ERROR (MsgMissingColumns missing_columns)
    | [] =>
        client_id <- lift (if has_column "client_id" (DF st)
                           then match df_rows (DF st) with
                                | r :: _ => Ok (cell_at "client_id" r)
                                | [] => Raise IndexError
                                end
                           else Ok CNone);;
        match client_id with
        | CNone => logger ERROR MsgNoClientId
        | _ =>
            nudge_column "created_at";;
            nudge_column "accepted_at";;
            start <- attribute start_date;;
            stop <- attribute end_date;;
            let formatted_date := strftime_dmY start ++ "-" ++ strftime_dmY stop in
            st <- get;;
            match file_prefix (client_name st) with
            | Some prefix =>
                let file_path :=
                  output_folder ++ "/" ++ prefix ++ " " ++ formatted_date ++ ".csv" in
                try_except
                  (table <- lift (project (DF st) selected_columns);;
                   write_file file_path (mk_file CSV selected_columns table);;
                   logger INFO (MsgSavedCSV file_path))
                  (fun e => logger ERROR (MsgCSVError e);; raise e)
            | None =>
                let file_path :=
                  output_folder ++ "/" ++ name_text (client_name st) ++ "_"
                  ++ formatted_date ++ "_2024.xlsx" in
                try_except
                  (table <- lift (project (DF st) selected_columns);;
                   write_file file_path
                     (mk_file (Excel "Данные") selected_columns table);;
                   logger INFO (MsgSavedExcel file_path))
                  (fun e => logger ERROR (MsgExcelError e);; raise e)
            end
        end
    end.

(** The body of the loop of [activate] for one entry of [CLIENTS].
    [get_current_day] is called without an argument. *)
Definition activate_client (client_id : Z) (config : ClientConfig) : M unit :=
  logger INFO (MsgClientStart client_id);;
  modify (with_col_filter (columns_filter config));;
  w <- get_current_day default_delta_time;;
  modify (with_window w.1 w.2);;
  df <- create_df client_id w.1 w.2;;
  if df_empty df then
    logger WARNING (MsgNoData client_id)
  else
    df <- set_new_col df;;
    st <- get;;
    df <- filter_data_time df (col_filter st);;
    result_save;;
    logger INFO (MsgClientDone client_id).

Fixpoint activate_over (clients : list (Z * ClientConfig)) : M unit :=
  match clients with
  | [] => ret tt
  | (client_id, config) :: rest =>
      activate_client client_id config;;
      activate_over rest
  end.

Definition activate : M unit := activate_over CLIENTS.

(** [EveryDayAuto.__init__].  The connection string is blank in the
    repository; the connection is represented by [read_sql]. *)
Definition init : M unit :=
  logger INFO MsgInit;;
  modify (fun st =>
    mk_state empty_df "" (CStr "") 0 (start_date st) (end_date st)
             (save_dir st) (logging_configured st) (log st) (clock_reads st)
             (unfinished st));;
  activate.

(** [shutil.rmtree("saveАвто")]. *)
Definition rmtree : M unit :=
  fun st => match save_dir st with
            | Some _ => (Ok tt, with_save_dir None st)
            | None => (Raise FileNotFoundError, st)
            end.

(** Lines 16-31: the logger gets its level, formatter and handler. *)
Definition configure_logging : M unit :=
  modify (fun st =>
    mk_state (DF st) (col_filter st) (client_name st) (delta_time st)
             (start_date st) (end_date st) (save_dir st) true (log st)
             (clock_reads st) (unfinished st)).

(** The module top level of [auto_main.py]. *)
Definition main : M unit :=
  rmtree;;
  configure_logging;;
  init.

End EveryDayAuto.

(** The process as it starts: no object yet, nothing logged, clock unread;
    [dir] is the output directory left by earlier runs. *)
Definition initial_state (dir : option (list (string * FileData))) : State :=
  mk_state empty_df "" (CStr "") 0 None None dir false [] 0 [].

(** ** Fixtures: a parser for [YYYY-MM-DD hh:mm:ss], sample frames and
    environments used by the examples below. *)
Module Fixtures.

Definition digit_value (c : ascii) : option Z :=
  if is_digit c then Some (Z.of_nat (nat_of_ascii c) - 48) else None.

Fixpoint number (acc : Z) (s : list ascii) : option Z :=
  match s with
  | [] => Some acc
  | c :: s' => d ← digit_value c; number (acc * 10 + d) s'
  end.

Fixpoint chars (s : string) : list ascii :=
  match s with
  | EmptyString => []
  | String c s' => c :: chars s'
  end.

(** CPython's [_ymd2ord], from March-based years. *)
Definition ymd2ord (y m d : Z) : Z :=
  let y' := y - 1 in
  y' * 365 + y' / 4 - y' / 100 + y' / 400
  + nth (Z.to_nat (m - 1)) days_before_month_table 0
  + (if (2 <? m) && (y mod 4 =? 0) && (negb (y mod 100 =? 0) || (y mod 400 =? 0))
     then 1 else 0)
  + d.

Definition parse_iso (s : string) : option Z :=
  match chars s with
  | [y1; y2; y3; y4; _; m1; m2; _; d1; d2; _; h1; h2; _; i1; i2; _; s1; s2] =>
      y ← number 0 [y1; y2; y3; y4];
      m ← number 0 [m1; m2];
      d ← number 0 [d1; d2];
      h ← number 0 [h1; h2];
      i ← number 0 [i1; i2];
      sec ← number 0 [s1; s2];
      Some (to_ns (mk_datetime (ymd2ord y m d) h i sec 0))
  | _ => None
  end.

Definition transaction (ext : string) (client : Z) (accepted_at : string)
    (amount accepted : float) (status : Z) (kind name : string) : Row :=
  list_to_map
    [ ("external_id", CStr ext); ("client_order_id", CStr "order");
      ("client_id", CInt client); ("currency_id", CInt 1);
      ("created_at", CStr accepted_at); ("accepted_at", CStr accepted_at);
      ("amount", CFloat amount); ("accepted_amount", CFloat accepted);
      ("service_commission", CFloat 1.5); ("mid_commission", CFloat 0.5);
      ("status_name", CInt status); ("comment", CStr ""); ("type", CInt 0);
      ("provodka", CStr ""); ("mid_id", CInt 7); ("client_name", CStr name);
      ("currency_name", CStr "RUB"); ("transaction_type", CStr kind) ].

Definition query_columns : list string :=
  [ "external_id"; "client_order_id"; "client_id"; "currency_id"; "created_at";
    "accepted_at"; "amount"; "accepted_amount"; "service_commission";
    "mid_commission"; "status_name"; "comment"; "type"; "provodka"; "mid_id";
    "client_name"; "currency_name"; "transaction_type" ].

(** Three rows of client 1282; the first two share their external id. *)
Definition sample_df (client : Z) : DataFrame :=
  mk_df query_columns
    [ (0%nat, transaction "a" client "2024-11-18 10:00:00.123" 0 200 4 "invoice" "Shop");
      (1%nat, transaction "a" client "2024-11-18 09:00:00" 5 200 4 "invoice" "Shop");
      (2%nat, transaction "b" client "2024-11-18 08:00:00" 5 300 3 "withdraw" "Shop") ].

(** A frame without the columns normalization needs. *)
Definition broken_df : DataFrame :=
  mk_df ["external_id"] [(0%nat, {[ "external_id" := CStr "a" ]})].

(** Tuesday 2024-11-19, 09:30. *)
Definition tuesday : datetime := mk_datetime 739209 9 30 0 0.

(** Monday 2024-11-18, 09:30. *)
Definition monday : datetime := mk_datetime 739208 9 30 0 0.

Definition env_of (today : datetime) (db : Z -> Result DataFrame) : Env :=
  mk_env (fun _ => today) (fun client _ _ => db client) parse_iso
         (fun _ => None) (fun _ => "None").

(** Every client has the three sample rows. *)
Definition env_ok : Env := env_of tuesday (fun client => Ok (sample_df client)).

(** The query fails for every client. *)
Definition env_db_down : Env := env_of tuesday (fun _ => Raise OSError).

(** Every client has data and no file can be written. *)
Definition env_disk_full : Env :=
  mk_env (fun _ => tuesday) (fun client _ _ => Ok (sample_df client)) parse_iso
         (fun _ => Some (AfterOpen OSError (mk_file (Excel "Данные") [] [])))
         (fun _ => "None").

(** Wednesday 2024-11-20, 09:30; client 1235 has one successful record
    accepted on 2024-11-18 at 23:30:00 by the source's clock. *)
Definition wednesday : datetime := mk_datetime 739210 9 30 0 0.

Definition late_record_df : DataFrame :=
  mk_df query_columns
    [ (0%nat, transaction "late" 1235 "2024-11-18 23:30:00" 10 10 4 "invoice" "Far") ].

Definition env_late_record : Env :=
  env_of wednesday (fun _ => Ok late_record_df).

(** The first configured client gets a frame that normalization rejects. *)
Definition env_broken_first : Env :=
  env_of tuesday (fun client => if client =? 1282 then Ok broken_df
                                else Ok (sample_df client)).

(** The sample frame after normalization, an object whose window is
    Monday 2024-11-18 to Tuesday 2024-11-19, and the time filter run on
    them. *)
Definition normalized_sample : DataFrame :=
  match normalize "accepted_at" (sample_df 1282) with
  | Ok df => df
  | Raise _ => empty_df
  end.

Definition window_state : State :=
  with_window (mk_datetime 739208 0 0 0 0) (mk_datetime 739209 0 0 0 0)
    (initial_state (Some [])).

Definition filtered_sample : Result DataFrame * State :=
  filter_data_time env_ok normalized_sample "accepted_at" window_state.

Definition frame_of (r : Result DataFrame) : DataFrame :=
  match r with
  | Ok df => df
  | Raise _ => empty_df
  end.

(** The float nearest to 0.1, and the finite float [2^1023]. *)
Definition tenth : float := (1 / 10)%float.
Definition huge : float := 0x1p1023%float.

(** One successful record of client 1282 with the given commissions and
    accepted amount. *)
Definition commission_df (mid service accepted : float) : DataFrame :=
  mk_df query_columns
    [ (0%nat,
       <["mid_commission" := CFloat mid]>
         (<["service_commission" := CFloat service]>
            (transaction "a" 1282 "2024-11-18 10:00:00" accepted accepted 4
                         "invoice" "Shop"))) ].

(** The commission cells of a frame after normalization. *)
Definition commissions_of (df : DataFrame) : list Cell :=
  cell_at "overall_commission" <$> df_rows (frame_of (normalize "accepted_at" df)).

End Fixtures.

(** ** Predicates used in the statements below *)

(** A computation leaves an observation [f] of the state as it was. *)
Definition preserves {X A} (f : State -> X) (m : M A) : Prop :=
  forall st, f (m st).2 = f st.

(** The window attributes of the object. *)
Definition window (st : State) : option datetime * option datetime :=
  (start_date st, end_date st).

(** The files of the output directory (none when it does not exist). *)
Definition files (st : State) : list (string * FileData) :=
  default [] (save_dir st).

(** [result_save] cannot tell the client: there is no [client_id] column, or
    the first row holds [None] in it. *)
Definition client_id_undetermined (df : DataFrame) : Prop :=
  has_column "client_id" df = false
  \/ exists r rs, df_rows df = r :: rs /\ cell_at "client_id" r = CNone.

(** What lines 355-358 do to one timestamp cell, and to one row. *)
Definition adjust (env : Env) (plus : Z) (c : Cell) : Cell :=
  add_ns (hours_ns plus)
    (to_datetime_coerce env
       (match remove_microseconds c with Ok c' => c' | Raise _ => c end)).

Definition shift_row (env : Env) (plus : Z) (r : nat * Row) : nat * Row :=
  (r.1, <["accepted_at" := adjust env plus (cell_at "accepted_at" r)]>
          (<["created_at" := adjust env plus (cell_at "created_at" r)]> r.2)).

(** The value of the window column lies in [[start, stop)]. *)
Definition in_window (col : string) (start stop : datetime) (r : nat * Row) : bool :=
  match cell_at col r with
  | CTime t => (to_ns start <=? t) && (t <? to_ns stop)
  | _ => false
  end.

Definition succeeded (r : nat * Row) : bool :=
  cell_eq_str "Succeed" (cell_at "status_name" r).

(** A column rewritten cell by cell. *)
Definition map_column (c : string) (g : Cell -> Cell) (df : DataFrame) : DataFrame :=
  mk_df (df_columns df) ((fun r => set_cell c r (g (cell_at c r))) <$> df_rows df).

(** [remove_microseconds] where it returns. *)
Definition stripped (c : Cell) : Cell :=
  match remove_microseconds c with Ok c' => c' | Raise _ => c end.

(** Normalization row by row (lines 263-272 of [set_new_col]). *)
Definition commission_cell (mid svc acc : Cell) : Result Cell :=
  rate ← cell_add mid svc;
  share ← cell_truediv acc 100%float;
  product ← cell_mul rate share;
  cell_round3 product.

Definition commission_column (mid svc acc : list Cell) : Result (list Cell) :=
  rate ← zipR cell_add mid svc;
  share ← mapR (fun a => cell_truediv a 100%float) acc;
  product ← zipR cell_mul rate share;
  mapR cell_round3 product.

Definition commission (r : nat * Row) : Result Cell :=
  commission_cell (cell_at "mid_commission" r) (cell_at "service_commission" r)
                  (cell_at "accepted_amount" r).

Definition commission_total (r : nat * Row) : Cell :=
  match commission r with
  | Ok c => c
  | Raise _ => NaN
  end.

Definition backfill_withdraw (r : nat * Row) : nat * Row :=
  set_cell "amount" r
    (if cell_eq_str "withdraw" (cell_at "transaction_type" r)
     then cell_at "accepted_amount" r else cell_at "amount" r).

Definition backfill_zero (r : nat * Row) : nat * Row :=
  set_cell "amount" r
    (if cell_eq_zero (cell_at "amount" r)
     then cell_at "accepted_amount" r else cell_at "amount" r).

Definition label_row (r : nat * Row) : nat * Row :=
  set_cell "status_name" r (map_dict STATUS_DICT (cell_at "status_name" r)).

Definition prepared_row (r : nat * Row) : nat * Row :=
  label_row (backfill_zero (backfill_withdraw r)).

Definition normalize_row (r : nat * Row) : nat * Row :=
  set_cell "overall_commission" (prepared_row r) (commission_total (prepared_row r)).

(** The frame after line 272, and lines 275-279. *)
Definition normalized_columns (df : DataFrame) : list string :=
  add_column "overall_commission"
    (add_column "amount" (add_column "amount" (df_columns df))).

Definition finish (sort_column : string) (df : DataFrame) : Result DataFrame :=
  df ← drop_duplicates "external_id" df;
  df ← sort_values sort_column df;
  Ok (reset_index df).

(** The status label of a row is erased. *)
Definition unlabel (r : nat * Row) : nat * Row := set_cell "status_name" r NaN.

(** No two cells of the list are equal as keys. *)
Inductive Distinct : list Cell -> Prop :=
| Distinct_nil : Distinct []
| Distinct_cons (x : Cell) (l : list Cell) :
    Forall (fun y => cell_eqb x y = false) l -> Distinct l -> Distinct (x :: l).

(** The object at the moment the processing stages of a client start: the
    client's filter column and window are stored, the clock has been read
    once, and the start, the window and the load have been logged. *)
Definition loaded (cid : Z) (cfg : ClientConfig) (w : datetime * datetime)
    (st : State) : State :=
  with_log (log st ++ [ (INFO, MsgClientStart cid); (INFO, MsgWindow w.1 w.2);
                        (INFO, MsgCreateDF cid); (INFO, MsgLoaded cid) ])
    (with_window w.1 w.2
       (with_clock_reads (S (clock_reads st))
          (with_col_filter (columns_filter cfg) st))).

(** One of the three processing stages of a client raises [e], leaving the
    state [st']: normalization; or, after it, the time filter; or, after
    both, the report writer. *)
Inductive stage_failure (env : Env) (df : DataFrame) (st : State) (e : Exc)
    (st' : State) : Prop :=
| normalization_fails :
    set_new_col df st = (Raise e, st') -> stage_failure env df st e st'
| time_filter_fails (d1 : DataFrame) (s1 : State) :
    set_new_col df st = (Ok d1, s1) ->
    filter_data_time env d1 (col_filter s1) s1 = (Raise e, st') ->
    stage_failure env df st e st'
| report_writer_fails (d1 : DataFrame) (s1 : State) (d2 : DataFrame) (s2 : State) :
    set_new_col df st = (Ok d1, s1) ->
    filter_data_time env d1 (col_filter s1) s1 = (Ok d2, s2) ->
    result_save env s2 = (Raise e, st') ->
    stage_failure env df st e st'.

(** A numeric cell that is not below zero ([cell >= 0]). *)
Definition cell_nonneg (c : Cell) : bool :=
  match c with
  | CInt z => 0 <=? z
  | CFloat f => PrimFloat.leb 0 f
  | _ => false
  end.

(** The commission as the specification writes it: the product of the rate
    and the accepted amount divided by 100, then rounded. *)
Definition stated_commission (mid service accepted : float) : float :=
  round3 (PrimFloat.div (PrimFloat.mul (PrimFloat.add mid service) accepted) 100%float).

(** A decoded binary64 value that is not negative: a zero of either sign, a
    positive number, plus infinity, or NaN. *)
Definition sf_notneg (x : spec_float) : bool :=
  match x with
  | S754_zero _ | S754_nan => true
  | S754_infinity s | S754_finite s _ _ => negb s
  end.

Definition SF_two52 : spec_float := S754_finite false 4503599627370496 0.

(** ** Predicates used by the further properties *)

(** A dot followed by a digit occurs in the string: what
    [remove_microseconds] looks for. *)
Fixpoint has_fraction (s : string) : bool :=
  match s with
  | EmptyString => false
  | String c s' => (Ascii.eqb c "."%char && starts_with_digit s') || has_fraction s'
  end.

Fixpoint all_digits (s : string) : bool :=
  match s with
  | EmptyString => true
  | String c s' => is_digit c && all_digits s'
  end.

Fixpoint no_dot (s : string) : bool :=
  match s with
  | EmptyString => true
  | String c s' => negb (Ascii.eqb c "."%char) && no_dot s'
  end.

(** What [result_save] does to one timestamp cell (lines 438-442): parsed,
    one second later, and as whole epoch seconds for a client with a file
    prefix, where a missing timestamp becomes the seconds of [NaT_value]. *)
Definition saved_stamp (env : Env) (seconds : bool) (c : Cell) : Cell :=
  match add_ns (seconds_ns 1) (to_datetime_coerce env c) with
  | CTime t => if seconds then CInt (t / 1000000000) else CTime t
  | CNaT => if seconds then CInt (NaT_value / 1000000000) else CNaT
  | other => other
  end.

(** The line of the output file for one row of the frame. *)
Definition saved_row (env : Env) (seconds : bool) (r : nat * Row) : list Cell :=
  (fun c => if String.eqb c "created_at" || String.eqb c "accepted_at"
            then saved_stamp env seconds (cell_at c r)
            else cell_at c r) <$> selected_columns.

(** Lines 444-466: where the file goes and in which format. *)
Definition saved_path (env : Env) (name : Cell) (start stop : datetime) : string :=
  let formatted_date := strftime_dmY start ++ "-" ++ strftime_dmY stop in
  match file_prefix name with
  | Some prefix => output_folder ++ "/" ++ prefix ++ " " ++ formatted_date ++ ".csv"
  | None => output_folder ++ "/" ++ name_text env name ++ "_" ++ formatted_date
            ++ "_2024.xlsx"
  end.

Definition saved_format (name : Cell) : FileFormat :=
  match file_prefix name with
  | Some _ => CSV
  | None => Excel "Данные"
  end.

Definition has_prefix (name : Cell) : bool :=
  bool_decide (is_Some (file_prefix name)).

(** Two states that differ in the frame only. *)
Definition same_but_DF (st st' : State) : Prop := with_DF (DF st) st' = st.









(** ** [SLA.py]

    The report script reads a workbook of transactions, asks the admin
    database about the identifiers of its first column and writes
    [SLA.xlsx]. *)

(** [df.drop_duplicates()]: two rows are duplicates when they agree on
    every column; the first of them stays. *)
Definition row_same (cols : list string) (r1 r2 : nat * Row) : bool :=
  forallb (fun c => cell_eqb (cell_at c r1) (cell_at c r2)) cols.

Fixpoint dedup_rows (cols : list string) (seen rows : list (nat * Row))
    : list (nat * Row) :=
  match rows with
  | [] => []
  | r :: rs =>
      if existsb (row_same cols r) seen then dedup_rows cols seen rs
      else r :: dedup_rows cols (r :: seen) rs
  end.

Definition drop_duplicate_rows (df : DataFrame) : DataFrame :=
  mk_df (df_columns df) (dedup_rows (df_columns df) [] (df_rows df)).

(** [df.to_excel(path, index=False)]: the header and the lines. *)
Definition to_table (df : DataFrame) : list (list Cell) :=
  (fun r => (fun c => cell_at c r) <$> df_columns df) <$> df_rows df.

(** What the script reads from outside: the workbook at a path, the answer
    of the admin query for the identifiers and the two bounds, and the
    outcome of writing the report. *)
Record SLAEnv : Type := mk_sla_env {
  read_excel : string -> Result DataFrame;
  read_admin : list Cell -> string -> string -> Result DataFrame;
  to_excel_error : option WriteFailure
}.

(** What it leaves behind: the lines printed and the file [SLA.xlsx], as
    written or as a failed write left it. *)
Record SLAWorld : Type := mk_sla_world {
  printed : list string;
  sla_xlsx : option FileData
}.

(** The attributes of a constructed [SLA] object.  The set [ID] is kept as
    the cells it was built from: only which cells are in it is used. *)
Record SLAObject : Type := mk_sla {
  df_zai : DataFrame;
  start : string;
  stop : string;
  ID : list Cell;
  result : DataFrame
}.

Definition load_transaction (env : SLAEnv) (path : string) (w : SLAWorld)
    : Result DataFrame * SLAWorld :=
  match read_excel env path with
  | Raise FileNotFoundError =>
      (Ok empty_df, mk_sla_world (printed w ++ ["Файл не найден."]) (sla_xlsx w))
  | other => (other, w)
  end.

(** [self.df_zai.iloc[:, 0]] is out of bounds on a frame without columns. *)
Definition get_id_zai (df_zai : DataFrame) : Result (list Cell) :=
  match df_columns df_zai with
  | first_column :: _ => Ok (cell_at first_column <$> df_rows df_zai)
  | [] => Raise IndexError
  end.

(** Lines 148-153 of [load_admin], on the frame. *)
Definition admin_report (env : SLAEnv) (ID : list Cell) (start stop : string)
    : Result DataFrame :=
  df_combined ← read_admin env ID start stop;
  status ← getitem df_combined "admin_status";
  let df_combined :=
    setitem df_combined "admin_status" (map_dict SLA_STATUS_DICT <$> status) in
  let df_combined :=
    setitem df_combined "gateway_status" ((fun _ => CNone) <$> df_rows df_combined) in
  status ← getitem df_combined "admin_status";
  let df_combined :=
    select_rows df_combined ((fun c => negb (cell_eq_str "Истек" c)) <$> status) in
  let df_combined := drop_duplicate_rows df_combined in
  sort_values "gateway_admin_name" df_combined.

Definition load_admin (env : SLAEnv) (ID : list Cell) (start stop : string)
    (w : SLAWorld) : Result DataFrame * SLAWorld :=
  match admin_report env ID start stop with
  | Ok df_combined =>
      match to_excel_error env with
      | Some (AtOpen e) => (Raise e, w)
      | Some (AfterOpen e remains) =>
          (Raise e, mk_sla_world (printed w) (Some remains))
      | None =>
          (Ok df_combined,
           mk_sla_world (printed w)
             (Some (mk_file (Excel "Sheet1") (df_columns df_combined)
                      (to_table df_combined))))
      end
  | Raise e => (Raise e, w)
  end.

(** [SLA.__init__].  The connection string is blank in the repository; the
    connection is represented by [read_admin]. *)
Definition SLA_init (env : SLAEnv) (start stop path : string) (w : SLAWorld)
    : Result SLAObject * SLAWorld :=
  match load_transaction env path w with
  | (Ok df_zai, w) =>
      match get_id_zai df_zai with
      | Ok ID =>
          match load_admin env ID start stop w with
          | (Ok result, w) => (Ok (mk_sla df_zai start stop ID result), w)
          | (Raise e, w) => (Raise e, w)
          end
      | Raise e => (Raise e, w)
      end
  | (Raise e, w) => (Raise e, w)
  end.

(** The module top level of [SLA.py]. *)
Definition SLA_main (env : SLAEnv) (w : SLAWorld) : Result SLAObject * SLAWorld :=
  SLA_init env "2024-11-12 00:00:00" "2024-11-19 00:00:00" "файл.xlsx" w.

(** A row of the query answer as the report shows it. *)
Definition report_row (r : nat * Row) : nat * Row :=
  set_cell "gateway_status"
    (set_cell "admin_status" r (map_dict SLA_STATUS_DICT (cell_at "admin_status" r)))
    CNone.

(** No two rows of the list agree on every column. *)
Inductive DistinctRows (cols : list string) : list (nat * Row) -> Prop :=
| DistinctRows_nil : DistinctRows cols []
| DistinctRows_cons (x : nat * Row) (l : list (nat * Row)) :
    Forall (fun y => row_same cols x y = false) l -> DistinctRows cols l ->
    DistinctRows cols (x :: l).

(** Fixtures for the report. *)
Definition admin_row (id : string) (amount : Z) (status mid : Z) (kind : string) : Row :=
  {[ "external_mid_id" := CStr id; "admin_amount" := CFloat (float_of_Z amount);
     "admin_status" := CInt status; "gateway_admin_name" := CInt mid;
     "accepted_at" := CStr "2024-11-13 10:00:00"; "currency_name" := CStr "RUB";
     "transaction_type" := CStr kind ]}.

Definition admin_columns : list string :=
  [ "external_mid_id"; "admin_amount"; "admin_status"; "gateway_admin_name";
    "accepted_at"; "currency_name"; "transaction_type" ].

Definition admin_answer : DataFrame :=
  mk_df admin_columns
    [ (0%nat, admin_row "t1" 100 4 7 "invoice");
      (1%nat, admin_row "t2" 50 11 3 "invoice");
      (2%nat, admin_row "t1" 100 4 7 "invoice");
      (3%nat, admin_row "t3" 70 12 5 "withdraw") ].

Definition workbook : DataFrame :=
  mk_df ["id"; "sum"]
    [ (0%nat, {[ "id" := CStr "t1"; "sum" := CInt 100 ]});
      (1%nat, {[ "id" := CStr "t2"; "sum" := CInt 50 ]});
      (2%nat, {[ "id" := CStr "t3"; "sum" := CInt 70 ]}) ].

Definition sla_env_ok : SLAEnv :=
  mk_sla_env (fun _ => Ok workbook) (fun _ _ _ => Ok admin_answer) None.

Definition sla_env_no_workbook : SLAEnv :=
  mk_sla_env (fun _ => Raise FileNotFoundError) (fun _ _ _ => Ok admin_answer) None.

Definition fresh_world : SLAWorld := mk_sla_world [] None.

(** * Properties *)

Import Fixtures.

(** ** Worked examples *)

Example strftime_20241118 :
  strftime_dmY (mk_datetime 739208 0 0 0 0) = "18.11.2024".
Proof. reflexivity. Qed.

Example monday_is_weekday_0 : weekday monday = 0 /\ weekday tuesday = 1.
Proof. split; reflexivity. Qed.

Example strip_fraction_example :
  strip_fraction false "2024-11-18 10:00:00.123456" = "2024-11-18 10:00:00".
Proof. reflexivity. Qed.

Example parse_iso_example :
  parse_iso "2024-11-18 10:00:00" = Some (to_ns (mk_datetime 739208 10 0 0 0)).
Proof. reflexivity. Qed.

(** Scenario A of the specification: two rows with one external id give one
    output row, labelled [Succeed]. *)
Example scenario_A :
  let r := activate_over env_ok [(1282, mk_config "accepted_at" 0)]
             (initial_state None) in
  r.1 = Ok tt
  /\ (fun r => cell_at "external_id" r) <$> df_rows (DF r.2) = [CStr "a"]
  /\ (fun r => cell_at "status_name" r) <$> df_rows (DF r.2) = [CStr "Succeed"]
  /\ fst <$> default [] (save_dir r.2)
     = ["saveАвто/Shop_18.11.2024-19.11.2024_2024.xlsx"].
Proof. vm_compute. repeat split; reflexivity. Qed.

(** A record of client 1235 (offset 3 hours) accepted on 2024-11-18 at
    23:30:00 is moved to 2024-11-19 02:30:00 and falls in the window of
    Wednesday's run, which is 2024-11-19 00:00 to 2024-11-20 00:00. *)
Example offset_moves_the_record_not_the_window :
  let r := activate_over env_late_record [(1235, mk_config "accepted_at" 3)]
             (initial_state None) in
  r.1 = Ok tt
  /\ window r.2 = (Some (mk_datetime 739209 0 0 0 0), Some (mk_datetime 739210 0 0 0 0))
  /\ (fun r => cell_at "external_id" r) <$> df_rows (DF r.2) = [CStr "late"]
  /\ fst <$> files r.2 = ["saveАвто/Far_19.11.2024-20.11.2024_2024.xlsx"].
Proof. vm_compute. repeat split; reflexivity. Qed.

(** A client without rows is skipped with a warning and the next client is
    processed. *)
Example empty_client_is_skipped :
  let env := env_of tuesday (fun client => if client =? 1282 then Ok empty_df
                                           else Ok (sample_df client)) in
  let r := activate_over env [(1282, mk_config "accepted_at" 0);
                              (1130, mk_config "accepted_at" 0)]
             (initial_state None) in
  r.1 = Ok tt
  /\ In (WARNING, MsgNoData 1282) (log r.2)
  /\ In (INFO, MsgClientDone 1130) (log r.2).
Proof. vm_compute. repeat split; auto 20. Qed.

(** ** Tactics for the two monads *)

Ltac bool_true :=
  repeat (rewrite andb_true_iff || split);
  first [apply Z.ltb_lt | apply Z.leb_le | apply Z.eqb_eq | idtac];
  unfold MAXORDINAL in *; try lia.

Ltac run := unfold bind, ret, lift, raise, get, modify, try_except, logger,
  attribute; simpl.

(** ** The status tables (claim C8) *)

Lemma STATUS_DICT_unknown (k : Z) :
  k ∉ known_codes -> STATUS_DICT !! k = None /\ SLA_STATUS_DICT !! k = None.
Proof.
  intros Hk. unfold known_codes in Hk.
  assert (k <> 2 /\ k <> 3 /\ k <> 4 /\ k <> 8 /\ k <> 10 /\ k <> 11
          /\ k <> 12 /\ k <> 13) as (?&?&?&?&?&?&?&?).
  { repeat split; intros ->; apply Hk; set_solver. }
  unfold STATUS_DICT, SLA_STATUS_DICT; simpl.
  split; repeat (rewrite lookup_insert_ne by congruence); apply lookup_empty.
Qed.

Lemma STATUS_DICT_agree (k : Z) :
  k <> 12 -> STATUS_DICT !! k = SLA_STATUS_DICT !! k.
Proof.
  intros Hk. unfold STATUS_DICT, SLA_STATUS_DICT; simpl.
  rewrite !(lookup_insert (M := gmap Z)).
  repeat case_decide; subst; congruence.
Qed.

(** C8, as stated, does not hold: it is the daily pipeline that labels code
    12 [Reversal] and the ad-hoc report that labels it [Обнуление]
    (zeroed out), not the other way round. *)
Lemma C8_labels_are_swapped :
  ~ (STATUS_DICT !! 12 = Some "Обнуление"
     /\ SLA_STATUS_DICT !! 12 = Some "Reversal").
Proof. intros [H _]. vm_compute in H. discriminate H. Qed.

(** C8, amended: the daily pipeline maps code 12 to [Reversal] and the
    ad-hoc report maps it to [Обнуление]; on every other code the two
    tables agree, the seven other known codes have their fixed labels, and
    a code outside the known set has no label: [Series.map] turns it into a
    missing value, and [map_dict] is a total function. *)
Theorem C8_status_translators :
  STATUS_DICT !! 12 = Some "Reversal"
  /\ SLA_STATUS_DICT !! 12 = Some "Обнуление"
  /\ (forall k : Z, k <> 12 -> STATUS_DICT !! k = SLA_STATUS_DICT !! k)
  /\ (fun k : Z => STATUS_DICT !! k) <$> [2; 3; 4; 8; 10; 11; 13]
     = [ Some "В обработке"; Some "Провально"; Some "Succeed";
         Some "Фейл по нашей вине"; Some "Отменено"; Some "Истек";
         Some "Отмена до реквизитов" ]
  /\ (forall k : Z, k ∉ known_codes ->
        STATUS_DICT !! k = None /\ SLA_STATUS_DICT !! k = None
        /\ map_dict STATUS_DICT (CInt k) = NaN
        /\ map_dict SLA_STATUS_DICT (CInt k) = NaN).
Proof.
  split; [reflexivity|]. split; [reflexivity|].
  split; [exact STATUS_DICT_agree|]. split; [reflexivity|].
  intros k Hk. destruct (STATUS_DICT_unknown k Hk) as [H1 H2].
  unfold map_dict, dict_get_cell. rewrite H1, H2. auto.
Qed.

Lemma C8_status_translators_witness :
  (5 <> 12 -> STATUS_DICT !! 5 = SLA_STATUS_DICT !! 5)
  /\ (5 ∉ known_codes -> map_dict STATUS_DICT (CInt 5) = NaN).
Proof.
  destruct C8_status_translators as (_ & _ & Hagree & _ & Hunknown).
  split.
  - intros H. apply (Hagree 5 H).
  - intros H. apply (Hunknown 5 H).
Defined.

(** ** The window (claims C4 and C2) *)

Lemma current_day_of_ok (today : datetime) (delta : Z) :
  valid today -> 4 <= ordinal today -> 0 <= delta < 24 ->
  let lookback := if weekday today =? 0 then 3 else 1 in
  current_day_of today delta
  = Ok (mk_datetime (ordinal today - lookback) delta 0 0 0,
        mk_datetime (ordinal today) delta 0 0 0).
Proof.
  intros (Hord & _) H4 Hd lookback. unfold current_day_of, sub_days.
  assert (1 <= lookback <= 3) by (unfold lookback; destruct (weekday today =? 0); lia).
  fold lookback.
  replace ((0 <? ordinal today - lookback) && (ordinal today - lookback <=? MAXORDINAL))
    with true by (symmetry; bool_true).
  simpl. unfold replace.
  assert (c_int delta = true) as ->.
  { unfold c_int, INT_MIN, INT_MAX. apply andb_true_iff. split; apply Z.leb_le; lia. }
  simpl.
  replace ((0 <=? delta) && (delta <? 24)) with true by (symmetry; bool_true).
  reflexivity.
Qed.

Lemma get_current_day_run (env : Env) (delta : Z) (st : State) (w : datetime * datetime) :
  current_day_of (now env (clock_reads st)) delta = Ok w ->
  get_current_day env delta st
  = (Ok w, with_log (log st ++ [(INFO, MsgWindow w.1 w.2)])
             (with_clock_reads (S (clock_reads st)) st)).
Proof.
  intros H. unfold get_current_day, datetime_now. run. rewrite H. reflexivity.
Qed.

Lemma sub_same_time (o k h : Z) :
  sub (mk_datetime o h 0 0 0) (mk_datetime (o - k) h 0 0 0) = days k.
Proof.
  unfold sub, days, timedelta_of. simpl.
  replace (o - (o - k)) with k by lia.
  replace (0 + 0 * 60 + h * 3600 - (0 + 0 * 60 + h * 3600)) with 0 by lia.
  reflexivity.
Qed.

Lemma ltb_earlier_day (o k h : Z) :
  0 < k -> ltb (mk_datetime (o - k) h 0 0 0) (mk_datetime o h 0 0 0) = true.
Proof.
  intros Hk. unfold ltb, fields. simpl.
  replace (o - k <? o) with true by (symmetry; apply Z.ltb_lt; lia).
  reflexivity.
Qed.

(** C4: for a clock reading [today] (any date from 0001-01-04 on) the window
    of [get_current_day] is computed, its end is exactly one day after its
    start when [today] is not a Monday ([weekday() == 0]) and exactly three
    days after it when it is, and the start is before the end. *)
Theorem C4_window_length (env : Env) (delta : Z) (st : State) :
  let today := now env (clock_reads st) in
  valid today -> 4 <= ordinal today -> 0 <= delta < 24 ->
  exists start stop st',
    get_current_day env delta st = (Ok (start, stop), st')
    /\ (weekday today <> 0 -> sub stop start = days 1)
    /\ (weekday today = 0 -> sub stop start = days 3)
    /\ ltb start stop = true.
Proof.
  intros today Hv H4 Hd.
  pose proof (current_day_of_ok today delta Hv H4 Hd) as Hw. simpl in Hw.
  eexists _, _, _. split; [apply get_current_day_run; exact Hw|].
  split; [|split].
  - intros Hwd. apply Z.eqb_neq in Hwd. rewrite Hwd. apply sub_same_time.
  - intros Hwd. rewrite Hwd. simpl. apply sub_same_time.
  - apply ltb_earlier_day. destruct (weekday today =? 0); lia.
Qed.

Lemma C4_window_length_witness :
  exists start stop st',
    get_current_day (env_of monday (fun _ => Ok empty_df)) 0 (initial_state None)
    = (Ok (start, stop), st')
    /\ sub stop start = days 3 /\ ltb start stop = true.
Proof.
  destruct (C4_window_length (env_of monday (fun _ => Ok empty_df)) 0
              (initial_state None)) as (s & e & st' & Hrun & _ & H3 & Hlt).
  - unfold valid, MAXORDINAL; simpl; lia.
  - simpl; lia.
  - lia.
  - exists s, e, st'. split; [exact Hrun|]. split; [apply H3; reflexivity|exact Hlt].
Defined.

(** Frame rules: which steps leave an observation of the state alone. *)
Section Frame.

Context {X : Type} (f : State -> X).

Lemma preserves_ret {A} (a : A) : preserves f (ret a).
Proof. intros st. reflexivity. Qed.

Lemma preserves_raise {A} (e : Exc) : preserves f (raise (A := A) e).
Proof. intros st. reflexivity. Qed.

Lemma preserves_lift {A} (r : Result A) : preserves f (lift r).
Proof. intros st. reflexivity. Qed.

Lemma preserves_get : preserves f get.
Proof. intros st. reflexivity. Qed.

Lemma preserves_modify (g : State -> State) :
  (forall st, f (g st) = f st) -> preserves f (modify g).
Proof. intros H st. apply H. Qed.

Lemma preserves_bind {A B} (m : M A) (k : A -> M B) :
  preserves f m -> (forall a, preserves f (k a)) -> preserves f (bind m k).
Proof.
  intros Hm Hk st. unfold bind. specialize (Hm st).
  destruct (m st) as [[a|e] st1]; simpl in *.
  - rewrite Hk. exact Hm.
  - exact Hm.
Qed.

Lemma preserves_try {A} (m : M A) (h : Exc -> M A) :
  preserves f m -> (forall e, preserves f (h e)) -> preserves f (try_except m h).
Proof.
  intros Hm Hh st. unfold try_except. specialize (Hm st).
  destruct (m st) as [[a|e] st1]; simpl in *.
  - exact Hm.
  - rewrite Hh. exact Hm.
Qed.

Lemma preserves_attribute {A} (field : State -> option A) :
  preserves f (attribute field).
Proof. intros st. unfold attribute. destruct (field st); reflexivity. Qed.

End Frame.

Ltac frame_step :=
  first
    [ apply preserves_ret | apply preserves_raise | apply preserves_lift
    | apply preserves_get | apply preserves_attribute
    | apply preserves_bind; [|intros ?]
    | apply preserves_try; [|intros ?]
    | apply preserves_modify; intros ?; reflexivity
    | match goal with
      | |- preserves _ (match ?x with _ => _ end) => destruct x
      end ].

Ltac frame := repeat frame_step.

Lemma window_logger (lvl : Level) (msg : Message) : preserves window (logger lvl msg).
Proof. unfold logger. frame. Qed.

Lemma window_create_df (env : Env) (c : Z) (s e : datetime) :
  preserves window (create_df env c s e).
Proof. unfold create_df. frame; apply window_logger. Qed.

Lemma window_set_new_col (df : DataFrame) :
  preserves window (set_new_col df).
Proof. unfold set_new_col. frame; apply window_logger. Qed.

Lemma window_filter_data_time (env : Env) (df : DataFrame) (c : string) :
  preserves window (filter_data_time env df c).
Proof. unfold filter_data_time. frame; apply window_logger. Qed.

Lemma window_write_file (env : Env) (path : string) (data : FileData) :
  preserves window (write_file env path data).
Proof.
  intros st. unfold write_file.
  destruct (write_error env path) as [[]|], (save_dir st); reflexivity.
Qed.

Lemma window_mkdir : preserves window mkdir_exist_ok.
Proof.
  apply preserves_modify. intros st. destruct (save_dir st); reflexivity.
Qed.

Create HintDb window_db.
#[local] Hint Resolve window_logger window_create_df window_set_new_col
  window_filter_data_time window_write_file window_mkdir : window_db.

Lemma window_result_save (env : Env) : preserves window (result_save env).
Proof. unfold result_save, nudge_column. frame; auto with window_db. Qed.

(** The window attributes after the loop body for one client: whatever
    happens later in the body, they are the ones [get_current_day] gave for
    the default [delta_time]. *)
Lemma activate_client_window (env : Env) (cid : Z) (cfg : ClientConfig) (st : State)
    (w : datetime * datetime) :
  current_day_of (now env (clock_reads st)) default_delta_time = Ok w ->
  window (activate_client env cid cfg st).2 = (Some w.1, Some w.2).
Proof.
  intros Hw. unfold activate_client.
  unfold bind at 1. unfold logger at 1, modify at 1.
  unfold bind at 1. unfold modify at 1.
  unfold bind at 1. rewrite (get_current_day_run env _ _ w) by exact Hw.
  unfold bind at 1. unfold modify at 1.
  match goal with
  | |- window (?m ?s).2 = _ =>
      assert (preserves window m) as Hp; [|rewrite (Hp s); reflexivity]
  end.
  apply preserves_bind; [apply window_create_df|intros df].
  destruct (df_empty df); [apply window_logger|].
  apply preserves_bind; [apply window_set_new_col|intros df1].
  apply preserves_bind; [apply preserves_get|intros st1].
  apply preserves_bind; [apply window_filter_data_time|intros df2].
  apply preserves_bind; [apply window_result_save|intros _].
  apply window_logger.
Qed.

(** C2, as stated, does not hold: client 1235 is configured with an offset
    of 3 hours, and the window [activate] computes for it starts and ends at
    hour 0. *)
Lemma C2_window_ignores_offset :
  let cfg := mk_config "accepted_at" 3 in
  let st' := (activate_client env_ok 1235 cfg (initial_state (Some []))).2 in
  In (1235, cfg) CLIENTS
  /\ hour <$> start_date st' = Some 0
  /\ hour <$> end_date st' = Some 0
  /\ hour <$> start_date st' <> Some (plus_time cfg).
Proof.
  vm_compute. repeat split; auto 10. discriminate.
Qed.

(** C2, amended: [activate] calls [get_current_day] without an argument, so
    for every client, whatever its configured offset, the window stored on
    the object starts and ends at hour 0 (the default [delta_time]) with
    minute, second and microsecond zero; the start is the day before the
    clock reading, or three days before it on a Monday. *)
Theorem C2_runner_window_at_default_hour (env : Env) (cid : Z) (cfg : ClientConfig)
    (st : State) :
  let today := now env (clock_reads st) in
  valid today -> 4 <= ordinal today ->
  exists start stop,
    window (activate_client env cid cfg st).2 = (Some start, Some stop)
    /\ hour start = 0 /\ hour stop = 0
    /\ minute start = 0 /\ second start = 0 /\ microsecond start = 0
    /\ minute stop = 0 /\ second stop = 0 /\ microsecond stop = 0
    /\ ordinal stop = ordinal today
    /\ ordinal start = ordinal today - (if weekday today =? 0 then 3 else 1).
Proof.
  intros today Hv H4.
  pose proof (current_day_of_ok today 0 Hv H4 ltac:(lia)) as Hw. simpl in Hw.
  eexists _, _. split.
  - apply (activate_client_window env cid cfg st _ Hw).
  - simpl. repeat split; reflexivity.
Qed.

Lemma C2_runner_window_at_default_hour_witness :
  exists start stop,
    window (activate_client env_ok 1235 (mk_config "accepted_at" 3)
              (initial_state (Some []))).2 = (Some start, Some stop)
    /\ hour start = 0 /\ hour stop = 0.
Proof.
  destruct (C2_runner_window_at_default_hour env_ok 1235 (mk_config "accepted_at" 3)
              (initial_state (Some []))) as (s & e & Hw & Hs & He & _).
  - unfold valid, MAXORDINAL; simpl; lia.
  - simpl; lia.
  - exists s, e. auto.
Defined.

(** With an explicit argument, [get_current_day] does put both bounds at
    the given hour. *)
Lemma get_current_day_hours (env : Env) (delta : Z) (st : State) :
  let today := now env (clock_reads st) in
  valid today -> 4 <= ordinal today -> 0 <= delta < 24 ->
  exists start stop st',
    get_current_day env delta st = (Ok (start, stop), st')
    /\ hour start = delta /\ hour stop = delta.
Proof.
  intros today Hv H4 Hd.
  pose proof (current_day_of_ok today delta Hv H4 Hd) as Hw. simpl in Hw.
  eexists _, _, _. split; [apply get_current_day_run; exact Hw|].
  split; reflexivity.
Qed.

(** ** Program start (claim C10) *)

(** C10: the first thing the program does is delete the output directory.
    When the directory is missing, [shutil.rmtree] raises
    [FileNotFoundError] and the program ends there in the state it started
    in: logging not configured, no clock read, nothing logged, no client
    processed.  When it exists it is removed with every file in it, and
    logging and the run start from a state without it. *)
Theorem C10_output_directory_deleted_first (env : Env) (st : State) :
  (save_dir st = None -> main env st = (Raise FileNotFoundError, st))
  /\ (forall earlier,
        save_dir st = Some earlier ->
        main env st
        = bind configure_logging (fun _ => init env) (with_save_dir None st)).
Proof.
  unfold main, rmtree. split.
  - intros Hdir. unfold bind at 1. rewrite Hdir. reflexivity.
  - intros earlier Hdir. unfold bind at 1. rewrite Hdir. reflexivity.
Qed.

Lemma C10_output_directory_deleted_first_witness :
  main env_ok (initial_state None) = (Raise FileNotFoundError, initial_state None)
  /\ main env_ok (initial_state (Some [("saveАвто/old.csv", mk_file CSV [] [])]))
     = bind configure_logging (fun _ => init env_ok) (initial_state None).
Proof.
  split.
  - apply (C10_output_directory_deleted_first env_ok (initial_state None)).
    reflexivity.
  - apply (proj2 (C10_output_directory_deleted_first env_ok
                    (initial_state (Some [("saveАвто/old.csv", mk_file CSV [] [])])))
             [("saveАвто/old.csv", mk_file CSV [] [])]).
    reflexivity.
Defined.

(** ** The runner (claim C1) *)

Lemma activate_over_app (env : Env) (before after : list (Z * ClientConfig))
    (st : State) :
  activate_over env (before ++ after) st
  = bind (activate_over env before) (fun _ => activate_over env after) st.
Proof.
  revert st. induction before as [|[cid cfg] before IH]; intros st; simpl.
  - reflexivity.
  - unfold bind.
    destruct (activate_client env cid cfg st) as [[[]|e] st1]; [|reflexivity].
    rewrite IH. reflexivity.
Qed.

Lemma bind_run {A B} (m : M A) (k : A -> M B) (st : State) (a : A) (st' : State) :
  m st = (Ok a, st') -> bind m k st = k a st'.
Proof. intros H. unfold bind. rewrite H. reflexivity. Qed.

Lemma create_df_run (env : Env) (cid : Z) (start stop : datetime) (df : DataFrame)
    (st : State) :
  read_sql env cid start stop = Ok df ->
  create_df env cid start stop st
  = (Ok df, with_log (log st ++ [(INFO, MsgCreateDF cid); (INFO, MsgLoaded cid)]) st).
Proof.
  intros H. unfold create_df. run. rewrite H. simpl.
  unfold with_log. simpl. rewrite <- app_assoc. reflexivity.
Qed.

(** The loop body up to the stages, for a client whose query returns rows. *)
Lemma activate_client_loaded (env : Env) (cid : Z) (cfg : ClientConfig)
    (st : State) (w : datetime * datetime) (df : DataFrame) :
  current_day_of (now env (clock_reads st)) default_delta_time = Ok w ->
  read_sql env cid w.1 w.2 = Ok df ->
  df_empty df = false ->
  activate_client env cid cfg st
  = bind (set_new_col df) (fun d1 =>
      bind get (fun s1 =>
        bind (filter_data_time env d1 (col_filter s1)) (fun _ =>
          bind (result_save env) (fun _ => logger INFO (MsgClientDone cid)))))
      (loaded cid cfg w st).
Proof.
  intros Hw Hq Hrows. unfold activate_client.
  erewrite bind_run by reflexivity.
  erewrite bind_run by reflexivity.
  erewrite bind_run by (apply get_current_day_run; exact Hw).
  erewrite bind_run by reflexivity.
  erewrite bind_run by (apply create_df_run; exact Hq).
  rewrite Hrows. f_equal.
  unfold loaded, with_log, with_window, with_clock_reads, with_col_filter,
    logger, modify. simpl.
  rewrite <- !app_assoc. reflexivity.
Qed.

Lemma stage_failure_ends_the_client (env : Env) (cid : Z) (cfg : ClientConfig)
    (st : State) (w : datetime * datetime) (df : DataFrame) (e : Exc) (st' : State) :
  current_day_of (now env (clock_reads st)) default_delta_time = Ok w ->
  read_sql env cid w.1 w.2 = Ok df ->
  df_empty df = false ->
  stage_failure env df (loaded cid cfg w st) e st' ->
  activate_client env cid cfg st = (Raise e, st').
Proof.
  intros Hw Hq Hrows Hstage.
  rewrite (activate_client_loaded env cid cfg st w df Hw Hq Hrows).
  destruct Hstage as [H1|d1 s1 H1 H2|d1 s1 d2 s2 H1 H2 H3].
  - unfold bind at 1. rewrite H1. reflexivity.
  - unfold bind at 1. rewrite H1. unfold bind at 1, get at 1.
    unfold bind at 1. rewrite H2. reflexivity.
  - unfold bind at 1. rewrite H1. unfold bind at 1, get at 1.
    unfold bind at 1. rewrite H2. unfold bind at 1. rewrite H3. reflexivity.
Qed.

(** Normalization that rejects the frame: [set_new_col] logs and re-raises. *)
Lemma set_new_col_raises (df : DataFrame) (st : State) (e : Exc) :
  normalize (col_filter st) df = Raise e ->
  set_new_col df st
  = (Raise e, with_log (log st ++ [(INFO, MsgNormStart); (ERROR, MsgNormError e)]) st).
Proof.
  intros H. unfold set_new_col. run. rewrite H. simpl.
  unfold with_log. simpl. rewrite <- app_assoc. reflexivity.
Qed.

(** A failing extraction query is absorbed by [create_df]: the client is
    skipped and the loop body returns normally, writing nothing. *)
Lemma activate_client_fetch_failure (env : Env) (cid : Z) (cfg : ClientConfig)
    (st : State) (w : datetime * datetime) (x : Exc) :
  current_day_of (now env (clock_reads st)) default_delta_time = Ok w ->
  read_sql env cid w.1 w.2 = Raise x ->
  exists st', activate_client env cid cfg st = (Ok tt, st')
              /\ save_dir st' = save_dir st
              /\ In (ERROR, MsgLoadError cid x) (log st')
              /\ In (WARNING, MsgNoData cid) (log st').
Proof.
  intros Hw Hq. unfold activate_client.
  unfold bind at 1. unfold logger at 1, modify at 1.
  unfold bind at 1. unfold modify at 1.
  unfold bind at 1. rewrite (get_current_day_run env _ _ w) by exact Hw.
  unfold bind at 1. unfold modify at 1.
  unfold bind at 1. unfold create_df. run. rewrite Hq. simpl.
  eexists. split; [reflexivity|]. simpl.
  split; [reflexivity|].
  split; rewrite !in_app_iff; simpl; auto 10.
Qed.

(** A frame that normalization rejects for the first configured client ends
    the run with that exception. *)
Example normalization_failure_ends_the_run :
  let r := activate env_broken_first (initial_state (Some [])) in
  r.1 = Raise (KeyError "accepted_amount")
  /\ In (ERROR, MsgNormError (KeyError "accepted_amount")) (log r.2)
  /\ ~ In (INFO, MsgClientStart 1130) (log r.2).
Proof.
  vm_compute. repeat split; auto 10.
  intros H. repeat (destruct H as [H|H]; [discriminate H|]). exact H.
Qed.

(** C1, as stated, does not hold: when the report of the first configured
    client cannot be written, [activate] ends with that exception, nothing
    is written, and the second configured client is never started. *)
Lemma C1_run_aborts_on_client_failure :
  let r := activate env_disk_full (initial_state (Some [])) in
  r.1 = Raise OSError
  /\ In (ERROR, MsgExcelError OSError) (log r.2)
  /\ In (1130, mk_config "accepted_at" 0) CLIENTS
  /\ ~ In (INFO, MsgClientStart 1130) (log r.2)
  /\ files r.2 = [].
Proof.
  vm_compute. repeat split; auto 20.
  intros H. repeat (destruct H as [H|H]; [discriminate H|]). exact H.
Qed.

(** C1, amended: [activate] has no handler.  When one of the three
    processing stages of a client raises (normalization, then the time
    filter, then the report writer: each logs and re-raises), [activate]
    ends with that exception and the state of that moment, so no later
    client is processed; in particular a frame that normalization rejects
    ends the run with the error of normalization, logged once.  Only a
    failure of the extraction query is absorbed: that client is skipped and
    the loop body returns normally, leaving the directory as it was. *)
Theorem C1_failure_stops_the_run (env : Env) :
  (forall before cid cfg after st st1 w df e st2,
      activate_over env before st = (Ok tt, st1) ->
      current_day_of (now env (clock_reads st1)) default_delta_time = Ok w ->
      read_sql env cid w.1 w.2 = Ok df ->
      df_empty df = false ->
      stage_failure env df (loaded cid cfg w st1) e st2 ->
      activate_over env (before ++ (cid, cfg) :: after) st = (Raise e, st2))
  /\ (forall before cid cfg after st st1 w df e,
      activate_over env before st = (Ok tt, st1) ->
      current_day_of (now env (clock_reads st1)) default_delta_time = Ok w ->
      read_sql env cid w.1 w.2 = Ok df ->
      df_empty df = false ->
      normalize (columns_filter cfg) df = Raise e ->
      activate_over env (before ++ (cid, cfg) :: after) st
      = (Raise e,
         with_log (log (loaded cid cfg w st1)
                   ++ [(INFO, MsgNormStart); (ERROR, MsgNormError e)])
           (loaded cid cfg w st1)))
  /\ (forall cid cfg st w x,
        current_day_of (now env (clock_reads st)) default_delta_time = Ok w ->
        read_sql env cid w.1 w.2 = Raise x ->
        exists st', activate_client env cid cfg st = (Ok tt, st')
                    /\ save_dir st' = save_dir st).
Proof.
  assert (forall before cid cfg after st st1 w df e st2,
      activate_over env before st = (Ok tt, st1) ->
      current_day_of (now env (clock_reads st1)) default_delta_time = Ok w ->
      read_sql env cid w.1 w.2 = Ok df ->
      df_empty df = false ->
      stage_failure env df (loaded cid cfg w st1) e st2 ->
      activate_over env (before ++ (cid, cfg) :: after) st = (Raise e, st2)) as Hstop.
  { intros before cid cfg after st st1 w df e st2 Hbefore Hw Hq Hrows Hstage.
    rewrite activate_over_app. unfold bind at 1. rewrite Hbefore.
    simpl. unfold bind at 1.
    rewrite (stage_failure_ends_the_client env cid cfg st1 w df e st2 Hw Hq Hrows Hstage).
    reflexivity. }
  split; [exact Hstop|split].
  - intros before cid cfg after st st1 w df e Hbefore Hw Hq Hrows Hnorm.
    apply (Hstop before cid cfg after st st1 w df e _ Hbefore Hw Hq Hrows).
    apply normalization_fails. apply set_new_col_raises. exact Hnorm.
  - intros cid cfg st w x Hw Hq.
    destruct (activate_client_fetch_failure env cid cfg st w x Hw Hq)
      as (st' & Hrun & Hdir & _).
    exists st'. auto.
Qed.

Lemma C1_failure_stops_the_run_witness :
  (activate_over env_disk_full
     ([] ++ (1282, mk_config "accepted_at" 0) :: [(1130, mk_config "accepted_at" 0)])
     (initial_state (Some []))).1 = Raise OSError
  /\ (activate_over env_broken_first
        ([] ++ (1282, mk_config "accepted_at" 0) :: [(1130, mk_config "accepted_at" 0)])
        (initial_state (Some []))).1 = Raise (KeyError "accepted_amount")
  /\ (exists st', activate_client env_db_down 1282 (mk_config "accepted_at" 0)
                    (initial_state (Some [])) = (Ok tt, st')
                  /\ save_dir st' = Some []).
Proof.
  destruct (C1_failure_stops_the_run env_disk_full) as (Hstop & _ & _).
  destruct (C1_failure_stops_the_run env_broken_first) as (_ & Hnorm & _).
  destruct (C1_failure_stops_the_run env_db_down) as (_ & _ & Hskip).
  pose (w := (mk_datetime 739208 0 0 0 0, mk_datetime 739209 0 0 0 0)).
  pose (cfg := mk_config "accepted_at" 0).
  split; [|split].
  - assert (exists st2, stage_failure env_disk_full (sample_df 1282)
                          (loaded 1282 cfg w (initial_state (Some []))) OSError st2)
      as [st2 Hstage].
    { eexists. eapply report_writer_fails.
      - vm_compute. reflexivity.
      - vm_compute. reflexivity.
      - vm_compute. reflexivity. }
    exact (f_equal fst
             (Hstop [] 1282 cfg [(1130, cfg)] (initial_state (Some []))
                (initial_state (Some [])) w (sample_df 1282) OSError st2
                eq_refl eq_refl eq_refl eq_refl Hstage)).
  - exact (f_equal fst
             (Hnorm [] 1282 cfg [(1130, cfg)] (initial_state (Some []))
                (initial_state (Some [])) w broken_df (KeyError "accepted_amount")
                eq_refl eq_refl eq_refl eq_refl eq_refl)).
  - apply (Hskip 1282 (mk_config "accepted_at" 0) (initial_state (Some []))
             (mk_datetime 739208 0 0 0 0, mk_datetime 739209 0 0 0 0) OSError).
    + reflexivity.
    + reflexivity.
Defined.

(** ** The report writer (claim C6) *)

Lemma mkdir_run (st : State) :
  exists st1, mkdir_exist_ok st = (Ok tt, st1)
              /\ files st1 = files st /\ DF st1 = DF st /\ log st1 = log st
              /\ client_name st1 = client_name st.
Proof.
  unfold mkdir_exist_ok, modify, files. eexists. split; [reflexivity|].
  destruct (save_dir st) eqn:Hdir; simpl; rewrite ?Hdir; repeat split; reflexivity.
Qed.

Lemma filter_nonempty {A} (p : A -> bool) (l : list A) (x : A) :
  In x l -> p x = true -> List.filter p l <> [].
Proof.
  intros Hin Hp Hnil.
  assert (In x (List.filter p l)) as H by (apply filter_In; auto).
  rewrite Hnil in H. exact H.
Qed.

(** C6: when the frame is empty, or one of the twelve output columns is
    missing, or the client identifier cannot be determined, [result_save]
    returns normally, the files of the output directory are what they were,
    and it has logged one warning or error. *)
Theorem C6_no_file_when_precondition_fails (env : Env) (st : State) :
  df_empty (DF st) = true
  \/ (exists c, In c selected_columns /\ has_column c (DF st) = false)
  \/ client_id_undetermined (DF st) ->
  exists st',
    result_save env st = (Ok tt, st')
    /\ files st' = files st
    /\ exists lvl msg, log st' = (log st ++ [(lvl, msg)])%list /\ lvl <> INFO.
Proof.
  intros Hpre. unfold result_save.
  unfold bind at 1. unfold get at 1.
  destruct (df_empty (DF st)) eqn:Hempty.
  { eexists. split; [reflexivity|]. split; [reflexivity|].
    eexists _, _. split; [reflexivity|discriminate]. }
  unfold bind at 1.
  destruct (mkdir_run st) as (st1 & -> & Hfiles & HDF & Hlog & Hname).
  destruct (List.filter (fun col => negb (has_column col (DF st))) selected_columns)
    as [|c0 missing] eqn:Hmissing.
  2:{ eexists. split; [reflexivity|]. split; [exact Hfiles|].
      eexists _, _. split; [simpl; rewrite Hlog; reflexivity|discriminate]. }
  destruct Hpre as [Hpre|[(c & Hin & Hc)|Hpre]].
  - congruence.
  - exfalso. revert Hmissing. apply (filter_nonempty _ _ c Hin).
    rewrite Hc. reflexivity.
  - unfold bind at 1.
    assert (lift (if has_column "client_id" (DF st)
                  then match df_rows (DF st) with
                       | r :: _ => Ok (cell_at "client_id" r)
                       | [] => Raise IndexError
                       end
                  else Ok CNone) st1 = (Ok CNone, st1)) as ->.
    { unfold lift. f_equal. destruct Hpre as [->|(r & rs & -> & ->)]; [reflexivity|].
      destruct (has_column _ _); reflexivity. }
    eexists. split; [reflexivity|]. split; [exact Hfiles|].
    eexists _, _. split; [simpl; rewrite Hlog; reflexivity|discriminate].
Qed.

Lemma C6_no_file_when_precondition_fails_witness :
  exists st',
    result_save env_ok (with_DF broken_df (initial_state (Some []))) = (Ok tt, st')
    /\ files st' = [].
Proof.
  destruct (C6_no_file_when_precondition_fails env_ok
              (with_DF broken_df (initial_state (Some [])))) as (st' & Hrun & Hfiles & _).
  - right; left. exists "client_order_id". split; [simpl; auto|reflexivity].
  - exists st'. split; [exact Hrun|exact Hfiles].
Defined.

(** ** Rows and columns *)

Lemma getitem_Ok (df : DataFrame) (c : string) (cells : list Cell) :
  getitem df c = Ok cells ->
  cells = cell_at c <$> df_rows df /\ has_column c df = true.
Proof.
  unfold getitem. destruct (has_column c df); [|discriminate].
  intros [= <-]. auto.
Qed.

Lemma mapR_Ok_fmap {A B} (f : A -> Result B) (g : A -> B) (l : list A) (l' : list B) :
  (forall x y, f x = Ok y -> g x = y) -> mapR f l = Ok l' -> l' = g <$> l.
Proof.
  intros Hfg. revert l'. induction l as [|x l IH]; intros l'; simpl.
  - intros [= <-]. reflexivity.
  - destruct (f x) as [y|e] eqn:Hx; simpl; [|discriminate].
    destruct (mapR f l) as [ys|e]; simpl; [|discriminate].
    intros [= <-]. rewrite (Hfg x y Hx), (IH ys eq_refl). reflexivity.
Qed.

Lemma zip_with_fmap_same {A B C} (f : A -> B -> C) (h : A -> B) (l : list A) :
  zip_with f l (h <$> l) = (fun x => f x (h x)) <$> l.
Proof. induction l as [|x l IH]; simpl; [reflexivity|]. f_equal. exact IH. Qed.

Lemma zip_with_fmap_both {A B C D} (f : B -> C -> D) (g : A -> B) (h : A -> C)
    (l : list A) :
  zip_with f (g <$> l) (h <$> l) = (fun x => f (g x) (h x)) <$> l.
Proof. induction l as [|x l IH]; simpl; [reflexivity|]. f_equal. exact IH. Qed.

Lemma select_rows_fmap (df : DataFrame) (p : nat * Row -> bool) :
  select_rows df (p <$> df_rows df) = mk_df (df_columns df) (List.filter p (df_rows df)).
Proof.
  unfold select_rows. f_equal.
  induction (df_rows df) as [|r rows IH]; simpl; [reflexivity|].
  destruct (p r); simpl; [f_equal|]; exact IH.
Qed.

Lemma setitem_fmap (df : DataFrame) (c : string) (h : nat * Row -> Cell) :
  setitem df c (h <$> df_rows df)
  = mk_df (add_column c (df_columns df))
          ((fun r => set_cell c r (h r)) <$> df_rows df).
Proof. unfold setitem. rewrite zip_with_fmap_same. reflexivity. Qed.

Lemma cell_at_set_cell (c : string) (r : nat * Row) (v : Cell) :
  cell_at c (set_cell c r v) = v.
Proof. unfold cell_at, set_cell. simpl. rewrite lookup_insert_eq. reflexivity. Qed.

Lemma cell_at_set_cell_ne (c c' : string) (r : nat * Row) (v : Cell) :
  c <> c' -> cell_at c' (set_cell c r v) = cell_at c' r.
Proof.
  intros Hne. unfold cell_at, set_cell. simpl.
  rewrite lookup_insert_ne by exact Hne. reflexivity.
Qed.

Lemma has_column_add (c c' : string) (df : DataFrame) (rows : list (nat * Row)) :
  has_column c' (mk_df (add_column c (df_columns df)) rows)
  = has_column c' df || String.eqb c' c.
Proof.
  unfold has_column, add_column. simpl.
  destruct (existsb (String.eqb c) (df_columns df)) eqn:Hc.
  - destruct (String.eqb_spec c' c) as [->|Hne]; [|rewrite orb_false_r; reflexivity].
    rewrite Hc. reflexivity.
  - rewrite existsb_app. simpl. rewrite orb_false_r. reflexivity.
Qed.

Lemma add_column_present (c : string) (df : DataFrame) :
  has_column c df = true -> add_column c (df_columns df) = df_columns df.
Proof. unfold has_column, add_column. intros ->. reflexivity. Qed.

Lemma setitem_map_column (df : DataFrame) (c : string) (g : Cell -> Cell)
    (cells : list Cell) :
  getitem df c = Ok cells -> setitem df c (g <$> cells) = map_column c g df.
Proof.
  intros H. apply getitem_Ok in H as [-> Hc].
  rewrite <- list_fmap_compose. rewrite setitem_fmap.
  rewrite add_column_present by exact Hc. reflexivity.
Qed.

Lemma setitem_mapR_column (df : DataFrame) (c : string) (f : Cell -> Result Cell)
    (g : Cell -> Cell) (cells cells' : list Cell) :
  (forall x y, f x = Ok y -> g x = y) ->
  getitem df c = Ok cells -> mapR f cells = Ok cells' ->
  setitem df c cells' = map_column c g df.
Proof.
  intros Hfg Hget Hmap. rewrite (mapR_Ok_fmap f g cells cells' Hfg Hmap).
  apply setitem_map_column. exact Hget.
Qed.

Lemma stripped_spec (x y : Cell) : remove_microseconds x = Ok y -> stripped x = y.
Proof. unfold stripped. intros ->. reflexivity. Qed.

Lemma shift_times_rows (env : Env) (plus : Z) (df shifted : DataFrame) :
  shift_times env plus df = Ok shifted ->
  df_columns shifted = df_columns df
  /\ df_rows shifted = shift_row env plus <$> df_rows df.
Proof.
  unfold shift_times.
  destruct (getitem df "created_at") as [c1|] eqn:H1; simpl; [|discriminate].
  destruct (mapR remove_microseconds c1) as [c1'|] eqn:H1'; simpl; [|discriminate].
  rewrite (setitem_mapR_column df _ _ stripped c1 c1' stripped_spec H1 H1').
  destruct (getitem (map_column _ _ df) "accepted_at") as [c2|] eqn:H2; simpl;
    [|discriminate].
  destruct (mapR remove_microseconds c2) as [c2'|] eqn:H2'; simpl; [|discriminate].
  rewrite (setitem_mapR_column _ _ _ stripped c2 c2' stripped_spec H2 H2').
  destruct (getitem (map_column _ _ (map_column _ _ df)) "created_at") as [c3|] eqn:H3;
    simpl; [|discriminate].
  rewrite <- list_fmap_compose. rewrite (setitem_map_column _ _ _ c3 H3).
  destruct (getitem (map_column _ _ (map_column _ _ (map_column _ _ df)))
              "accepted_at") as [c4|] eqn:H4; simpl; [|discriminate].
  rewrite <- list_fmap_compose. rewrite (setitem_map_column _ _ _ c4 H4).
  intros [= <-]. split; [reflexivity|].
  unfold map_column. simpl. rewrite <- !list_fmap_compose.
  apply list_fmap_ext. intros _ r _. unfold compose.
  repeat first [ rewrite cell_at_set_cell
               | rewrite cell_at_set_cell_ne by discriminate ].
  unfold shift_row, set_cell, adjust, stripped. simpl. f_equal.
  apply map_eq. intros k.
  rewrite !(lookup_insert (M := gmap string)).
  repeat case_decide; congruence.
Qed.

(** ** The time filter (claims C5 and C9) *)

Lemma window_mask (col : string) (start stop : datetime) (df : DataFrame)
    (cells : list Cell) (lower upper : list bool) :
  getitem df col = Ok cells ->
  mapR (cell_ge_datetime start) cells = Ok lower ->
  mapR (cell_lt_datetime stop) cells = Ok upper ->
  select_rows df (zip_with andb lower upper)
  = mk_df (df_columns df) (List.filter (in_window col start stop) (df_rows df)).
Proof.
  intros Hget Hlo Hup. apply getitem_Ok in Hget as [-> _].
  apply (mapR_Ok_fmap _ (fun c => match c with
                                  | CTime t => to_ns start <=? t
                                  | _ => false
                                  end)) in Hlo.
  2:{ intros [] y; simpl; intros [= <-]; reflexivity. }
  apply (mapR_Ok_fmap _ (fun c => match c with
                                  | CTime t => t <? to_ns stop
                                  | _ => false
                                  end)) in Hup.
  2:{ intros [] y; simpl; intros [= <-]; reflexivity. }
  subst lower upper. rewrite <- !list_fmap_compose.
  rewrite zip_with_fmap_both, select_rows_fmap. f_equal.
  apply List.filter_ext. intros r. unfold compose, in_window.
  destruct (cell_at col r); reflexivity.
Qed.

Lemma filter_data_time_inv (env : Env) (df : DataFrame) (col : string)
    (st : State) (out : DataFrame) (st' : State) :
  filter_data_time env df col st = (Ok out, st') ->
  exists plus shifted start stop names,
    client_offset df = Ok plus
    /\ shift_times env plus df = Ok shifted
    /\ start_date st = Some start /\ end_date st = Some stop
    /\ getitem (mk_df (df_columns shifted)
                  (List.filter (in_window col start stop) (df_rows shifted)))
               "client_name" = Ok names
    /\ client_name st' = resolve_client_name (unique names)
    /\ out = mk_df (df_columns shifted)
               (List.filter succeeded
                  (List.filter (in_window col start stop) (df_rows shifted)))
    /\ DF st' = out.
Proof.
  unfold filter_data_time. run. intros H.
  repeat match type of H with
  | context [match ?x with _ => _ end] =>
      match x with
      | context [match _ with _ => _ end] => fail 1
      | _ => destruct x eqn:?; simpl in H; try discriminate H
      end
  end.
  match goal with
  | Hget : getitem ?d col = Ok ?cells,
    Hlo : mapR (cell_ge_datetime ?s) ?cells = Ok ?lo,
    Hup : mapR (cell_lt_datetime ?e) ?cells = Ok ?up |- _ =>
      rewrite (window_mask col s e d cells lo up Hget Hlo Hup) in *
  end.
  match goal with
  | Hst : getitem _ "status_name" = Ok _ |- _ =>
      apply getitem_Ok in Hst as [-> _]
  end.
  rewrite <- !list_fmap_compose, !select_rows_fmap in H. simpl in H.
  injection H as <- <-.
  eexists _, _, _, _, _. repeat split; try eassumption; reflexivity.
Qed.

Lemma filter_filter_andb {A} (p q : A -> bool) (l : list A) :
  List.filter q (List.filter p l) = List.filter (fun x => p x && q x) l.
Proof.
  induction l as [|x l IH]; simpl; [reflexivity|].
  destruct (p x); simpl; [destruct (q x); [f_equal|]|]; exact IH.
Qed.

Lemma in_window_spec (col : string) (start stop : datetime) (r : nat * Row) :
  in_window col start stop r = true ->
  exists t, cell_at col r = CTime t /\ to_ns start <= t < to_ns stop.
Proof.
  unfold in_window. destruct (cell_at col r) as [| | | |t|]; try discriminate.
  intros H. apply andb_true_iff in H as [H1 H2].
  apply Z.leb_le in H1. apply Z.ltb_lt in H2. exists t. auto.
Qed.

Lemma succeeded_spec (r : nat * Row) :
  succeeded r = true -> cell_at "status_name" r = CStr "Succeed".
Proof.
  unfold succeeded, cell_eq_str. destruct (cell_at "status_name" r); try discriminate.
  intros H. apply String.eqb_eq in H. congruence.
Qed.

(** C5: when the time filter returns, its output is exactly the rows of the
    input, with both timestamps stripped of their fraction, parsed and
    shifted by the client's offset, whose window column lies in
    [[start, end)] and whose status label is [Succeed]; so every output
    row has a window-column timestamp inside the half-open interval and the
    label [Succeed], and no other row is in the output. *)
Theorem C5_time_filter_output (env : Env) (df : DataFrame) (col : string)
    (st : State) (out : DataFrame) (st' : State) :
  filter_data_time env df col st = (Ok out, st') ->
  exists plus start stop,
    client_offset df = Ok plus
    /\ start_date st = Some start /\ end_date st = Some stop
    /\ df_rows out
       = List.filter (fun r => in_window col start stop r && succeeded r)
           (shift_row env plus <$> df_rows df)
    /\ forall r, In r (df_rows out) ->
         exists t, cell_at col r = CTime t
                   /\ to_ns start <= t < to_ns stop
                   /\ cell_at "status_name" r = CStr "Succeed".
Proof.
  intros H. apply filter_data_time_inv in H
    as (plus & shifted & start & stop & names & Hplus & Hshift & Hs & He & _ & _ & -> & _).
  apply shift_times_rows in Hshift as [_ Hrows].
  exists plus, start, stop.
  split; [exact Hplus|]. split; [exact Hs|]. split; [exact He|].
  simpl. rewrite filter_filter_andb, Hrows. split; [reflexivity|].
  intros r H. apply filter_In in H as [_ H]. apply andb_true_iff in H as [Hw Hsucc].
  destruct (in_window_spec col start stop r Hw) as (t & Ht & Hbounds).
  exists t. split; [exact Ht|]. split; [exact Hbounds|].
  apply succeeded_spec. exact Hsucc.
Qed.

Lemma C5_time_filter_output_witness :
  length (df_rows (frame_of filtered_sample.1)) = 1%nat
  /\ forall r, In r (df_rows (frame_of filtered_sample.1)) ->
       exists t, cell_at "accepted_at" r = CTime t
                 /\ to_ns (mk_datetime 739208 0 0 0 0) <= t
                    < to_ns (mk_datetime 739209 0 0 0 0)
                 /\ cell_at "status_name" r = CStr "Succeed".
Proof.
  assert (filtered_sample = (Ok (frame_of filtered_sample.1), filtered_sample.2)) as E
    by (vm_compute; reflexivity).
  split; [vm_compute; reflexivity|].
  destruct (C5_time_filter_output env_ok normalized_sample "accepted_at" window_state
              _ _ E) as (plus & start & stop & _ & Hs & He & _ & Hrows).
  injection Hs as <-. injection He as <-. exact Hrows.
Defined.

Lemma unique_from_nil (seen l : list Cell) :
  unique_from seen l = []
  <-> forallb (fun y => existsb (cell_eqb y) seen) l = true.
Proof.
  induction l as [|y l IH]; simpl; [tauto|].
  destruct (existsb (cell_eqb y) seen); simpl; [exact IH|].
  split; discriminate.
Qed.

Lemma forallb_single (x : Cell) (l : list Cell) :
  forallb (fun y => existsb (cell_eqb y) [x]) l = forallb (fun y => cell_eqb y x) l.
Proof.
  induction l as [|y l IH]; simpl; [reflexivity|].
  f_equal; [apply orb_false_r|exact IH].
Qed.

Lemma resolve_unique (names : list Cell) :
  resolve_client_name (unique names)
  = match names with
    | x :: rest =>
        if forallb (fun y => cell_eqb y x) rest then x else CStr "DEFAULT"
    | [] => CStr "DEFAULT"
    end.
Proof.
  destruct names as [|x rest]; [reflexivity|].
  unfold unique. simpl.
  rewrite <- forallb_single.
  destruct (forallb _ rest) eqn:Hall.
  - apply unique_from_nil in Hall. rewrite Hall. reflexivity.
  - destruct (unique_from [x] rest) as [|y l] eqn:Hu; [|reflexivity].
    apply unique_from_nil in Hu. congruence.
Qed.

(** C9: the name stored by the time filter is computed from the
    [client_name] cells of the rows inside the window (before the status
    filter): it is their common value when there is at least one row and
    all cells are equal, and ["DEFAULT"] otherwise (no row, or two
    different values).  Reading the [client_name] column of a frame that
    has it returns, and the rest is a total function of the cells: the
    resolution has no failing case. *)
Theorem C9_client_name_resolution :
  (forall windowed : DataFrame,
      has_column "client_name" windowed = true ->
      getitem windowed "client_name" = Ok (cell_at "client_name" <$> df_rows windowed))
  /\ (forall names : list Cell,
      resolve_client_name (unique names)
      = match names with
        | x :: rest =>
            if forallb (fun y => cell_eqb y x) rest then x else CStr "DEFAULT"
        | [] => CStr "DEFAULT"
        end)
  /\ (forall env df col st out st',
        filter_data_time env df col st = (Ok out, st') ->
        exists plus start stop,
          client_offset df = Ok plus
          /\ start_date st = Some start /\ end_date st = Some stop
          /\ client_name st'
             = resolve_client_name
                 (unique (cell_at "client_name"
                            <$> List.filter (in_window col start stop)
                                  (shift_row env plus <$> df_rows df)))).
Proof.
  split; [intros windowed H; unfold getitem; rewrite H; reflexivity|].
  split; [exact resolve_unique|].
  intros env df col st out st' H. apply filter_data_time_inv in H
    as (plus & shifted & start & stop & names & Hplus & Hshift & Hs & He
        & Hnames & Hname & _ & _).
  apply shift_times_rows in Hshift as [_ Hrows].
  apply getitem_Ok in Hnames as [-> _]. simpl in Hname. rewrite Hrows in Hname.
  exists plus, start, stop. auto.
Qed.

Lemma C9_client_name_resolution_witness :
  client_name filtered_sample.2 = CStr "Shop"
  /\ resolve_client_name (unique [CStr "Shop"; CStr "Shop"]) = CStr "Shop"
  /\ resolve_client_name (unique [CStr "Shop"; CStr "Other"]) = CStr "DEFAULT".
Proof.
  destruct C9_client_name_resolution as (_ & Hres & Hrun).
  assert (filtered_sample = (Ok (frame_of filtered_sample.1), filtered_sample.2)) as E
    by (vm_compute; reflexivity).
  destruct (Hrun env_ok normalized_sample "accepted_at" window_state _ _ E)
    as (plus & start & stop & Hplus & Hs & He & Hname).
  injection Hs as <-. injection He as <-.
  assert (plus = 0) as -> by (vm_compute in Hplus; congruence).
  split; [rewrite Hname; vm_compute; reflexivity|].
  split; rewrite Hres; reflexivity.
Defined.

(** ** Normalization (claim C3) *)

Ltac inv_results :=
  repeat first
    [ progress (unfold mbind, Result_bind in *)
    | progress (simpl in *)
    | match goal with
      | H : Raise _ = Ok _ |- _ => discriminate H
      | H : Ok _ = Raise _ |- _ => discriminate H
      | H : Ok _ = Ok _ |- _ => injection H as H; try subst
      | H : context [match ?x with _ => _ end] |- _ =>
          match x with
          | context [match _ with _ => _ end] => fail 1
          | _ => destruct x eqn:?
          end
      end ].

Ltac use_results :=
  repeat (match goal with
          | H : ?x = Ok _ |- context [?x] => rewrite H
          end; simpl).

Lemma commission_column_cons (m s a : Cell) (ms ss accs cs' : list Cell) :
  commission_column (m :: ms) (s :: ss) (a :: accs) = Ok cs'
  <-> exists c cs, commission_cell m s a = Ok c
                   /\ commission_column ms ss accs = Ok cs /\ cs' = c :: cs.
Proof.
  unfold commission_column, commission_cell. split.
  - intros H. inv_results. eauto.
  - intros (c & cs & Hc & Hcs & ->). inv_results. use_results. reflexivity.
Qed.

Lemma mapR_cons_Ok {A B} (f : A -> Result B) (x : A) (l : list A) (ys : list B) :
  mapR f (x :: l) = Ok ys
  <-> exists y ys', f x = Ok y /\ mapR f l = Ok ys' /\ ys = y :: ys'.
Proof.
  split.
  - intros H. inv_results. eauto.
  - intros (y & ys' & Hy & Hys & ->). simpl. rewrite Hy, Hys. reflexivity.
Qed.

Lemma commission_column_rows {A} (m s a : A -> Cell) (l : list A) (cs : list Cell) :
  commission_column (m <$> l) (s <$> l) (a <$> l) = Ok cs
  <-> mapR (fun x => commission_cell (m x) (s x) (a x)) l = Ok cs.
Proof.
  revert cs. induction l as [|x l IH]; intros cs.
  - reflexivity.
  - change (commission_column (m x :: (m <$> l)) (s x :: (s <$> l))
              (a x :: (a <$> l)) = Ok cs
            <-> mapR (fun x => commission_cell (m x) (s x) (a x)) (x :: l) = Ok cs).
    rewrite commission_column_cons, mapR_cons_Ok.
    split; intros (c & cs0 & Hc & Hcs & ->); exists c, cs0;
      (split; [exact Hc|split; [|reflexivity]]); apply IH; exact Hcs.
Qed.

Lemma mapR_Ok_In {A B} (f : A -> Result B) (l : list A) (ys : list B) (x : A) :
  mapR f l = Ok ys -> In x l -> exists y, f x = Ok y.
Proof.
  revert ys. induction l as [|a l IH]; intros ys H Hin; [destruct Hin|].
  apply mapR_cons_Ok in H as (y & ys' & Hy & Hys & ->).
  destruct Hin as [<-|Hin]; [eauto|]. apply (IH ys' Hys Hin).
Qed.

Lemma mapR_total {A B} (f : A -> Result B) (l : list A) :
  (forall x, In x l -> exists y, f x = Ok y) -> exists ys, mapR f l = Ok ys.
Proof.
  induction l as [|a l IH]; intros H; [exists []; reflexivity|].
  destruct (H a (or_introl eq_refl)) as [y Hy].
  destruct IH as [ys Hys]; [intros x Hx; apply H; right; exact Hx|].
  exists (y :: ys). simpl. rewrite Hy, Hys. reflexivity.
Qed.

Lemma getitem_has (df : DataFrame) (c : string) :
  has_column c df = true -> getitem df c = Ok (cell_at c <$> df_rows df).
Proof. unfold getitem. intros ->. reflexivity. Qed.

Lemma loc_setitem_rows (df : DataFrame) (p : Cell -> bool) (c1 c c2 : string) :
  loc_setitem df (p <$> (cell_at c1 <$> df_rows df)) c (cell_at c2 <$> df_rows df)
  = mk_df (add_column c (df_columns df))
      ((fun r => set_cell c r (if p (cell_at c1 r) then cell_at c2 r else cell_at c r))
         <$> df_rows df).
Proof.
  unfold loc_setitem, setitem. f_equal.
  induction (df_rows df) as [|r rows IH]; simpl; [reflexivity|].
  f_equal. exact IH.
Qed.

Lemma normalize_Ok_iff (col : string) (df d1 : DataFrame) :
  has_column "accepted_amount" df = true ->
  has_column "transaction_type" df = true ->
  has_column "status_name" df = true ->
  has_column "mid_commission" df = true ->
  has_column "service_commission" df = true ->
  normalize col df = Ok d1
  <-> exists cs, mapR commission (prepared_row <$> df_rows df) = Ok cs
                 /\ finish col (mk_df (normalized_columns df)
                                  (normalize_row <$> df_rows df)) = Ok d1.
Proof.
  intros H1 H2 H3 H4 H5. unfold normalize.
  rewrite (getitem_has df _ H1), (getitem_has df _ H2).
  cbn [mbind Result_bind]. rewrite loc_setitem_rows.
  set (df1 := mk_df _ _).
  assert (forall c, has_column c df = true -> has_column c df1 = true) as Hcols1.
  { intros c Hc. unfold df1. rewrite has_column_add, Hc. reflexivity. }
  rewrite (getitem_has df1 "accepted_amount") by auto.
  rewrite (getitem_has df1 "amount")
    by (unfold df1; rewrite has_column_add; apply orb_true_r).
  cbn [mbind Result_bind]. rewrite loc_setitem_rows.
  set (df2 := mk_df _ _).
  assert (forall c, has_column c df1 = true -> has_column c df2 = true) as Hcols2.
  { intros c Hc. unfold df2. rewrite has_column_add, Hc. reflexivity. }
  rewrite (getitem_has df2 "status_name") by auto.
  cbn [mbind Result_bind].
  rewrite (setitem_map_column df2 "status_name" _ _ (getitem_has df2 _ (Hcols2 _ (Hcols1 _ H3)))).
  set (df3 := map_column _ _ df2).
  assert (forall c, has_column c df3 = has_column c df2) as Hcols3 by reflexivity.
  rewrite (getitem_has df3 "mid_commission") by (rewrite Hcols3; auto).
  rewrite (getitem_has df3 "service_commission") by (rewrite Hcols3; auto).
  cbn [mbind Result_bind].
  fold (commission_column (cell_at "mid_commission" <$> df_rows df3)
          (cell_at "service_commission" <$> df_rows df3)
          (cell_at "accepted_amount" <$> df_rows df3)).
  assert (df_rows df3 = prepared_row <$> df_rows df) as Hrows3.
  { unfold df3, df2, df1, map_column. simpl. rewrite <- !list_fmap_compose. reflexivity. }
  assert (df_columns df3 = add_column "amount" (add_column "amount" (df_columns df)))
    as Hcolumns3 by reflexivity.
  assert (getitem df3 "accepted_amount"
          = Ok (cell_at "accepted_amount" <$> df_rows df3)) as Hacc.
  { apply getitem_has. rewrite Hcols3. auto. }
  clearbody df3. clear df1 df2 Hcols1 Hcols2 Hcols3.
  assert (setitem df3 "overall_commission" (commission_total <$> df_rows df3)
          = mk_df (normalized_columns df) (normalize_row <$> df_rows df))
    as Hset.
  { rewrite setitem_fmap, Hrows3, Hcolumns3, <- list_fmap_compose.
    reflexivity. }
  assert (forall cs, commission_column (cell_at "mid_commission" <$> df_rows df3)
                       (cell_at "service_commission" <$> df_rows df3)
                       (cell_at "accepted_amount" <$> df_rows df3) = Ok cs
                     -> cs = commission_total <$> df_rows df3) as Hcs.
  { intros cs Hc. apply commission_column_rows in Hc.
    apply (mapR_Ok_fmap _ commission_total) in Hc; [exact Hc|].
    intros r y Hy. unfold commission_total, commission. rewrite Hy. reflexivity. }
  rewrite <- Hrows3.
  split.
  - intros H.
    destruct (zipR cell_add _ _) as [rate|] eqn:Hrate; [|discriminate H].
    cbn [mbind Result_bind] in H. rewrite Hacc in H. cbn [mbind Result_bind] in H.
    destruct (mapR _ (cell_at "accepted_amount" <$> _)) as [share|] eqn:Hshare;
      [|discriminate H].
    cbn [mbind Result_bind] in H.
    destruct (zipR cell_mul rate share) as [product|] eqn:Hproduct; [|discriminate H].
    cbn [mbind Result_bind] in H.
    destruct (mapR cell_round3 product) as [rounded|] eqn:Hrounded; [|discriminate H].
    cbn [mbind Result_bind] in H.
    assert (commission_column (cell_at "mid_commission" <$> df_rows df3)
              (cell_at "service_commission" <$> df_rows df3)
              (cell_at "accepted_amount" <$> df_rows df3) = Ok rounded) as Hc.
    { unfold commission_column. rewrite Hrate. cbn [mbind Result_bind].
      rewrite Hshare. cbn [mbind Result_bind]. rewrite Hproduct. exact Hrounded. }
    exists rounded. split; [apply commission_column_rows in Hc; exact Hc|].
    rewrite (Hcs _ Hc), Hset in H. exact H.
  - intros (cs & Hc & Hfin).
    apply (commission_column_rows (cell_at "mid_commission")) in Hc.
    pose proof (Hcs _ Hc) as ->. unfold commission_column in Hc.
    destruct (zipR cell_add _ _) as [rate|] eqn:Hrate; [|discriminate Hc].
    cbn [mbind Result_bind] in *. rewrite Hacc. cbn [mbind Result_bind].
    destruct (mapR _ (cell_at "accepted_amount" <$> _)) as [share|] eqn:Hshare;
      [|discriminate Hc].
    cbn [mbind Result_bind] in *.
    destruct (zipR cell_mul rate share) as [product|] eqn:Hproduct; [|discriminate Hc].
    cbn [mbind Result_bind] in *. rewrite Hc. cbn [mbind Result_bind].
    rewrite Hset. exact Hfin.
Qed.

Lemma existsb_add_column (c c' : string) (cols : list string) :
  existsb (String.eqb c') (add_column c cols)
  = existsb (String.eqb c') cols || String.eqb c' c.
Proof. apply (has_column_add c c' (mk_df cols []) []). Qed.

Lemma has_column_normalized (c : string) (df : DataFrame) :
  has_column c df = true ->
  existsb (String.eqb c) (normalized_columns df) = true.
Proof.
  unfold has_column, normalized_columns. intros H.
  rewrite !existsb_add_column, H. reflexivity.
Qed.

Lemma normalize_columns (col : string) (df d1 : DataFrame) :
  normalize col df = Ok d1 ->
  has_column "accepted_amount" df = true
  /\ has_column "transaction_type" df = true
  /\ has_column "status_name" df = true
  /\ has_column "mid_commission" df = true
  /\ has_column "service_commission" df = true.
Proof.
  unfold normalize. intros H.
  destruct (getitem df "accepted_amount") as [c1|] eqn:E1; [|discriminate H].
  apply getitem_Ok in E1 as [-> H1].
  destruct (getitem df "transaction_type") as [c2|] eqn:E2; [|discriminate H].
  apply getitem_Ok in E2 as [-> H2].
  cbn [mbind Result_bind] in H. rewrite loc_setitem_rows in H.
  set (df1 := mk_df _ _) in H.
  destruct (getitem df1 "accepted_amount") as [c3|] eqn:E3; [|discriminate H].
  apply getitem_Ok in E3 as [-> _].
  destruct (getitem df1 "amount") as [c4|] eqn:E4; [|discriminate H].
  apply getitem_Ok in E4 as [-> _].
  cbn [mbind Result_bind] in H. rewrite loc_setitem_rows in H.
  set (df2 := mk_df _ _) in H.
  destruct (getitem df2 "status_name") as [c5|] eqn:E5; [|discriminate H].
  pose proof E5 as E5'. apply getitem_Ok in E5' as [-> H3].
  cbn [mbind Result_bind] in H.
  rewrite (setitem_map_column df2 "status_name" _ _ E5) in H.
  set (df3 := map_column _ _ df2) in H.
  destruct (getitem df3 "mid_commission") as [c6|] eqn:E6; [|discriminate H].
  apply getitem_Ok in E6 as [_ H4].
  destruct (getitem df3 "service_commission") as [c7|] eqn:E7; [|discriminate H].
  apply getitem_Ok in E7 as [_ H5].
  unfold df3, map_column, df2, df1, has_column in H3, H4, H5.
  cbn [df_columns] in H3, H4, H5.
  rewrite !existsb_add_column in H3, H4, H5. simpl in H3, H4, H5.
  rewrite !orb_false_r in H3, H4, H5. auto.
Qed.

(** Key equality is symmetric. *)
Lemma SFcompare_antisym (a b : spec_float) :
  SFcompare b a = option_map CompOpp (SFcompare a b).
Proof.
  destruct a as [sa|sa| |sa ma ea], b as [sb|sb| |sb mb eb]; simpl;
    try reflexivity; try (destruct sa; reflexivity); try (destruct sb; reflexivity);
    try (destruct sa, sb; reflexivity).
  pose proof (Pos.compare_cont_antisym ma mb Eq) as E. simpl in E.
  destruct sa, sb; simpl; try reflexivity;
    rewrite (Z.compare_antisym ea eb); destruct (ea ?= eb); simpl; try reflexivity;
    rewrite <- E; destruct (Pos.compare_cont Eq ma mb); reflexivity.
Qed.

Lemma float_eqb_sym (a b : float) : float_eqb a b = float_eqb b a.
Proof.
  unfold float_eqb, SFeqb. rewrite (SFcompare_antisym (Prim2SF a) (Prim2SF b)).
  destruct (SFcompare (Prim2SF a) (Prim2SF b)) as [[]|]; reflexivity.
Qed.

Lemma cell_eqb_sym (a b : Cell) : cell_eqb a b = cell_eqb b a.
Proof.
  destruct a, b; simpl; try reflexivity.
  - apply Z.eqb_sym.
  - rewrite float_eqb_sym, (andb_comm (is_nan f)). reflexivity.
  - apply String.eqb_sym.
  - apply Z.eqb_sym.
Qed.

Lemma Distinct_Permutation (l l' : list Cell) :
  Permutation l l' -> Distinct l -> Distinct l'.
Proof.
  induction 1 as [|x l l' Hp IH|x y l|l l' l'' _ IH1 _ IH2]; intros Hd.
  - exact Hd.
  - inversion Hd as [|? ? Hx Hl]; subst. constructor; [|apply IH; exact Hl].
    rewrite Forall_forall in *. intros z Hz. apply Hx.
    apply list_elem_of_In. apply list_elem_of_In in Hz.
    apply (Permutation_in _ (Permutation_sym Hp) Hz).
  - inversion Hd as [|? ? Hy Hl]; subst. inversion Hl as [|? ? Hx Hl']; subst.
    inversion Hy as [|? ? Hyx Hy']; subst.
    constructor; [constructor; [rewrite cell_eqb_sym; exact Hyx|exact Hx]|].
    constructor; assumption.
  - auto.
Qed.

Lemma dedup_from_subset (seen : list Cell) (c : string) (rows : list (nat * Row))
    (r : nat * Row) :
  In r (dedup_from seen c rows) -> In r rows.
Proof.
  revert seen. induction rows as [|x rows IH]; intros seen; simpl; [tauto|].
  destruct (existsb _ seen); simpl; [right; eauto|].
  intros [->|H]; [left; reflexivity|right; eauto].
Qed.

Lemma dedup_from_distinct (seen : list Cell) (c : string) (rows : list (nat * Row)) :
  Distinct (cell_at c <$> dedup_from seen c rows)
  /\ Forall (fun k => existsb (cell_eqb k) seen = false)
            (cell_at c <$> dedup_from seen c rows).
Proof.
  revert seen. induction rows as [|x rows IH]; intros seen; simpl.
  - split; constructor.
  - destruct (existsb _ seen) eqn:Hseen; [apply IH|].
    destruct (IH (cell_at c x :: seen)) as [Hd Hf]. simpl.
    split.
    + constructor; [|exact Hd].
      eapply Forall_impl; [exact Hf|]. simpl. intros k Hk.
      apply orb_false_iff in Hk as [Hk _]. rewrite cell_eqb_sym. exact Hk.
    + constructor; [exact Hseen|].
      eapply Forall_impl; [exact Hf|]. simpl. intros k Hk.
      apply orb_false_iff in Hk as [_ Hk]. exact Hk.
Qed.

Lemma dedup_from_id (seen : list Cell) (c : string) (rows : list (nat * Row)) :
  Distinct (cell_at c <$> rows) ->
  Forall (fun k => existsb (cell_eqb k) seen = false) (cell_at c <$> rows) ->
  dedup_from seen c rows = rows.
Proof.
  revert seen. induction rows as [|x rows IH]; intros seen Hd Hf; simpl; [reflexivity|].
  simpl in Hd, Hf. inversion Hd as [|? ? Hx Hrest]; subst.
  inversion Hf as [|? ? Hseen Hf']; subst.
  rewrite Hseen. f_equal. apply IH; [exact Hrest|].
  rewrite Forall_forall in *. intros k Hk. simpl.
  rewrite (Hf' k Hk), orb_false_r, cell_eqb_sym. apply Hx. exact Hk.
Qed.

Lemma insert_by_Permutation (c : string) (x : nat * Row) (l : list (nat * Row)) :
  Permutation (insert_by c x l) (x :: l).
Proof.
  induction l as [|y l IH]; simpl; [reflexivity|].
  destruct (key_leb _ _); [reflexivity|].
  rewrite IH. apply perm_swap.
Qed.

Lemma isort_Permutation (c : string) (l : list (nat * Row)) :
  Permutation (isort c l) l.
Proof.
  induction l as [|x l IH]; simpl; [reflexivity|].
  rewrite insert_by_Permutation. constructor. exact IH.
Qed.

Lemma filter_partition_Permutation {A} (p : A -> bool) (l : list A) :
  Permutation (List.filter (fun x => negb (p x)) l ++ List.filter p l) l.
Proof.
  induction l as [|x l IH]; simpl; [reflexivity|].
  destruct (p x); simpl.
  - rewrite <- Permutation_middle. constructor. exact IH.
  - constructor. exact IH.
Qed.

Lemma sort_values_Ok (c : string) (df sorted : DataFrame) :
  sort_values c df = Ok sorted ->
  has_column c df = true
  /\ df_columns sorted = df_columns df
  /\ Permutation (df_rows sorted) (df_rows df)
  /\ one_kind (cell_at c <$> List.filter (fun r => negb (isna (cell_at c r))) (df_rows df))
     = true.
Proof.
  unfold sort_values. destruct (has_column c df); [|discriminate].
  destruct (one_kind _) eqn:Hkind; [|discriminate].
  intros [= <-]. simpl. repeat split; try reflexivity.
  rewrite (isort_Permutation c). apply filter_partition_Permutation.
Qed.

Lemma sort_values_run (c : string) (df : DataFrame) :
  has_column c df = true ->
  one_kind (cell_at c <$> List.filter (fun r => negb (isna (cell_at c r))) (df_rows df))
  = true ->
  exists sorted, sort_values c df = Ok sorted
                 /\ df_columns sorted = df_columns df
                 /\ Permutation (df_rows sorted) (df_rows df).
Proof.
  intros Hc Hk.
  destruct (sort_values c df) as [sorted|e] eqn:H.
  - exists sorted. apply sort_values_Ok in H as (_ & ? & ? & _). auto.
  - unfold sort_values in H. rewrite Hc, Hk in H. discriminate H.
Qed.

Lemma one_kind_subset (keys keys' : list Cell) :
  (forall k, In k keys' -> In k keys) -> one_kind keys = true -> one_kind keys' = true.
Proof.
  intros Hsub. unfold one_kind. rewrite !orb_true_iff, !forallb_forall.
  intros [[[H|H]|H]|H]; [left; left; left|left; left; right|left; right|right];
    intros k Hk; apply H, Hsub, Hk.
Qed.

Lemma map_dict_twice (c : Cell) :
  map_dict STATUS_DICT (map_dict STATUS_DICT c) = NaN.
Proof.
  unfold map_dict at 2. destruct (dict_get_cell STATUS_DICT c); [reflexivity|].
  vm_compute. reflexivity.
Qed.

Ltac cells :=
  repeat first [ rewrite cell_at_set_cell
               | rewrite cell_at_set_cell_ne by discriminate ].

Lemma commission_prepared (r : nat * Row) :
  commission (prepared_row r) = commission r.
Proof.
  unfold commission, prepared_row, label_row, backfill_zero, backfill_withdraw.
  cells. reflexivity.
Qed.

Lemma commission_normalized (r : nat * Row) :
  commission (normalize_row r) = commission r.
Proof.
  unfold normalize_row. unfold commission at 1. cells.
  apply commission_prepared.
Qed.

Lemma normalize_row_eq (r : nat * Row) :
  normalize_row r = set_cell "overall_commission" (prepared_row r) (commission_total r).
Proof.
  unfold normalize_row, commission_total. rewrite commission_prepared. reflexivity.
Qed.

Lemma normalize_row_twice (r : nat * Row) :
  normalize_row (normalize_row r) = unlabel (normalize_row r).
Proof.
  rewrite (normalize_row_eq (normalize_row r)).
  unfold commission_total at 1. rewrite commission_normalized.
  fold (commission_total r). rewrite (normalize_row_eq r).
  unfold prepared_row, label_row, backfill_zero, backfill_withdraw.
  cells. rewrite map_dict_twice.
  set (acc := cell_at "accepted_amount" r).
  set (am := cell_at "amount" r).
  set (C := commission_total r).
  set (S := map_dict STATUS_DICT (cell_at "status_name" r)).
  assert (forall a b c d : Cell,
             c = d ->
             set_cell "overall_commission"
               (set_cell "status_name"
                  (set_cell "amount"
                     (set_cell "amount"
                        (set_cell "overall_commission"
                           (set_cell "status_name"
                              (set_cell "amount" (set_cell "amount" r a) c) S) C)
                        b) d) NaN) C
             = unlabel
                 (set_cell "overall_commission"
                    (set_cell "status_name"
                       (set_cell "amount" (set_cell "amount" r a) c) S) C)) as Hmaps.
  { intros a b c d <-. unfold unlabel, set_cell. simpl. f_equal.
    apply map_eq. intros k. rewrite !(lookup_insert (M := gmap string)).
    repeat case_decide; congruence. }
  apply Hmaps.
  destruct (cell_eq_str "withdraw" (cell_at "transaction_type" r)).
  - destruct (cell_eq_zero acc) eqn:E; rewrite ?E; reflexivity.
  - destruct (cell_eq_zero am) eqn:E1; rewrite ?E1.
    + destruct (cell_eq_zero acc) eqn:E; rewrite ?E; reflexivity.
    + reflexivity.
Qed.

Lemma normalize_row_relabel (i : nat) (r : nat * Row) :
  normalize_row (i, r.2) = (i, (normalize_row r).2).
Proof. reflexivity. Qed.

Lemma unlabel_after_normalize (r1 r0 : nat * Row) :
  r1.2 = (normalize_row r0).2 -> normalize_row r1 = unlabel r1.
Proof.
  destruct r1 as [i m]. intros H. cbn [snd] in H. subst m.
  rewrite (normalize_row_relabel i (normalize_row r0)), normalize_row_twice.
  reflexivity.
Qed.

Lemma reset_index_labels (df : DataFrame) :
  fst <$> df_rows (reset_index df) = seq 0 (length (df_rows df)).
Proof.
  unfold reset_index. simpl. apply fst_zip. rewrite length_fmap, length_seq. lia.
Qed.

Lemma reset_index_values (df : DataFrame) :
  snd <$> df_rows (reset_index df) = snd <$> df_rows df.
Proof.
  unfold reset_index. simpl. apply snd_zip. rewrite length_fmap, length_seq. lia.
Qed.

Lemma cell_at_values (c : string) (rows rows' : list (nat * Row)) :
  snd <$> rows = snd <$> rows' -> cell_at c <$> rows = cell_at c <$> rows'.
Proof.
  revert rows'. induction rows as [|r rows IH]; intros [|r' rows'] H;
    try discriminate H; [reflexivity|].
  injection H as H1 H2. simpl. f_equal; [|apply IH; exact H2].
  unfold cell_at. rewrite H1. reflexivity.
Qed.

Lemma values_In (rows rows' : list (nat * Row)) (r : nat * Row) :
  snd <$> rows = snd <$> rows' -> In r rows -> exists r', In r' rows' /\ r'.2 = r.2.
Proof.
  intros H Hin.
  assert (In r.2 (snd <$> rows')) as Hin'.
  { rewrite <- H. apply in_map. exact Hin. }
  apply in_map_iff in Hin' as (r' & Heq & Hr'). eauto.
Qed.

Lemma add_column_id (c : string) (cols : list string) :
  existsb (String.eqb c) cols = true -> add_column c cols = cols.
Proof. unfold add_column. intros ->. reflexivity. Qed.

Lemma normalized_columns_idem (df : DataFrame) (rows : list (nat * Row)) :
  normalized_columns (mk_df (normalized_columns df) rows) = normalized_columns df.
Proof.
  unfold normalized_columns at 1. cbn [df_columns].
  rewrite (add_column_id "amount" (normalized_columns df)).
  2:{ unfold normalized_columns. rewrite !existsb_add_column. simpl.
      rewrite orb_true_r. reflexivity. }
  rewrite (add_column_id "amount" (normalized_columns df)).
  2:{ unfold normalized_columns. rewrite !existsb_add_column. simpl.
      rewrite orb_true_r. reflexivity. }
  apply add_column_id. unfold normalized_columns. rewrite existsb_add_column.
  simpl. apply orb_true_r.
Qed.

Lemma commission_values (r r' : nat * Row) : r.2 = r'.2 -> commission r = commission r'.
Proof. intros H. unfold commission, cell_at. rewrite H. reflexivity. Qed.

Lemma finish_Ok (col : string) (df d1 : DataFrame) :
  finish col df = Ok d1 ->
  exists sorted,
    has_column "external_id" df = true /\ has_column col df = true
    /\ df_columns sorted = df_columns df
    /\ Permutation (df_rows sorted) (dedup_from [] "external_id" (df_rows df))
    /\ one_kind (cell_at col <$> List.filter (fun r => negb (isna (cell_at col r)))
                                   (dedup_from [] "external_id" (df_rows df))) = true
    /\ d1 = reset_index sorted.
Proof.
  unfold finish, drop_duplicates. destruct (has_column "external_id" df); [|discriminate].
  cbn [mbind Result_bind].
  destruct (sort_values col _) as [sorted|] eqn:Hsort; [|discriminate].
  cbn [mbind Result_bind]. intros [= <-].
  apply sort_values_Ok in Hsort as (Hcol & Hcols & Hperm & Hkind).
  exists sorted. repeat split; assumption.
Qed.

Lemma finish_run (col : string) (df : DataFrame) :
  has_column "external_id" df = true -> has_column col df = true ->
  Distinct (cell_at "external_id" <$> df_rows df) ->
  one_kind (cell_at col <$> List.filter (fun r => negb (isna (cell_at col r)))
                              (df_rows df)) = true ->
  exists sorted,
    finish col df = Ok (reset_index sorted)
    /\ df_columns sorted = df_columns df
    /\ Permutation (df_rows sorted) (df_rows df).
Proof.
  intros Hext Hcol Hdistinct Hkind. unfold finish, drop_duplicates. rewrite Hext.
  cbn [mbind Result_bind].
  rewrite (dedup_from_id [] "external_id" (df_rows df) Hdistinct)
    by (apply Forall_forall; reflexivity).
  destruct (sort_values_run col (mk_df (df_columns df) (df_rows df)) Hcol Hkind)
    as (sorted & -> & Hcols & Hperm).
  exists sorted. auto.
Qed.

Lemma reset_index_length (df : DataFrame) :
  length (df_rows (reset_index df)) = length (df_rows df).
Proof.
  rewrite <- (length_fmap snd (df_rows (reset_index df))), reset_index_values.
  apply length_fmap.
Qed.

Lemma unlabel_key (c : string) (r : nat * Row) :
  c <> "status_name" -> cell_at c (unlabel r) = cell_at c r.
Proof. intros H. unfold unlabel. apply cell_at_set_cell_ne. congruence. Qed.

Lemma unlabel_status (r : nat * Row) : cell_at "status_name" (unlabel r) = NaN.
Proof. unfold unlabel. apply cell_at_set_cell. Qed.

(** The commission of every normalized row is the formula of line 271 in
    binary64 arithmetic, on the row's own cells. *)
Lemma overall_commission_formula (col : string) (df d1 : DataFrame) (r : nat * Row) :
  normalize col df = Ok d1 -> In r (df_rows d1) ->
  commission r = Ok (cell_at "overall_commission" r).
Proof.
  intros H Hr.
  pose proof (normalize_columns col df d1 H) as (H1 & H2 & H3 & H4 & H5).
  apply (normalize_Ok_iff col df d1 H1 H2 H3 H4 H5) in H as (cs & Hcs & Hfin).
  apply finish_Ok in Hfin as (sorted & _ & _ & _ & Hperm & _ & ->).
  destruct (values_In _ _ r (reset_index_values sorted) Hr) as (r' & Hr' & Heq).
  apply (Permutation_in _ Hperm), dedup_from_subset in Hr'.
  cbn [df_rows] in Hr'. apply in_map_iff in Hr' as (r0 & <- & Hr0).
  rewrite (commission_values r (normalize_row r0) (eq_sym Heq)).
  replace (cell_at "overall_commission" r)
    with (cell_at "overall_commission" (normalize_row r0))
    by (unfold cell_at; rewrite Heq; reflexivity).
  rewrite commission_normalized. unfold normalize_row. rewrite cell_at_set_cell.
  unfold commission_total. rewrite commission_prepared.
  destruct (mapR_Ok_In commission _ cs (prepared_row r0) Hcs) as [c Hc];
    [apply in_map; exact Hr0|].
  rewrite commission_prepared in Hc. rewrite Hc. reflexivity.
Qed.

Example commission_of_floats (m s a : float) :
  commission_cell (CFloat m) (CFloat s) (CFloat a)
  = Ok (CFloat (round3 (PrimFloat.mul (PrimFloat.add m s)
                                      (PrimFloat.div a 100%float)))).
Proof. reflexivity. Qed.

(** ** Binary64 arithmetic: the sign of the commission (claim C7) *)

Lemma binary_round_aux_sign (prec emax : Z) (sx : bool) (m e : Z) (l : location) :
  match binary_round_aux prec emax sx m e l with
  | S754_zero s | S754_infinity s | S754_finite s _ _ => s = sx
  | S754_nan => True
  end.
Proof.
  unfold binary_round_aux.
  destruct (shr_fexp prec emax m e l) as [mrs' e'].
  destruct (shr_fexp prec emax _ e' loc_Exact) as [mrs'' e''].
  destruct (shr_m mrs''); [reflexivity| |exact I].
  destruct (e'' <=? emax - prec); reflexivity.
Qed.

Lemma binary_round_aux_notneg (prec emax : Z) (m e : Z) (l : location) :
  sf_notneg (binary_round_aux prec emax false m e l) = true.
Proof.
  pose proof (binary_round_aux_sign prec emax false m e l) as H.
  destruct (binary_round_aux prec emax false m e l); simpl; try reflexivity;
    rewrite H; reflexivity.
Qed.

Lemma binary_round_notneg (prec emax : Z) (m : positive) (e : Z) :
  sf_notneg (binary_round prec emax false m e) = true.
Proof.
  unfold binary_round. destruct (shl_align _ _ _) as [mz ez].
  apply binary_round_aux_notneg.
Qed.

Lemma binary_normalize_notneg (prec emax : Z) (m e : Z) :
  0 <= m -> sf_notneg (binary_normalize prec emax m e false) = true.
Proof.
  intros Hm. destruct m as [|m|m]; simpl; [reflexivity| |lia].
  apply binary_round_notneg.
Qed.

Lemma SFmul_notneg (prec emax : Z) (x y : spec_float) :
  sf_notneg x = true -> sf_notneg y = true -> sf_notneg (SFmul prec emax x y) = true.
Proof.
  destruct x as [sx|sx| |sx mx ex], y as [sy|sy| |sy my ey]; simpl;
    intros Hx Hy; try reflexivity;
    try (apply negb_true_iff in Hx; subst sx);
    try (apply negb_true_iff in Hy; subst sy); try reflexivity.
  apply binary_round_aux_notneg.
Qed.

Lemma SFadd_notneg (prec emax : Z) (x y : spec_float) :
  sf_notneg x = true -> sf_notneg y = true -> sf_notneg (SFadd prec emax x y) = true.
Proof.
  destruct x as [sx|sx| |sx mx ex], y as [sy|sy| |sy my ey]; simpl;
    intros Hx Hy; try reflexivity;
    try (apply negb_true_iff in Hx; subst sx);
    try (apply negb_true_iff in Hy; subst sy); try reflexivity.
  - destruct sx, sy; reflexivity.
  - simpl. apply binary_round_notneg.
Qed.

Lemma SFdiv_notneg (prec emax : Z) (x : spec_float) (my : positive) (ey : Z) :
  sf_notneg x = true ->
  sf_notneg (SFdiv prec emax x (S754_finite false my ey)) = true.
Proof.
  destruct x as [sx|sx| |sx mx ex]; simpl; intros Hx; try reflexivity;
    try (apply negb_true_iff in Hx; subst sx); try reflexivity.
  destruct (SFdiv_core_binary _ _ _ _ _ _) as [[mz ez] lz].
  apply binary_round_aux_notneg.
Qed.

(** ** Digits and shifts *)

Lemma digits2_log2 (m : positive) : Zpos (digits2_pos m) = Z.log2 (Zpos m) + 1.
Proof.
  assert (forall p, digits2_pos p = Pos.size p) as Hsize
    by (induction p; simpl; congruence).
  destruct m as [p|p|]; simpl; rewrite ?Hsize, ?Pos2Z.inj_succ; lia.
Qed.

Lemma Zdigits2_log2 (m : Z) : 0 < m -> Zdigits2 m = Z.log2 m + 1.
Proof. destruct m as [|p|p]; try lia. intros _. apply digits2_log2. Qed.

Lemma iter_pos_iter {A} (f : A -> A) (p : positive) (x : A) :
  SpecFloat.iter_pos f p x = Pos.iter f x p.
Proof.
  revert x. induction p as [p IH|p IH|]; intros x; simpl.
  - rewrite !IH. rewrite <- !Pos.iter_swap. reflexivity.
  - rewrite !IH. reflexivity.
  - reflexivity.
Qed.

Lemma shr_1_m (mrs : shr_record) : 0 <= shr_m mrs -> shr_m (shr_1 mrs) = Z.div2 (shr_m mrs).
Proof.
  destruct mrs as [m r s]. simpl. intros Hm.
  destruct m as [|[p|p|]|p]; try reflexivity; lia.
Qed.

Lemma shr_iter_m (p : positive) (mrs : shr_record) :
  0 <= shr_m mrs ->
  shr_m (SpecFloat.iter_pos shr_1 p mrs) = Z.shiftr (shr_m mrs) (Zpos p).
Proof.
  intros Hm. rewrite iter_pos_iter.
  change (Z.shiftr (shr_m mrs) (Z.pos p)) with (Pos.iter Z.div2 (shr_m mrs) p).
  revert mrs Hm. induction p as [|p IH] using Pos.peano_ind; intros mrs Hm.
  - simpl. apply shr_1_m, Hm.
  - rewrite !Pos.iter_succ. rewrite shr_1_m.
    + rewrite IH by exact Hm. reflexivity.
    + rewrite IH by exact Hm.
      change (Pos.iter Z.div2 (shr_m mrs) p) with (Z.shiftr (shr_m mrs) (Z.pos p)).
      apply Z.shiftr_nonneg, Hm.
Qed.

Lemma shr_record_of_loc_m (m : Z) (l : location) : shr_m (shr_record_of_loc m l) = m.
Proof. destruct l as [|[]]; reflexivity. Qed.

Lemma fexp_big (D : Z) : 53 <= D -> fexp prec emax D = D - 53.
Proof. unfold fexp, emin, prec, emax. lia. Qed.

(** A right shift to the precision keeps a number of at least 53 digits
    positive, and its exponent is not negative. *)
Lemma shr_fexp_big (m e : Z) (l : location) :
  0 < m -> 53 <= Zdigits2 m + e ->
  let r := shr_fexp prec emax m e l in
  0 < shr_m r.1 /\ 0 <= r.2 /\ Zdigits2 (shr_m r.1) + r.2 = Zdigits2 m + e.
Proof.
  intros Hm HD. unfold shr_fexp. rewrite (fexp_big _ HD).
  rewrite (Zdigits2_log2 m Hm) in *.
  pose proof (Z.log2_nonneg m) as Hlog.
  unfold shr. destruct (Z.log2 m + 1 + e - 53 - e) as [|p|p] eqn:Hn; cbn [fst snd].
  - rewrite shr_record_of_loc_m, (Zdigits2_log2 m Hm). lia.
  - rewrite shr_iter_m by (rewrite shr_record_of_loc_m; lia).
    rewrite shr_record_of_loc_m.
    assert (Z.log2 (Z.shiftr m (Z.pos p)) = 52) as Hlog'
      by (rewrite Z.log2_shiftr by exact Hm; lia).
    assert (0 < Z.shiftr m (Z.pos p)) as Hpos.
    { destruct (Z.lt_trichotomy 0 (Z.shiftr m (Z.pos p))) as [H|[H|H]]; [exact H| |].
      - rewrite <- H in Hlog'. discriminate Hlog'.
      - rewrite Z.log2_nonpos in Hlog' by lia. discriminate Hlog'. }
    rewrite (Zdigits2_log2 _ Hpos). lia.
  - rewrite shr_record_of_loc_m, (Zdigits2_log2 m Hm). lia.
Qed.

Lemma round_nearest_even_ge (m : Z) (l : location) :
  m <= round_nearest_even m l <= m + 1.
Proof. destruct l as [|[]]; simpl; try lia. destruct (Z.even m); lia. Qed.

Lemma binary_round_aux_big (m e : Z) (l : location) :
  0 < m -> 53 <= Zdigits2 m + e ->
  match binary_round_aux prec emax false m e l with
  | S754_finite false _ eb => 0 <= eb
  | S754_infinity false => True
  | _ => False
  end.
Proof.
  intros Hm HD. unfold binary_round_aux.
  pose proof (shr_fexp_big m e l Hm HD) as H1. cbv zeta in H1.
  destruct (shr_fexp prec emax m e l) as [mrs' e']. cbn [fst snd] in H1.
  destruct H1 as (Hm1 & He1 & HD1).
  pose proof (round_nearest_even_ge (shr_m mrs') (loc_of_shr_record mrs')) as Hr.
  set (m2 := round_nearest_even (shr_m mrs') (loc_of_shr_record mrs')) in *.
  assert (0 < m2) as Hm2 by lia.
  assert (53 <= Zdigits2 m2 + e') as HD2.
  { rewrite (Zdigits2_log2 m2 Hm2). rewrite (Zdigits2_log2 _ Hm1) in HD1.
    pose proof (Z.log2_le_mono (shr_m mrs') m2 ltac:(lia)). lia. }
  pose proof (shr_fexp_big m2 e' loc_Exact Hm2 HD2) as H2. cbv zeta in H2.
  destruct (shr_fexp prec emax m2 e' loc_Exact) as [mrs'' e'']. cbn [fst snd] in H2.
  destruct H2 as (Hm3 & He3 & _).
  destruct (shr_m mrs'') as [|p|p]; try lia.
  destruct (e'' <=? emax - prec); [exact He3|exact I].
Qed.

Lemma iter_xO_digits (m d : positive) :
  digits2_pos (Pos.iter xO m d) = (digits2_pos m + d)%positive.
Proof.
  induction d as [|d IH] using Pos.peano_ind; simpl.
  - lia.
  - rewrite Pos.iter_succ. simpl. rewrite IH. lia.
Qed.

Lemma iter_xO_ge (m d : positive) : (m <= Pos.iter xO m d)%positive.
Proof.
  induction d as [|d IH] using Pos.peano_ind; simpl.
  - lia.
  - rewrite Pos.iter_succ. lia.
Qed.

Lemma binary_round_big (m : positive) (e : Z) :
  53 <= Zpos (digits2_pos m) + e ->
  match binary_round prec emax false m e with
  | S754_finite false _ eb => 0 <= eb
  | S754_infinity false => True
  | _ => False
  end.
Proof.
  intros HD. unfold binary_round, shl_align. rewrite (fexp_big _ HD).
  destruct (Z.pos (digits2_pos m) + e - 53 - e) as [|p|p] eqn:Hn;
    apply binary_round_aux_big; try lia; try exact HD.
  unfold Zdigits2, shift_pos. rewrite iter_xO_digits. lia.
Qed.

Lemma digits2_pos_mono (a b : positive) :
  (a <= b)%positive -> (digits2_pos a <= digits2_pos b)%positive.
Proof.
  intros H. pose proof (digits2_log2 a). pose proof (digits2_log2 b).
  pose proof (Z.log2_le_mono (Zpos a) (Zpos b) ltac:(lia)). lia.
Qed.

(** ** Rounding to an integer and to three decimals *)

Lemma Prim2SF_two52 : Prim2SF two52 = SF_two52.
Proof. reflexivity. Qed.

Lemma Prim2SF_zero : Prim2SF 0%float = S754_zero false.
Proof. reflexivity. Qed.

(** [a + 2^52] for a positive [a]: a float with a non-negative exponent. *)
Lemma SFadd_two52 (m : positive) (e : Z) :
  match SFadd prec emax (S754_finite false m e) SF_two52 with
  | S754_finite false _ eb => 0 <= eb
  | S754_infinity false => True
  | _ => False
  end.
Proof.
  unfold SFadd, SF_two52. cbn [Z.min andb orb negb cond_Zopp].
  set (ez := Z.min e 0).
  set (a := fst (shl_align m e ez)). set (t := fst (shl_align 4503599627370496 0 ez)).
  change (cond_Zopp false (Z.pos a) + cond_Zopp false (Z.pos t)) with (Z.pos (a + t)).
  unfold binary_normalize. apply binary_round_big.
  assert (53 <= Z.pos (digits2_pos t) + ez) as Ht.
  { subst t. unfold shl_align. destruct (ez - 0) as [|p|p] eqn:Hp; cbn [fst].
    - change (digits2_pos 4503599627370496) with 53%positive. lia.
    - lia.
    - unfold shift_pos. rewrite iter_xO_digits.
      change (digits2_pos 4503599627370496) with 53%positive. lia. }
  pose proof (digits2_pos_mono t (a + t) ltac:(lia)). lia.
Qed.

(** A valid float with a non-negative exponent is at least [2^52]. *)
Lemma valid_big (m : positive) (e : Z) :
  valid_binary (S754_finite false m e) = true -> 0 <= e ->
  (4503599627370496 <= m)%positive.
Proof.
  unfold valid_binary, bounded, canonical_mantissa. intros H He.
  apply andb_true_iff in H as [H _]. apply Z.eqb_eq in H.
  unfold fexp, emin, prec, emax in H.
  assert (Z.pos (digits2_pos m) = 53) as Hd by lia.
  rewrite digits2_log2 in Hd.
  pose proof (Z.log2_spec (Z.pos m) ltac:(lia)) as [Hlow _].
  replace (Z.log2 (Z.pos m)) with 52 in Hlow by lia.
  change (2 ^ 52) with 4503599627370496 in Hlow. lia.
Qed.

Lemma SFsub_two52 (b : spec_float) :
  valid_binary b = true ->
  match b with
  | S754_finite false _ eb => 0 <= eb
  | S754_infinity false => True
  | _ => False
  end ->
  sf_notneg (SFsub prec emax b SF_two52) = true.
Proof.
  intros Hv Hb. destruct b as [s|[]| |[] m e]; try contradiction; [reflexivity|].
  pose proof (valid_big m e Hv Hb) as Hm.
  unfold SFsub, SF_two52. cbn [andb orb negb cond_Zopp Z.min].
  rewrite (Z.min_r e 0 Hb).
  apply binary_normalize_notneg.
  change (shl_align 4503599627370496 0 0) with (4503599627370496%positive, 0).
  unfold shl_align. destruct (0 - e) as [|p|p] eqn:Hp; cbn [fst cond_Zopp negb].
  - lia.
  - lia.
  - pose proof (iter_xO_ge m p). unfold shift_pos. lia.
Qed.

Lemma leb_zero_notneg (x : float) : PrimFloat.leb 0 x = true -> sf_notneg (Prim2SF x) = true.
Proof.
  rewrite FloatAxioms.leb_spec, Prim2SF_zero. unfold SFleb, SFcompare.
  destruct (Prim2SF x) as [s|[]| |[] m e]; simpl; congruence.
Qed.

Lemma notneg_ltb_zero (x : float) : sf_notneg (Prim2SF x) = true -> PrimFloat.ltb x 0 = false.
Proof.
  rewrite FloatAxioms.ltb_spec, Prim2SF_zero. unfold SFltb, SFcompare.
  destruct (Prim2SF x) as [s|[]| |[] m e]; simpl; congruence.
Qed.

Lemma notneg_leb_zero (x : float) :
  sf_notneg (Prim2SF x) = true -> PrimFloat.is_nan x = false -> PrimFloat.leb 0 x = true.
Proof.
  unfold PrimFloat.is_nan. rewrite FloatAxioms.leb_spec, FloatAxioms.eqb_spec, Prim2SF_zero.
  unfold SFleb, SFeqb, SFcompare.
  destruct (Prim2SF x) as [s|[]| |[] m e]; simpl; congruence.
Qed.

(** [np.rint] of a float that is not negative is not negative. *)
Lemma rint_notneg (x : float) :
  sf_notneg (Prim2SF x) = true -> sf_notneg (Prim2SF (rint x)) = true.
Proof.
  intros Hx. unfold rint. cbv zeta.
  destruct (PrimFloat.ltb (PrimFloat.abs x) two52) eqn:Hlt; [|exact Hx].
  rewrite FloatAxioms.ltb_spec, FloatAxioms.abs_spec, Prim2SF_two52 in Hlt.
  assert (sf_notneg (Prim2SF (PrimFloat.sub (PrimFloat.add (PrimFloat.abs x) two52) two52)) = true
          /\ (PrimFloat.get_sign x = true ->
              sf_notneg (Prim2SF (PrimFloat.opp
                (PrimFloat.sub (PrimFloat.add (PrimFloat.abs x) two52) two52))) = true))
    as [Hr Ho].
  { pose proof (Prim2SF_valid (PrimFloat.add (PrimFloat.abs x) two52)) as Hv.
    unfold PrimFloat.get_sign, PrimFloat.is_zero.
    rewrite FloatAxioms.opp_spec, FloatAxioms.sub_spec, Prim2SF_two52.
    rewrite FloatAxioms.add_spec, FloatAxioms.abs_spec, Prim2SF_two52 in Hv |- *.
    rewrite FloatAxioms.eqb_spec. 
    destruct (Prim2SF x) as [s|[]| |[] m e] eqn:Ex; simpl in Hx; try discriminate Hx.
    - split; reflexivity.
    - discriminate Hlt.
    - split; reflexivity.
    - split.
      + apply SFsub_two52; [exact Hv|]. apply SFadd_two52.
      + change (Prim2SF zero) with (S754_zero false). cbn [SFeqb SFcompare].
        rewrite FloatAxioms.ltb_spec, Ex. discriminate. }
  destruct (PrimFloat.get_sign x); [apply Ho; reflexivity|exact Hr].
Qed.

Lemma Prim2SF_1000 : Prim2SF 1000%float = S754_finite false 8796093022208000 (-43).
Proof. reflexivity. Qed.

Lemma Prim2SF_100 : Prim2SF 100%float = S754_finite false 7036874417766400 (-46).
Proof. reflexivity. Qed.

Lemma round3_notneg (x : float) :
  sf_notneg (Prim2SF x) = true -> sf_notneg (Prim2SF (round3 x)) = true.
Proof.
  intros Hx. unfold round3. rewrite FloatAxioms.div_spec, Prim2SF_1000.
  apply SFdiv_notneg, rint_notneg. rewrite FloatAxioms.mul_spec, Prim2SF_1000.
  apply SFmul_notneg; [exact Hx|reflexivity].
Qed.

Lemma float_of_Z_notneg (z : Z) : 0 <= z -> sf_notneg (Prim2SF (float_of_Z z)) = true.
Proof.
  intros Hz. unfold float_of_Z. destruct (Z.ltb_spec z 0) as [H|_]; [lia|].
  rewrite FloatAxioms.of_uint63_spec. apply binary_normalize_notneg.
  apply Uint63.to_Z_bounded.
Qed.

(** ** The commission of a row (claim C7) *)

Lemma as_float_notneg (c : Cell) :
  cell_nonneg c = true ->
  exists x, as_float c = Ok x /\ sf_notneg (Prim2SF x) = true.
Proof.
  destruct c as [|z|f|s|t|]; simpl; try discriminate.
  - intros Hz. eexists. split; [reflexivity|].
    apply float_of_Z_notneg. apply Z.leb_le, Hz.
  - intros Hf. eexists. split; [reflexivity|]. apply leb_zero_notneg, Hf.
Qed.

Lemma cell_add_notneg (a b : Cell) :
  cell_nonneg a = true -> cell_nonneg b = true ->
  exists c x, cell_add a b = Ok c /\ as_float c = Ok x
              /\ sf_notneg (Prim2SF x) = true.
Proof.
  intros Ha Hb.
  destruct (as_float_notneg a Ha) as (x & Hx & Hxs).
  destruct (as_float_notneg b Hb) as (y & Hy & Hys).
  assert (sf_notneg (Prim2SF (PrimFloat.add x y)) = true) as Hsum
    by (rewrite FloatAxioms.add_spec; apply SFadd_notneg; assumption).
  destruct a as [|za|fa|sa|ta|], b as [|zb|fb|sb|tb|]; try discriminate Ha;
    try discriminate Hb; simpl in Hx, Hy |- *;
    injection Hx as <-; injection Hy as <-;
    try (eexists _, _; split; [reflexivity|split; [reflexivity|exact Hsum]]).
  simpl in Ha, Hb. apply Z.leb_le in Ha, Hb.
  eexists _, _. split; [reflexivity|split; [reflexivity|]].
  apply float_of_Z_notneg. lia.
Qed.

(** The commission of non-negative cells is a float that is not negative. *)
Lemma commission_cell_notneg (mid svc acc : Cell) :
  cell_nonneg mid = true -> cell_nonneg svc = true -> cell_nonneg acc = true ->
  exists f, commission_cell mid svc acc = Ok (CFloat f)
            /\ sf_notneg (Prim2SF f) = true.
Proof.
  intros Hm Hs Ha. unfold commission_cell.
  destruct (cell_add_notneg mid svc Hm Hs) as (rate & x & -> & Hx & Hxs).
  destruct (as_float_notneg acc Ha) as (y & Hy & Hys).
  unfold cell_truediv. rewrite Hy. simpl.
  assert (cell_mul rate (CFloat (y / 100)%float)
          = Ok (CFloat (x * (y / 100))%float)) as ->.
  { destruct rate; simpl in Hx |- *; try discriminate Hx;
      injection Hx as <-; reflexivity. }
  simpl. eexists. split; [reflexivity|].
  apply round3_notneg. rewrite FloatAxioms.mul_spec.
  apply SFmul_notneg; [exact Hxs|].
  rewrite FloatAxioms.div_spec, Prim2SF_100. apply SFdiv_notneg, Hys.
Qed.

(** C7, as stated, does not hold.  The code divides the accepted amount by
    100 before it multiplies: with a mid commission of 0, a service
    commission of 0.1 and an accepted amount of 2.5 the stored commission is
    0.003, while the stated formula gives 0.002, a whole unit of the last
    decimal kept.  And two finite non-negative commissions whose sum
    overflows, with an accepted amount of 0, give NaN, which is not
    non-negative. *)
Lemma C7_commission_off_the_stated_formula :
  commissions_of (commission_df 0 tenth 2.5) = [CFloat (3 / 1000)]
  /\ stated_commission 0 tenth 2.5 = (2 / 1000)%float
  /\ PrimFloat.ltb (2 / 1000) (3 / 1000) = true
  /\ cell_nonneg (CFloat huge) = true
  /\ PrimFloat.is_finite huge = true
  /\ cell_nonneg (CFloat 0) = true
  /\ commissions_of (commission_df huge huge 0) = [NaN]
  /\ cell_nonneg NaN = false.
Proof. vm_compute. repeat split; reflexivity. Qed.

(** C7, amended: for every normalized record, [overall_commission] is
    exactly the value the code computes from the record's own cells: the sum
    of the two commissions times the hundredth of the accepted amount, in
    binary64 arithmetic, rounded to three decimals by [np.round]; and
    whenever the two commissions and the accepted amount are non-negative
    numbers it is a float that is never negative: it is NaN or it is
    non-negative. *)
Theorem C7_overall_commission (col : string) (df d1 : DataFrame) (r : nat * Row) :
  normalize col df = Ok d1 -> In r (df_rows d1) ->
  commission r = Ok (cell_at "overall_commission" r)
  /\ (forall m s a,
        cell_at "mid_commission" r = CFloat m ->
        cell_at "service_commission" r = CFloat s ->
        cell_at "accepted_amount" r = CFloat a ->
        cell_at "overall_commission" r
        = CFloat (round3 (PrimFloat.mul (PrimFloat.add m s) (PrimFloat.div a 100))))
  /\ (cell_nonneg (cell_at "mid_commission" r) = true ->
      cell_nonneg (cell_at "service_commission" r) = true ->
      cell_nonneg (cell_at "accepted_amount" r) = true ->
      exists f, cell_at "overall_commission" r = CFloat f
                /\ PrimFloat.ltb f 0 = false
                /\ (PrimFloat.is_nan f = false -> PrimFloat.leb 0 f = true)).
Proof.
  intros H Hr. pose proof (overall_commission_formula col df d1 r H Hr) as Hc.
  split; [exact Hc|split].
  - intros m s a Hm Hs Ha. unfold commission in Hc.
    rewrite Hm, Hs, Ha in Hc. simpl in Hc. injection Hc as <-. reflexivity.
  - intros Hm Hs Ha. unfold commission in Hc.
    destruct (commission_cell_notneg _ _ _ Hm Hs Ha) as (f & Hf & Hsign).
    rewrite Hf in Hc. injection Hc as <-.
    exists f. split; [reflexivity|split].
    + apply notneg_ltb_zero, Hsign.
    + apply notneg_leb_zero, Hsign.
Qed.

Lemma C7_overall_commission_witness :
  let d := frame_of (normalize "accepted_at" (commission_df 0 tenth 2.5)) in
  length (df_rows d) = 1%nat
  /\ Forall (fun r =>
       commission r = Ok (cell_at "overall_commission" r)
       /\ exists f, cell_at "overall_commission" r = CFloat f
                    /\ PrimFloat.ltb f 0 = false) (df_rows d).
Proof.
  intros d.
  assert (normalize "accepted_at" (commission_df 0 tenth 2.5) = Ok d) as Hn.
  { unfold d.
    destruct (normalize "accepted_at" (commission_df 0 tenth 2.5)) as [d0|e] eqn:E;
      [reflexivity|vm_compute in E; discriminate E]. }
  assert (forallb (fun r => cell_nonneg (cell_at "mid_commission" r)
                            && cell_nonneg (cell_at "service_commission" r)
                            && cell_nonneg (cell_at "accepted_amount" r))
            (df_rows d) = true) as Hcells by (vm_compute; reflexivity).
  split; [vm_compute; reflexivity|].
  apply List.Forall_forall. intros r Hr.
  apply (proj1 (forallb_forall _ _) Hcells) in Hr as Hcell.
  apply andb_true_iff in Hcell as [Hcell Ha].
  apply andb_true_iff in Hcell as [Hm Hs].
  destruct (C7_overall_commission "accepted_at" (commission_df 0 tenth 2.5) d r Hn Hr)
    as (Hc & _ & Hsign).
  split; [exact Hc|].
  destruct (Hsign Hm Hs Ha) as (f & Hf & Hlt & _).
  exists f. split; [exact Hf|exact Hlt].
Defined.

(** The second pass on the output of the first: same columns, same index
    labels and, up to the order of the rows, the same rows with their status
    label erased. *)
Lemma normalize_twice (col : string) (df d1 : DataFrame) :
  normalize col df = Ok d1 ->
  exists d2,
    normalize col d1 = Ok d2
    /\ df_columns d2 = df_columns d1
    /\ fst <$> df_rows d2 = fst <$> df_rows d1
    /\ Permutation (snd <$> df_rows d2) (snd <$> (unlabel <$> df_rows d1)).
Proof.
  intros H.
  pose proof (normalize_columns col df d1 H) as (H1 & H2 & H3 & H4 & H5).
  apply (normalize_Ok_iff col df d1 H1 H2 H3 H4 H5) in H as (cs & Hcs & Hfin).
  apply finish_Ok in Hfin as (sorted & Hext & Hcol & Hcols & Hperm & Hkind & ->).
  cbn [df_columns df_rows] in Hcols, Hperm, Hkind.
  set (D := dedup_from [] "external_id" (normalize_row <$> df_rows df)) in *.
  set (d1 := reset_index sorted).
  assert (df_columns d1 = normalized_columns df) as Hcols1 by exact Hcols.
  assert (forall c, existsb (String.eqb c) (normalized_columns df) = true ->
                    has_column c d1 = true) as Hhas.
  { intros c Hc. unfold has_column. rewrite Hcols1. exact Hc. }
  assert (forall r1, In r1 (df_rows d1) ->
            exists r', In r' D /\ r'.2 = r1.2) as Hfrom.
  { intros r1 Hr1.
    destruct (values_In _ _ r1 (reset_index_values sorted) Hr1) as (r' & Hr' & Heq).
    exists r'. split; [|exact Heq]. apply (Permutation_in _ Hperm Hr'). }
  assert (forall r1, In r1 (df_rows d1) ->
            exists r0, In r0 (df_rows df) /\ r1.2 = (normalize_row r0).2) as Horigin.
  { intros r1 Hr1. destruct (Hfrom r1 Hr1) as (r' & Hr' & Heq).
    apply dedup_from_subset in Hr'. apply in_map_iff in Hr' as (r0 & <- & Hr0).
    exists r0. auto. }
  assert (Distinct (cell_at "external_id" <$> df_rows d1)) as Hdistinct.
  { rewrite (cell_at_values "external_id" (df_rows d1) (df_rows sorted)
               (reset_index_values sorted)).
    apply (Distinct_Permutation (cell_at "external_id" <$> D)).
    - apply Permutation_map. symmetry. exact Hperm.
    - apply dedup_from_distinct. }
  assert (normalize_row <$> df_rows d1 = unlabel <$> df_rows d1) as Hrows.
  { apply map_ext_in. intros r1 Hr1. destruct (Horigin r1 Hr1) as (r0 & _ & Heq).
    apply (unlabel_after_normalize r1 r0 Heq). }
  assert (exists cs2, mapR commission (prepared_row <$> df_rows d1) = Ok cs2) as [cs2 Hcs2].
  { apply mapR_total. intros x Hx. apply in_map_iff in Hx as (r1 & <- & Hr1).
    destruct (Horigin r1 Hr1) as (r0 & Hr0 & Heq).
    rewrite commission_prepared, (commission_values r1 (normalize_row r0) Heq),
      commission_normalized, <- commission_prepared.
    apply (mapR_Ok_In commission _ cs (prepared_row r0) Hcs).
    apply in_map. exact Hr0. }
  destruct (finish_run col (mk_df (normalized_columns df) (unlabel <$> df_rows d1)))
    as (sorted2 & Hfin2 & Hcols2 & Hperm2).
  - exact Hext.
  - exact Hcol.
  - cbn [df_rows]. rewrite <- list_fmap_compose.
    erewrite list_fmap_ext; [exact Hdistinct|].
    intros _ r _. apply unlabel_key. discriminate.
  - cbn [df_rows]. revert Hkind. apply one_kind_subset.
    intros k Hk. apply in_map_iff in Hk as (x & <- & Hx).
    apply filter_In in Hx as [Hx Hna]. apply in_map_iff in Hx as (r1 & <- & Hr1).
    destruct (String.eqb_spec col "status_name") as [->|Hne].
    { rewrite unlabel_status in Hna. discriminate Hna. }
    rewrite (unlabel_key col r1 Hne) in *.
    destruct (Hfrom r1 Hr1) as (r' & Hr' & Heq).
    assert (cell_at col r' = cell_at col r1) as Hkey
      by (unfold cell_at; rewrite Heq; reflexivity).
    rewrite <- Hkey in *. apply in_map. apply filter_In. auto.
  - cbn [df_columns df_rows] in Hcols2, Hperm2.
    exists (reset_index sorted2). split; [|split; [|split]].
    + apply (normalize_Ok_iff col d1 _
               (Hhas _ (has_column_normalized _ df H1))
               (Hhas _ (has_column_normalized _ df H2))
               (Hhas _ (has_column_normalized _ df H3))
               (Hhas _ (has_column_normalized _ df H4))
               (Hhas _ (has_column_normalized _ df H5))).
      exists cs2. split; [exact Hcs2|].
      rewrite Hrows.
      replace (normalized_columns d1) with (normalized_columns df); [exact Hfin2|].
      symmetry. destruct d1 as [cols1 rows1]. cbn [df_columns] in Hcols1. subst cols1.
      apply normalized_columns_idem.
    + cbn [reset_index df_columns]. congruence.
    + unfold d1 in *. rewrite !reset_index_labels. f_equal.
      rewrite (Permutation_length Hperm2), length_fmap. apply reset_index_length.
    + rewrite (reset_index_values sorted2). apply Permutation_map. exact Hperm2.
Qed.

Lemma set_new_col_run (df : DataFrame) (st : State) :
  set_new_col df st
  = match normalize (col_filter st) df with
    | Ok d => (Ok d, with_log (log st ++ [(INFO, MsgNormStart); (INFO, MsgNormDone)]) st)
    | Raise e =>
        (Raise e,
         with_log (log st ++ [(INFO, MsgNormStart); (ERROR, MsgNormError e)]) st)
    end.
Proof.
  unfold set_new_col. run.
  destruct (normalize (col_filter st) df); simpl; rewrite <- app_assoc; reflexivity.
Qed.

(** C3, as stated, does not hold: the first pass replaces the status codes
    by labels, and a label is not a key of [STATUS_DICT], so the second
    pass turns every status into a missing value. *)
Lemma C3_second_pass_erases_status :
  let st := with_col_filter "accepted_at" (initial_state None) in
  exists d1 st1 d2 st2,
    set_new_col (sample_df 1282) st = (Ok d1, st1)
    /\ set_new_col d1 st1 = (Ok d2, st2)
    /\ cell_at "status_name" <$> df_rows d1 = [CStr "Провально"; CStr "Succeed"]
    /\ cell_at "status_name" <$> df_rows d2 = [NaN; NaN].
Proof.
  eexists _, _, _, _.
  split; [vm_compute; reflexivity|].
  split; [vm_compute; reflexivity|].
  split; vm_compute; reflexivity.
Qed.

(** C3, amended: when [set_new_col] returns on a record set, it returns
    again on its own output, and the second pass keeps the columns, the
    index labels and, up to the order of the rows, every value of every row
    except [status_name], which becomes missing in every row. *)
Theorem C3_renormalize (df : DataFrame) (st : State) (d1 : DataFrame) (st1 : State) :
  set_new_col df st = (Ok d1, st1) ->
  exists d2 st2,
    set_new_col d1 st1 = (Ok d2, st2)
    /\ df_columns d2 = df_columns d1
    /\ fst <$> df_rows d2 = fst <$> df_rows d1
    /\ Permutation (snd <$> df_rows d2)
         ((fun r : nat * Row => <["status_name" := NaN]> r.2) <$> df_rows d1).
Proof.
  rewrite set_new_col_run.
  destruct (normalize (col_filter st) df) as [d|e] eqn:Hnorm; [|discriminate].
  intros [= <- <-].
  destruct (normalize_twice _ _ _ Hnorm) as (d2 & Hrun & Hcols & Hlabels & Hperm).
  rewrite set_new_col_run. cbn [col_filter with_log]. rewrite Hrun.
  eexists _, _. split; [reflexivity|]. split; [exact Hcols|]. split; [exact Hlabels|].
  rewrite <- list_fmap_compose in Hperm. exact Hperm.
Qed.

Lemma C3_renormalize_witness :
  let st := with_col_filter "accepted_at" (initial_state None) in
  exists d2 st2,
    set_new_col normalized_sample (set_new_col (sample_df 1282) st).2 = (Ok d2, st2)
    /\ df_columns d2 = df_columns normalized_sample
    /\ fst <$> df_rows d2 = fst <$> df_rows normalized_sample.
Proof.
  intros st.
  destruct (C3_renormalize (sample_df 1282) st normalized_sample
              (set_new_col (sample_df 1282) st).2)
    as (d2 & st2 & Hrun & Hcols & Hlabels & _).
  - vm_compute. reflexivity.
  - exists d2, st2. auto.
Defined.

(** * Further properties *)

(** ** [remove_microseconds] *)

Lemma strip_fraction_head (b : bool) (s : string) :
  starts_with_digit (strip_fraction b s) = true ->
  b = false /\ starts_with_digit s = true.
Proof.
  revert b. induction s as [|c s IH]; intros b; simpl; [discriminate|].
  destruct (b && is_digit c) eqn:Hdrop.
  - intros H. apply IH in H as [H _]. discriminate H.
  - destruct (Ascii.eqb c "."%char && starts_with_digit s) eqn:Hdot.
    + intros H. apply IH in H as [H _]. discriminate H.
    + simpl. intros Hc. rewrite Hc in Hdrop. rewrite andb_true_r in Hdrop. auto.
Qed.

Lemma strip_fraction_clean (b : bool) (s : string) :
  has_fraction (strip_fraction b s) = false.
Proof.
  revert b. induction s as [|c s IH]; intros b; simpl; [reflexivity|].
  destruct (b && is_digit c); [apply IH|].
  destruct (Ascii.eqb c "."%char && starts_with_digit s) eqn:Hdot; [apply IH|].
  simpl. rewrite IH, orb_false_r.
  destruct (Ascii.eqb c "."%char) eqn:Hc; [|reflexivity]. simpl in *.
  destruct (starts_with_digit (strip_fraction false s)) eqn:Hd; [|reflexivity].
  apply strip_fraction_head in Hd as [_ Hd]. congruence.
Qed.

Lemma strip_fraction_fixed (s : string) :
  has_fraction s = false -> strip_fraction false s = s.
Proof.
  induction s as [|c s IH]; simpl; [reflexivity|].
  intros H. apply orb_false_iff in H as [H1 H2]. rewrite H1, IH by exact H2.
  reflexivity.
Qed.

Lemma strip_fraction_digits (d : string) :
  all_digits d = true -> strip_fraction true d = "".
Proof.
  induction d as [|c d IH]; simpl; [reflexivity|].
  intros H. apply andb_true_iff in H as [-> H]. apply IH, H.
Qed.

Lemma no_dot_no_fraction (s : string) : no_dot s = true -> has_fraction s = false.
Proof.
  induction s as [|c s IH]; simpl; [reflexivity|].
  intros H. apply andb_true_iff in H as [Hc H]. rewrite (IH H).
  destruct (Ascii.eqb c "."%char); [discriminate Hc|reflexivity].
Qed.

(** Whatever [remove_microseconds] returns it returns again unchanged: the
    result is [None] or a string in which no dot is followed by a digit. *)
Theorem remove_microseconds_idempotent (c c' : Cell) :
  remove_microseconds c = Ok c' ->
  remove_microseconds c' = Ok c'
  /\ match c' with CStr s => has_fraction s = false | other => other = CNone end.
Proof.
  unfold remove_microseconds. destruct (isna c) eqn:Hna.
  - intros [= <-]. auto.
  - destruct c; try discriminate. intros [= <-]. simpl.
    rewrite (strip_fraction_fixed _ (strip_fraction_clean false s)).
    split; [reflexivity|apply strip_fraction_clean].
Qed.

Lemma remove_microseconds_idempotent_witness :
  remove_microseconds (CStr "2024-11-18 10:00:00") = Ok (CStr "2024-11-18 10:00:00").
Proof.
  apply (remove_microseconds_idempotent (CStr "2024-11-18 10:00:00.123456")).
  reflexivity.
Defined.

(** A text without a dot loses a fraction appended to it, and is itself
    returned as it is. *)
Theorem remove_microseconds_fraction (s d : string) (c : ascii) :
  no_dot s = true -> is_digit c = true -> all_digits d = true ->
  remove_microseconds (CStr (s ++ String "."%char (String c d))) = Ok (CStr s)
  /\ remove_microseconds (CStr s) = Ok (CStr s).
Proof.
  intros Hs Hc Hd. unfold remove_microseconds. simpl. split.
  - do 2 f_equal. induction s as [|a s IH]; simpl.
    + cbn -[is_digit]. rewrite Hc. cbn -[is_digit]. apply strip_fraction_digits, Hd.
    + simpl in Hs. apply andb_true_iff in Hs as [Ha Hs].
      apply negb_true_iff in Ha. rewrite Ha. simpl. f_equal. apply IH, Hs.
  - rewrite strip_fraction_fixed; [reflexivity|]. apply no_dot_no_fraction, Hs.
Qed.

Lemma remove_microseconds_fraction_witness :
  remove_microseconds (CStr "2024-11-18 10:00:00.123") = Ok (CStr "2024-11-18 10:00:00")
  /\ remove_microseconds (CStr "2024-11-18 10:00:00") = Ok (CStr "2024-11-18 10:00:00").
Proof.
  apply (remove_microseconds_fraction "2024-11-18 10:00:00" "23" "1"%char);
    reflexivity.
Defined.

(** ** [set_new_col] *)

Lemma set_new_col_Ok (df : DataFrame) (st : State) (d1 : DataFrame) (st1 : State) :
  set_new_col df st = (Ok d1, st1) ->
  exists sorted,
    d1 = reset_index sorted
    /\ df_columns sorted = normalized_columns df
    /\ Permutation (df_rows sorted)
         (dedup_from [] "external_id" (normalize_row <$> df_rows df))
    /\ has_column "external_id" df = true
    /\ (exists cs, mapR commission (prepared_row <$> df_rows df) = Ok cs)
    /\ st1 = with_log (log st ++ [(INFO, MsgNormStart); (INFO, MsgNormDone)]) st.
Proof.
  rewrite set_new_col_run.
  destruct (normalize (col_filter st) df) as [d|e] eqn:Hnorm; [|discriminate].
  intros [= <- <-].
  pose proof (normalize_columns _ _ _ Hnorm) as (H1 & H2 & H3 & H4 & H5).
  apply (normalize_Ok_iff _ _ _ H1 H2 H3 H4 H5) in Hnorm as (cs & Hcs & Hfin).
  apply finish_Ok in Hfin as (sorted & Hext & _ & Hcols & Hperm & _ & ->).
  exists sorted. repeat split; try assumption; [|eauto].
  unfold has_column, normalized_columns in Hext. cbn [df_columns] in Hext.
  rewrite !existsb_add_column in Hext. simpl in Hext.
  rewrite !orb_false_r in Hext. exact Hext.
Qed.

Lemma set_new_col_origin (df : DataFrame) (st : State) (d1 : DataFrame) (st1 : State)
    (r : nat * Row) :
  set_new_col df st = (Ok d1, st1) -> In r (df_rows d1) ->
  exists r0, In r0 (df_rows df) /\ r.2 = (normalize_row r0).2.
Proof.
  intros H Hr. apply set_new_col_Ok in H as (sorted & -> & _ & Hperm & _).
  destruct (values_In _ _ r (reset_index_values sorted) Hr) as (r' & Hr' & Heq).
  apply (Permutation_in _ Hperm), dedup_from_subset in Hr'.
  apply in_map_iff in Hr' as (r0 & <- & Hr0). exists r0. auto.
Qed.

Lemma cell_at_snd (c : string) (r r' : nat * Row) :
  r.2 = r'.2 -> cell_at c r = cell_at c r'.
Proof. unfold cell_at. intros ->. reflexivity. Qed.

Lemma normalize_row_untouched (c : string) (r : nat * Row) :
  c <> "amount" -> c <> "status_name" -> c <> "overall_commission" ->
  cell_at c (normalize_row r) = cell_at c r.
Proof.
  intros H1 H2 H3.
  unfold normalize_row, prepared_row, label_row, backfill_zero, backfill_withdraw.
  rewrite !cell_at_set_cell_ne by congruence. reflexivity.
Qed.

Lemma normalize_row_amount (r : nat * Row) :
  cell_at "amount" (normalize_row r)
  = if cell_eq_str "withdraw" (cell_at "transaction_type" r)
       || cell_eq_zero (cell_at "amount" r)
    then cell_at "accepted_amount" r else cell_at "amount" r.
Proof.
  unfold normalize_row, prepared_row, label_row, backfill_zero, backfill_withdraw.
  cells.
  destruct (cell_eq_str "withdraw" (cell_at "transaction_type" r)); simpl.
  - destruct (cell_eq_zero (cell_at "accepted_amount" r)); reflexivity.
  - destruct (cell_eq_zero (cell_at "amount" r)); reflexivity.
Qed.

Lemma normalize_row_status (r : nat * Row) :
  cell_at "status_name" (normalize_row r)
  = map_dict STATUS_DICT (cell_at "status_name" r).
Proof.
  unfold normalize_row, prepared_row, label_row, backfill_zero, backfill_withdraw.
  cells. reflexivity.
Qed.

(** X3: after normalization every row carries the identifier and the
    accepted amount of a row of the input, and its [amount] is the accepted
    amount when the row is a withdrawal or its amount was zero, the input
    amount otherwise; so a zero [amount] only remains where the accepted
    amount is that same zero. *)
Theorem set_new_col_amount (df : DataFrame) (st : State) (d1 : DataFrame) (st1 : State) :
  set_new_col df st = (Ok d1, st1) ->
  forall r, In r (df_rows d1) ->
    (exists r0,
        In r0 (df_rows df)
        /\ cell_at "external_id" r = cell_at "external_id" r0
        /\ cell_at "accepted_amount" r = cell_at "accepted_amount" r0
        /\ cell_at "amount" r
           = if cell_eq_str "withdraw" (cell_at "transaction_type" r0)
                || cell_eq_zero (cell_at "amount" r0)
             then cell_at "accepted_amount" r0 else cell_at "amount" r0)
    /\ (cell_eq_zero (cell_at "amount" r) = true ->
        cell_at "amount" r = cell_at "accepted_amount" r).
Proof.
  intros H r Hr. destruct (set_new_col_origin _ _ _ _ r H Hr) as (r0 & Hr0 & Heq).
  rewrite !(cell_at_snd _ r (normalize_row r0) Heq).
  rewrite !normalize_row_untouched by discriminate. rewrite normalize_row_amount.
  split; [exists r0; auto|].
  destruct (cell_eq_str "withdraw" (cell_at "transaction_type" r0)); simpl;
    [reflexivity|].
  destruct (cell_eq_zero (cell_at "amount" r0)) eqn:Hz; [reflexivity|].
  congruence.
Qed.

Lemma set_new_col_amount_witness :
  length (df_rows normalized_sample) = 2%nat
  /\ forall r, In r (df_rows normalized_sample) ->
       cell_eq_zero (cell_at "amount" r) = true ->
       cell_at "amount" r = cell_at "accepted_amount" r.
Proof.
  split; [vm_compute; reflexivity|].
  assert (set_new_col (sample_df 1282) (with_col_filter "accepted_at" (initial_state None))
          = (Ok normalized_sample, (set_new_col (sample_df 1282) (with_col_filter "accepted_at" (initial_state None))).2)) as E
    by (vm_compute; reflexivity).
  intros r Hr.
  destruct (set_new_col_amount _ _ _ _ E r Hr) as [_ H]. exact H.
Defined.

Lemma map_dict_range (d : gmap Z string) (c : Cell) :
  map_dict d c = NaN
  \/ exists code label, d !! code = Some label /\ map_dict d c = CStr label.
Proof.
  unfold map_dict. destruct (dict_get_cell d c) as [label|] eqn:Hget; [right|left; reflexivity].
  destruct c; simpl in Hget; try discriminate.
  - eauto.
  - destruct (List.find _ (map_to_list d)) as [[k l]|] eqn:Hfind; [|discriminate].
    injection Hget as <-. apply find_some in Hfind as [Hin _].
    exists k, l. split; [|reflexivity].
    apply elem_of_map_to_list, list_elem_of_In, Hin.
Qed.

(** X4: after normalization the status of a row is the label that
    [STATUS_DICT] gives for the status of an input row; it is a label of the
    table, or [NaN] when the input held no code of the table. *)
Theorem set_new_col_status (df : DataFrame) (st : State) (d1 : DataFrame) (st1 : State) :
  set_new_col df st = (Ok d1, st1) ->
  forall r, In r (df_rows d1) ->
    (exists r0, In r0 (df_rows df)
                /\ cell_at "status_name" r
                   = map_dict STATUS_DICT (cell_at "status_name" r0))
    /\ (cell_at "status_name" r = NaN
        \/ exists code label,
             STATUS_DICT !! code = Some label
             /\ cell_at "status_name" r = CStr label).
Proof.
  intros H r Hr. destruct (set_new_col_origin _ _ _ _ r H Hr) as (r0 & Hr0 & Heq).
  rewrite !(cell_at_snd _ r (normalize_row r0) Heq), normalize_row_status.
  split; [exists r0; auto|]. apply map_dict_range.
Qed.

Lemma set_new_col_status_witness :
  length (df_rows normalized_sample) = 2%nat
  /\ forall r, In r (df_rows normalized_sample) ->
       cell_at "status_name" r = NaN
       \/ exists code label,
            STATUS_DICT !! code = Some label /\ cell_at "status_name" r = CStr label.
Proof.
  split; [vm_compute; reflexivity|].
  assert (set_new_col (sample_df 1282) (with_col_filter "accepted_at" (initial_state None))
          = (Ok normalized_sample, (set_new_col (sample_df 1282) (with_col_filter "accepted_at" (initial_state None))).2)) as E
    by (vm_compute; reflexivity).
  intros r Hr.
  destruct (set_new_col_status _ _ _ _ E r Hr) as [_ H]. exact H.
Defined.

(** X5: the frame [set_new_col] returns has no two rows with the same
    [external_id], is labelled 0, 1, 2, ..., has the columns of the input
    with [amount] and [overall_commission] added where they were missing,
    and has no more rows than the input. *)
Theorem set_new_col_unique_ids (df : DataFrame) (st : State) (d1 : DataFrame)
    (st1 : State) :
  set_new_col df st = (Ok d1, st1) ->
  Distinct (cell_at "external_id" <$> df_rows d1)
  /\ fst <$> df_rows d1 = seq 0 (length (df_rows d1))
  /\ df_columns d1 = normalized_columns df
  /\ (length (df_rows d1) <= length (df_rows df))%nat.
Proof.
  intros H. apply set_new_col_Ok in H as (sorted & -> & Hcols & Hperm & _).
  split; [|split; [|split]].
  - rewrite (cell_at_values "external_id" _ _ (reset_index_values sorted)).
    apply (Distinct_Permutation
             (cell_at "external_id"
                <$> dedup_from [] "external_id" (normalize_row <$> df_rows df))).
    + apply Permutation_map. symmetry. exact Hperm.
    + apply dedup_from_distinct.
  - rewrite reset_index_labels, reset_index_length. reflexivity.
  - exact Hcols.
  - rewrite reset_index_length, (Permutation_length Hperm).
    rewrite <- (length_fmap normalize_row (df_rows df)).
    generalize (normalize_row <$> df_rows df) ([] : list Cell).
    intros rows. induction rows as [|x rows IH]; intros seen; simpl; [lia|].
    destruct (existsb _ seen); simpl; [specialize (IH seen)|specialize (IH (cell_at "external_id" x :: seen))]; lia.
Qed.

Lemma set_new_col_unique_ids_witness :
  Distinct (cell_at "external_id" <$> df_rows normalized_sample)
  /\ fst <$> df_rows normalized_sample = seq 0 (length (df_rows normalized_sample)).
Proof.
  assert (set_new_col (sample_df 1282) (with_col_filter "accepted_at" (initial_state None))
          = (Ok normalized_sample, (set_new_col (sample_df 1282) (with_col_filter "accepted_at" (initial_state None))).2)) as E
    by (vm_compute; reflexivity).
  destruct (set_new_col_unique_ids _ _ _ _ E) as (H1 & H2 & _). split; assumption.
Defined.

Lemma dedup_from_cover (seen : list Cell) (c : string) (rows : list (nat * Row))
    (r0 : nat * Row) :
  In r0 rows ->
  existsb (cell_eqb (cell_at c r0)) seen = true
  \/ In r0 (dedup_from seen c rows)
  \/ exists r, In r (dedup_from seen c rows)
               /\ cell_eqb (cell_at c r0) (cell_at c r) = true.
Proof.
  revert seen. induction rows as [|x rows IH]; intros seen Hin; [destruct Hin|].
  simpl. destruct (existsb (cell_eqb (cell_at c x)) seen) eqn:Hseen.
  - destruct Hin as [->|Hin]; [left; exact Hseen|]. apply IH, Hin.
  - destruct Hin as [->|Hin]; [right; left; left; reflexivity|].
    destruct (IH (cell_at c x :: seen) Hin) as [H|[H|(r & Hr & Heq)]].
    + simpl in H. apply orb_true_iff in H as [H|H]; [|left; exact H].
      right; right. exists x. split; [left; reflexivity|exact H].
    + right; left; right; exact H.
    + right; right. exists r. split; [right; exact Hr|exact Heq].
Qed.

(** X6: no identifier is lost by normalization: for every row of the input
    the output has a row that is that row normalized, or a row with an
    equal [external_id] (the first one of that identifier). *)
Theorem set_new_col_keeps_every_id (df : DataFrame) (st : State) (d1 : DataFrame)
    (st1 : State) :
  set_new_col df st = (Ok d1, st1) ->
  forall r0, In r0 (df_rows df) ->
    exists r, In r (df_rows d1)
              /\ (r.2 = (normalize_row r0).2
                  \/ cell_eqb (cell_at "external_id" r0) (cell_at "external_id" r) = true).
Proof.
  intros H r0 Hr0. apply set_new_col_Ok in H as (sorted & -> & _ & Hperm & _).
  assert (forall r', In r' (dedup_from [] "external_id" (normalize_row <$> df_rows df)) ->
            exists r, In r (df_rows (reset_index sorted)) /\ r.2 = r'.2) as Hback.
  { intros r' Hr'. apply (Permutation_in _ (Permutation_sym Hperm)) in Hr'.
    apply (values_In (df_rows sorted) (df_rows (reset_index sorted)) r'
             (eq_sym (reset_index_values sorted)) Hr'). }
  destruct (dedup_from_cover [] "external_id" (normalize_row <$> df_rows df)
              (normalize_row r0) (in_map _ _ _ Hr0)) as [H|[H|(r' & Hr' & Heq)]].
  - discriminate H.
  - destruct (Hback _ H) as (r & Hr & Hv). exists r. auto.
  - destruct (Hback _ Hr') as (r & Hr & Hv). exists r. split; [exact Hr|right].
    rewrite (cell_at_snd _ r r' Hv).
    rewrite normalize_row_untouched in Heq by discriminate. exact Heq.
Qed.

Lemma set_new_col_keeps_every_id_witness :
  length (df_rows (sample_df 1282)) = 3%nat
  /\ forall r0, In r0 (df_rows (sample_df 1282)) ->
       exists r, In r (df_rows normalized_sample)
                 /\ (r.2 = (normalize_row r0).2
                     \/ cell_eqb (cell_at "external_id" r0) (cell_at "external_id" r) = true).
Proof.
  split; [reflexivity|].
  assert (set_new_col (sample_df 1282) (with_col_filter "accepted_at" (initial_state None))
          = (Ok normalized_sample, (set_new_col (sample_df 1282) (with_col_filter "accepted_at" (initial_state None))).2)) as E
    by (vm_compute; reflexivity).
  exact (set_new_col_keeps_every_id _ _ _ _ E).
Defined.

(** X7: when one of the six columns normalization reads is missing,
    [set_new_col] logs the error and raises it again, and changes nothing
    else of the object. *)
Theorem set_new_col_missing_column (df : DataFrame) (st : State) (c : string) :
  In c ["accepted_amount"; "transaction_type"; "status_name"; "mid_commission";
        "service_commission"; "external_id"] ->
  has_column c df = false ->
  exists e,
    set_new_col df st
    = (Raise e,
       with_log (log st ++ [(INFO, MsgNormStart); (ERROR, MsgNormError e)]) st).
Proof.
  intros Hc Hmissing. rewrite set_new_col_run.
  destruct (normalize (col_filter st) df) as [d|e] eqn:Hnorm; [|eauto].
  exfalso.
  pose proof (normalize_columns _ _ _ Hnorm) as (H1 & H2 & H3 & H4 & H5).
  assert (set_new_col df st
          = (Ok d, with_log (log st ++ [(INFO, MsgNormStart); (INFO, MsgNormDone)]) st))
    as Hrun by (rewrite set_new_col_run, Hnorm; reflexivity).
  apply set_new_col_Ok in Hrun as (_ & _ & _ & _ & H6 & _).
  simpl in Hc. destruct Hc as [<-|[<-|[<-|[<-|[<-|[<-|[]]]]]]]; congruence.
Qed.

Lemma set_new_col_missing_column_witness :
  exists e, (set_new_col broken_df (initial_state None)).1 = Raise e.
Proof.
  destruct (set_new_col_missing_column broken_df (initial_state None) "status_name")
    as [e He].
  - simpl. auto.
  - reflexivity.
  - exists e. rewrite He. reflexivity.
Defined.

(** ** [get_current_day] outside its range *)



(** ** [client_offset] *)

Lemma client_offset_first_row (df : DataFrame) :
  client_offset df
  = if has_column "client_id" df then
      match df_rows df with
      | [] => Raise IndexError
      | r :: _ =>
          match CLIENTS_get_cell (cell_at "client_id" r) with
          | Some config => Ok (plus_time config)
          | None => Raise AttributeError
          end
      end
    else Raise AttributeError.
Proof.
  unfold client_offset, getattr. destruct (has_column "client_id" df); [|reflexivity].
  destruct (df_rows df) as [|r rows]; reflexivity.
Qed.

(** X9: the offset applied by the time filter is the one configured for the
    client of the first row, whatever the other rows hold; a first row of a
    client that is not configured makes the lookup fail with
    [AttributeError]. *)
Theorem client_offset_of_configured (df : DataFrame) (r : nat * Row)
    (rows : list (nat * Row)) (cid : Z) (config : ClientConfig) :
  has_column "client_id" df = true ->
  df_rows df = r :: rows ->
  cell_at "client_id" r = CInt cid ->
  (In (cid, config) CLIENTS -> client_offset df = Ok (plus_time config))
  /\ ((forall cfg, ~ In (cid, cfg) CLIENTS) -> client_offset df = Raise AttributeError).
Proof.
  intros Hcol Hrows Hcid. rewrite client_offset_first_row, Hcol, Hrows, Hcid.
  unfold CLIENTS_get_cell, CLIENTS_get. split.
  - intros Hin. simpl in Hin.
    repeat (destruct Hin as [[= <- <-]|Hin]; [reflexivity|]). destruct Hin.
  - intros Hnot. destruct (List.find _ CLIENTS) as [[k cfg]|] eqn:Hfind; [|reflexivity].
    apply find_some in Hfind as [Hin Hk]. simpl in Hk. apply Z.eqb_eq in Hk. subst k.
    destruct (Hnot cfg Hin).
Qed.

Lemma client_offset_of_configured_witness :
  client_offset late_record_df = Ok 3.
Proof.
  apply (client_offset_of_configured late_record_df
           (0%nat, transaction "late" 1235 "2024-11-18 23:30:00" 10 10 4 "invoice" "Far")
           [] 1235 (mk_config "accepted_at" 3)).
  - reflexivity.
  - reflexivity.
  - reflexivity.
  - simpl. auto 10.
Defined.

(** ** [filter_data_time]: what it keeps *)

Lemma filter_sublist {A} (p : A -> bool) (l : list A) : sublist (List.filter p l) l.
Proof.
  induction l as [|x l IH]; simpl; [constructor|].
  destruct (p x); [apply sublist_skip|apply sublist_cons]; exact IH.
Qed.

Lemma shift_row_untouched (env : Env) (plus : Z) (c : string) (r : nat * Row) :
  c <> "created_at" -> c <> "accepted_at" ->
  cell_at c (shift_row env plus r) = cell_at c r.
Proof.
  intros H1 H2. unfold shift_row, cell_at. simpl.
  rewrite !lookup_insert_ne by congruence. reflexivity.
Qed.

Lemma shift_row_window (env : Env) (plus : Z) (c : string) (r : nat * Row) :
  c = "created_at" \/ c = "accepted_at" ->
  cell_at c (shift_row env plus r) = adjust env plus (cell_at c r).
Proof.
  intros [->| ->]; unfold shift_row; unfold cell_at at 1; simpl.
  - rewrite lookup_insert_ne by discriminate. rewrite lookup_insert_eq. reflexivity.
  - rewrite lookup_insert_eq. reflexivity.
Qed.

(** X10: the time filter only removes rows: the output has the columns of
    the input, its labels are a subsequence of the input's, and every output
    row agrees with the input row of its label on every column other than
    the two timestamps. *)
Theorem filter_data_time_keeps (env : Env) (df : DataFrame) (col : string)
    (st : State) (out : DataFrame) (st' : State) :
  filter_data_time env df col st = (Ok out, st') ->
  DF st' = out
  /\ df_columns out = df_columns df
  /\ sublist (fst <$> df_rows out) (fst <$> df_rows df)
  /\ forall r, In r (df_rows out) ->
       exists r0, In r0 (df_rows df) /\ r.1 = r0.1
                  /\ forall c, c <> "created_at" -> c <> "accepted_at" ->
                               cell_at c r = cell_at c r0.
Proof.
  intros H. apply filter_data_time_inv in H
    as (plus & shifted & start & stop & names & _ & Hshift & _ & _ & _ & _ & -> & HDF).
  apply shift_times_rows in Hshift as [Hcols Hrows].
  split; [exact HDF|]. split; [exact Hcols|]. cbn [df_rows]. rewrite Hrows. split.
  - rewrite filter_filter_andb.
    replace (fst <$> df_rows df) with (fst <$> (shift_row env plus <$> df_rows df))
      by (rewrite <- list_fmap_compose; reflexivity).
    apply fmap_sublist, filter_sublist.
  - intros r Hr. apply filter_In in Hr as [Hr _]. apply filter_In in Hr as [Hr _].
    apply in_map_iff in Hr as (r0 & <- & Hr0). exists r0.
    split; [exact Hr0|]. split; [reflexivity|].
    intros c Hc1 Hc2. apply shift_row_untouched; assumption.
Qed.

Lemma shift_times_strips (env : Env) (plus : Z) (df shifted : DataFrame)
    (r0 : nat * Row) (c : string) :
  shift_times env plus df = Ok shifted -> In r0 (df_rows df) ->
  c = "created_at" \/ c = "accepted_at" ->
  exists c', remove_microseconds (cell_at c r0) = Ok c'.
Proof.
  unfold shift_times. intros H Hr0 Hc.
  destruct (getitem df "created_at") as [c1|] eqn:H1; simpl in H; [|discriminate].
  destruct (mapR remove_microseconds c1) as [c1'|] eqn:H1'; simpl in H; [|discriminate].
  rewrite (setitem_mapR_column df _ _ stripped c1 c1' stripped_spec H1 H1') in H.
  destruct (getitem (map_column _ _ df) "accepted_at") as [c2|] eqn:H2; simpl in H;
    [|discriminate].
  destruct (mapR remove_microseconds c2) as [c2'|] eqn:H2'; simpl in H; [|discriminate].
  apply getitem_Ok in H1 as [-> _]. apply getitem_Ok in H2 as [-> _].
  destruct Hc as [->| ->].
  - apply (mapR_Ok_In _ _ _ _ H1'). apply in_map. exact Hr0.
  - unfold map_column in H2'. cbn [df_rows] in H2'.
    destruct (mapR_Ok_In _ _ _
                (cell_at "accepted_at"
                   (set_cell "created_at" r0 (stripped (cell_at "created_at" r0)))) H2')
      as [c' Hc'].
    + apply in_map.
      apply (in_map (fun r => set_cell "created_at" r (stripped (cell_at "created_at" r)))),
        Hr0.
    + rewrite cell_at_set_cell_ne in Hc' by discriminate. eauto.
Qed.

Lemma filter_data_time_keeps_witness :
  df_columns (frame_of filtered_sample.1) = df_columns normalized_sample
  /\ sublist (fst <$> df_rows (frame_of filtered_sample.1))
             (fst <$> df_rows normalized_sample).
Proof.
  assert (filtered_sample = (Ok (frame_of filtered_sample.1), filtered_sample.2)) as E
    by (vm_compute; reflexivity).
  destruct (filter_data_time_keeps env_ok normalized_sample "accepted_at" window_state
              _ _ E) as (_ & H1 & H2 & _).
  split; assumption.
Defined.

(** X11: a row passes the time filter only if its window column held a text
    that the parser accepts once the fraction is removed, and its timestamp
    in the output is that parsed time plus the client's offset in hours;
    rows whose window column is missing or unparseable are dropped. *)
Theorem filter_data_time_timestamps (env : Env) (df : DataFrame) (col : string)
    (st : State) (out : DataFrame) (st' : State) :
  filter_data_time env df col st = (Ok out, st') ->
  col = "created_at" \/ col = "accepted_at" ->
  exists plus,
    client_offset df = Ok plus
    /\ forall r, In r (df_rows out) ->
         exists r0 s t,
           In r0 (df_rows df) /\ r.1 = r0.1
           /\ cell_at col r0 = CStr s
           /\ parse_datetime env (strip_fraction false s) = Some t
           /\ cell_at col r = CTime (t + plus * 3600 * 1000000000).
Proof.
  intros H Hcol. apply filter_data_time_inv in H
    as (plus & shifted & start & stop & names & Hplus & Hshift & _ & _ & _ & _ & -> & _).
  pose proof (shift_times_rows _ _ _ _ Hshift) as [_ Hrows].
  exists plus. split; [exact Hplus|]. cbn [df_rows]. rewrite Hrows.
  intros r Hr. apply filter_In in Hr as [Hr _]. apply filter_In in Hr as [Hr Hwin].
  apply in_map_iff in Hr as (r0 & <- & Hr0).
  destruct (in_window_spec _ _ _ _ Hwin) as (t' & Ht' & _).
  rewrite (shift_row_window env plus col r0 Hcol) in Ht'.
  rewrite (shift_row_window env plus col r0 Hcol).
  destruct (shift_times_strips _ _ _ _ r0 col Hshift Hr0 Hcol) as [c' Hc'].
  unfold adjust in *. rewrite Hc' in *.
  unfold remove_microseconds in Hc'.
  destruct (isna (cell_at col r0)) eqn:Hna.
  - injection Hc' as <-. discriminate Ht'.
  - destruct (cell_at col r0) as [| | |s| |] eqn:Hcell; try discriminate Hc'.
    injection Hc' as <-. simpl in *.
    destruct (parse_datetime env (strip_fraction false s)) as [t|] eqn:Hparse;
      [|discriminate Ht'].
    exists r0, s, t. repeat split; try assumption; try reflexivity.
Qed.

Lemma filter_data_time_timestamps_witness :
  exists plus,
    client_offset normalized_sample = Ok plus
    /\ forall r, In r (df_rows (frame_of filtered_sample.1)) ->
         exists t, cell_at "accepted_at" r = CTime (t + plus * 3600 * 1000000000).
Proof.
  assert (filtered_sample = (Ok (frame_of filtered_sample.1), filtered_sample.2)) as E
    by (vm_compute; reflexivity).
  destruct (filter_data_time_timestamps env_ok normalized_sample "accepted_at"
              window_state _ _ E) as (plus & Hplus & Hrows).
  - right. reflexivity.
  - exists plus. split; [exact Hplus|].
    intros r Hr. destruct (Hrows r Hr) as (_ & _ & t & _ & _ & _ & _ & Ht).
    exists t. exact Ht.
Defined.

(** ** [filter_data_time]: failures *)

Lemma filter_data_time_raises (env : Env) (df : DataFrame) (col : string) (st : State)
    (e : Exc) :
  client_offset df = Raise e
  \/ (exists plus, client_offset df = Ok plus /\ shift_times env plus df = Raise e) ->
  filter_data_time env df col st
  = (Raise e,
     with_log (log st ++ [(INFO, MsgFilterStart); (ERROR, MsgFilterError e)]) st).
Proof.
  intros H. unfold filter_data_time. run.
  destruct H as [->|(plus & -> & ->)]; simpl;
    unfold with_log; simpl; rewrite <- app_assoc; reflexivity.
Qed.

Lemma mapR_Raise {A B} (f : A -> Result B) (l : list A) (e : Exc) :
  mapR f l = Raise e -> exists x, In x l /\ f x = Raise e.
Proof.
  induction l as [|a l IH]; simpl; [discriminate|].
  destruct (f a) as [y|e'] eqn:Ha; simpl.
  - destruct (mapR f l) as [ys|e'] eqn:Hl; simpl; [discriminate|].
    intros [= ->]. destruct (IH eq_refl) as (x & Hx & Hfx). eauto.
  - intros [= ->]. eauto.
Qed.

Lemma remove_microseconds_Raise (c : Cell) (e : Exc) :
  remove_microseconds c = Raise e -> e = TypeError.
Proof.
  unfold remove_microseconds. destruct (isna c); [discriminate|].
  destruct c; intros [= <-]; reflexivity.
Qed.

Lemma shift_times_parsed (env : Env) (plus : Z) (df : DataFrame) (col : string)
    (r : nat * Row) (t : Z) :
  has_column "created_at" df = true -> has_column "accepted_at" df = true ->
  col = "created_at" \/ col = "accepted_at" ->
  In r (df_rows df) -> cell_at col r = CTime t ->
  shift_times env plus df = Raise TypeError.
Proof.
  intros Hc Ha Hcol Hr Ht. unfold shift_times.
  rewrite (getitem_has _ _ Hc). cbn [mbind Result_bind].
  destruct (mapR remove_microseconds (cell_at "created_at" <$> df_rows df))
    as [c1'|e] eqn:H1; cbn [mbind Result_bind].
  2:{ apply mapR_Raise in H1 as (x & _ & Hx).
      apply remove_microseconds_Raise in Hx. subst e. reflexivity. }
  rewrite (setitem_mapR_column df _ _ stripped _ c1' stripped_spec (getitem_has _ _ Hc) H1).
  rewrite getitem_has by exact Ha. cbn [mbind Result_bind].
  destruct (mapR remove_microseconds
              (cell_at "accepted_at" <$> df_rows (map_column "created_at" stripped df)))
    as [c2'|e] eqn:H2; cbn [mbind Result_bind].
  2:{ apply mapR_Raise in H2 as (x & _ & Hx).
      apply remove_microseconds_Raise in Hx. subst e. reflexivity. }
  exfalso. destruct Hcol as [->| ->].
  - destruct (mapR_Ok_In _ _ _ (cell_at "created_at" r) H1) as [c' Hc'].
    + apply in_map. exact Hr.
    + rewrite Ht in Hc'. discriminate Hc'.
  - unfold map_column in H2. cbn [df_rows] in H2.
    destruct (mapR_Ok_In _ _ _
                (cell_at "accepted_at"
                   (set_cell "created_at" r (stripped (cell_at "created_at" r)))) H2)
      as [c' Hc'].
    + apply in_map.
      apply (in_map (fun r => set_cell "created_at" r (stripped (cell_at "created_at" r)))),
        Hr.
    + rewrite cell_at_set_cell_ne in Hc' by discriminate.
      rewrite Ht in Hc'. discriminate Hc'.
Qed.

(** X20: when the client of the first row is not one of [CLIENTS] (or the
    frame has no [client_id] column), the time filter raises
    [AttributeError] before it touches the object: the error is logged
    after the start message and nothing else changes. *)
Theorem filter_data_time_unknown_client (env : Env) (df : DataFrame) (col : string)
    (st : State) (r : nat * Row) (rows : list (nat * Row)) :
  df_rows df = r :: rows ->
  has_column "client_id" df = false
  \/ CLIENTS_get_cell (cell_at "client_id" r) = None ->
  filter_data_time env df col st
  = (Raise AttributeError,
     with_log (log st ++ [(INFO, MsgFilterStart); (ERROR, MsgFilterError AttributeError)])
       st).
Proof.
  intros Hrows Hbad. apply filter_data_time_raises. left.
  rewrite client_offset_first_row, Hrows.
  destruct Hbad as [->| ->]; [reflexivity|].
  destruct (has_column "client_id" df); reflexivity.
Qed.

Lemma filter_data_time_unknown_client_witness :
  (filter_data_time env_ok
     (mk_df query_columns
        [(0%nat, transaction "z" 999 "2024-11-18 10:00:00" 1 1 4 "invoice" "Shop")])
     "accepted_at" window_state).1
  = Raise AttributeError.
Proof.
  rewrite (filter_data_time_unknown_client env_ok _ "accepted_at" window_state
             (0%nat, transaction "z" 999 "2024-11-18 10:00:00" 1 1 4 "invoice" "Shop") []).
  - reflexivity.
  - reflexivity.
  - right. reflexivity.
Defined.

(** X21: the time filter cannot be run on its own output: the frame it
    returns holds parsed timestamps, on which [remove_microseconds] raises,
    so a second pass over a frame with at least one row raises [TypeError]
    ([AttributeError] when the first remaining row is of a client that is
    not configured) and logs it. *)
Theorem filter_data_time_not_reentrant (env : Env) (df : DataFrame) (col col' : string)
    (st st1 st2 : State) (out : DataFrame) :
  filter_data_time env df col st = (Ok out, st1) ->
  col = "created_at" \/ col = "accepted_at" ->
  df_rows out <> [] ->
  exists e,
    filter_data_time env out col' st2
    = (Raise e,
       with_log (log st2 ++ [(INFO, MsgFilterStart); (ERROR, MsgFilterError e)]) st2)
    /\ (e = TypeError \/ e = AttributeError).
Proof.
  intros Hrun Hcol Hrows.
  pose proof (filter_data_time_inv env df col st out st1 Hrun)
    as (plus & shifted & start & stop & names & _ & Hshift & _ & _ & _ & _ & Hout & _).
  assert (forall r, In r (df_rows out) -> exists t, cell_at col r = CTime t) as Htimes.
  { subst out. cbn [df_rows]. intros r Hr.
    apply filter_In in Hr as [Hr _]. apply filter_In in Hr as [_ Hwin].
    destruct (in_window_spec _ _ _ _ Hwin) as (t & Ht & _). eauto. }
  assert (has_column "created_at" out = true /\ has_column "accepted_at" out = true)
    as [Hc Ha].
  { destruct (shift_times_rows _ _ _ _ Hshift) as [Hcols _].
    assert (has_column "created_at" df = true /\ has_column "accepted_at" df = true)
      as [H1 H2].
    { unfold shift_times in Hshift.
      destruct (getitem df "created_at") as [c1|] eqn:G1; simpl in Hshift;
        [|discriminate].
      destruct (mapR remove_microseconds c1) as [c1'|] eqn:G1'; simpl in Hshift;
        [|discriminate].
      rewrite (setitem_mapR_column df _ _ stripped c1 c1' stripped_spec G1 G1') in Hshift.
      destruct (getitem (map_column _ _ df) "accepted_at") as [c2|] eqn:G2;
        simpl in Hshift; [|discriminate].
      apply getitem_Ok in G1 as [_ G1]. apply getitem_Ok in G2 as [_ G2].
      split; [exact G1|exact G2]. }
    subst out. unfold has_column in *. cbn [df_columns]. rewrite Hcols. auto. }
  destruct (df_rows out) as [|r rest] eqn:Hr; [congruence|].
  destruct (Htimes r (or_introl eq_refl)) as (t & Ht).
  destruct (client_offset out) as [p|e] eqn:Hoff.
  - exists TypeError. split; [|left; reflexivity].
    apply filter_data_time_raises. right. exists p. split; [exact Hoff|].
    apply (shift_times_parsed env p out col r t Hc Ha Hcol); [|exact Ht].
    rewrite Hr. left. reflexivity.
  - exists e. split; [apply filter_data_time_raises; left; exact Hoff|].
    right. rewrite client_offset_first_row, Hr in Hoff.
    destruct (has_column "client_id" out); [|congruence].
    destruct (CLIENTS_get_cell _); congruence.
Qed.

Lemma filter_data_time_not_reentrant_witness :
  exists e,
    (filter_data_time env_ok (frame_of filtered_sample.1) "accepted_at" window_state).1
    = Raise e.
Proof.
  assert (filtered_sample = (Ok (frame_of filtered_sample.1), filtered_sample.2)) as E
    by (vm_compute; reflexivity).
  destruct (filter_data_time_not_reentrant env_ok normalized_sample "accepted_at"
              "accepted_at" window_state filtered_sample.2 window_state
              (frame_of filtered_sample.1) E) as (e & He & _).
  - right. reflexivity.
  - intros Hnil. apply (f_equal length) in Hnil. vm_compute in Hnil. discriminate Hnil.
  - exists e. rewrite He. reflexivity.
Defined.

(** ** [result_save] *)

Lemma strict_spec (env : Env) (x y : Cell) :
  to_datetime_strict env x = Ok y -> to_datetime_coerce env x = y.
Proof.
  destruct x as [| |f| | |]; simpl; try (intros [= <-]; reflexivity).
  - destruct (PrimFloat.is_nan f); [intros [= <-]; reflexivity|discriminate].
  - destruct (parse_datetime env s); [intros [= <-]; reflexivity|discriminate].
Qed.

Lemma map_column_ext (c : string) (g h : Cell -> Cell) (df : DataFrame) :
  (forall x, g x = h x) -> map_column c g df = map_column c h df.
Proof.
  intros Hgh. unfold map_column. f_equal. apply list_fmap_ext. intros _ r _.
  rewrite Hgh. reflexivity.
Qed.

Lemma set_cell_twice (c : string) (r : nat * Row) (v w : Cell) :
  set_cell c (set_cell c r v) w = set_cell c r w.
Proof. unfold set_cell. simpl. rewrite insert_insert_eq. reflexivity. Qed.

Lemma map_column_compose (c : string) (g h : Cell -> Cell) (df : DataFrame) :
  map_column c g (map_column c h df) = map_column c (fun x => g (h x)) df.
Proof.
  unfold map_column. simpl. f_equal. rewrite <- list_fmap_compose.
  apply list_fmap_ext. intros _ r _. unfold compose.
  rewrite cell_at_set_cell, set_cell_twice. reflexivity.
Qed.

Lemma has_column_map_column (c c' : string) (g : Cell -> Cell) (df : DataFrame) :
  has_column c' (map_column c g df) = has_column c' df.
Proof. reflexivity. Qed.

Lemma same_but_DF_refl (st : State) : same_but_DF st st.
Proof. unfold same_but_DF. destruct st; reflexivity. Qed.

Lemma same_but_DF_with (st : State) (d : DataFrame) : same_but_DF st (with_DF d st).
Proof. unfold same_but_DF. destruct st; reflexivity. Qed.

Lemma nudge_column_inv (env : Env) (col : string) (st : State)
    (res : Result unit) (st' : State) :
  nudge_column env col st = (res, st') ->
  (same_but_DF st st' /\ exists e, res = Raise e)
  \/ (res = Ok tt
      /\ st' = with_DF (map_column col (saved_stamp env (has_prefix (client_name st)))
                          (DF st)) st).
Proof.
  unfold nudge_column. run.
  destruct (getitem (DF st) col) as [cells|e] eqn:Hget; simpl.
  2:{ intros [= <- <-]. left. split; [apply same_but_DF_refl|eauto]. }
  destruct (mapR (to_datetime_strict env) cells) as [stamps|e] eqn:Hmap; simpl.
  2:{ intros [= <- <-]. left. split; [apply same_but_DF_refl|eauto]. }
  apply (mapR_Ok_fmap _ _ _ _ (strict_spec env)) in Hmap. subst stamps.
  rewrite <- list_fmap_compose.
  rewrite (setitem_map_column _ _ (add_ns (seconds_ns 1) ∘ to_datetime_coerce env) _ Hget).
  rewrite has_column_map_column.
  destruct (getitem_Ok _ _ _ Hget) as [_ Hcol]. rewrite Hcol. simpl.
  fold (has_prefix (client_name st)).
  assert (forall g, getitem (map_column col g (DF st)) col
                    = Ok (cell_at col <$> df_rows (map_column col g (DF st)))) as Hget1.
  { intros g. unfold getitem. rewrite has_column_map_column, Hcol. reflexivity. }
  destruct (has_prefix (client_name st)) eqn:Hp.
  - rewrite Hget1. simpl.
    destruct (mapR epoch_seconds _) as [secs|e] eqn:Hsecs; simpl.
    2:{ intros [= <- <-]. left. split; [apply same_but_DF_with|eauto]. }
    intros [= <- <-]. right. split; [reflexivity|].
    rewrite (setitem_mapR_column _ col epoch_seconds
               (fun c => match c with
                         | CTime t => CInt (t / 1000000000)
                         | CNaT => CInt (NaT_value / 1000000000)
                         | o => o
                         end)
               _ secs ltac:(intros [] y; simpl; intros [= <-]; reflexivity)
               (Hget1 _) Hsecs).
    rewrite map_column_compose. unfold with_DF. simpl. f_equal.
    apply map_column_ext. intros x. unfold saved_stamp, compose.
    destruct (add_ns _ _); reflexivity.
  - intros [= <- <-]. right. split; [reflexivity|].
    unfold with_DF. simpl. f_equal. apply map_column_ext. intros x.
    unfold saved_stamp, compose. destruct (add_ns _ _); reflexivity.
Qed.


Lemma saved_rows_table (env : Env) (seconds : bool) (df : DataFrame) :
  (fun r => (fun c => cell_at c r) <$> selected_columns)
    <$> df_rows (map_column "accepted_at" (saved_stamp env seconds)
                   (map_column "created_at" (saved_stamp env seconds) df))
  = saved_row env seconds <$> df_rows df.
Proof.
  unfold map_column. simpl. rewrite <- !list_fmap_compose.
  apply list_fmap_ext. intros _ r _. unfold compose, saved_row, selected_columns.
  simpl.
  repeat first [ rewrite cell_at_set_cell
               | rewrite cell_at_set_cell_ne by discriminate ].
  reflexivity.
Qed.







Lemma mapR_fmap_Ok {A B} (f : A -> Result B) (g : A -> B) (l : list A) :
  (forall x, In x l -> f x = Ok (g x)) -> mapR f l = Ok (g <$> l).
Proof.
  induction l as [|a l IH]; intros H; [reflexivity|].
  simpl. rewrite (H a (or_introl eq_refl)). simpl.
  rewrite IH by (intros x Hx; apply H; right; exact Hx). reflexivity.
Qed.

Lemma nudge_column_run (env : Env) (col : string) (st : State) :
  has_column col (DF st) = true ->
  (forall r, In r (df_rows (DF st)) -> exists t, cell_at col r = CTime t) ->
  nudge_column env col st
  = (Ok tt,
     with_DF (map_column col (saved_stamp env (has_prefix (client_name st))) (DF st)) st).
Proof.
  intros Hcol Htimes.
  destruct (nudge_column env col st) as [res st'] eqn:Hrun.
  pose proof Hrun as Hinv.
  apply nudge_column_inv in Hinv as [[_ (e & ->)]|[-> ->]]; [exfalso|reflexivity].
  revert Hrun. unfold nudge_column. run.
  rewrite (getitem_has _ _ Hcol). simpl.
  rewrite (mapR_fmap_Ok (to_datetime_strict env) (fun c => c) (cell_at col <$> df_rows (DF st))).
  2:{ intros x Hx. apply in_map_iff in Hx as (r & <- & Hr).
      destruct (Htimes r Hr) as [t ->]. reflexivity. }
  simpl. rewrite list_fmap_id.
  rewrite (setitem_map_column _ _ (add_ns (seconds_ns 1)) _ (getitem_has _ _ Hcol)).
  rewrite has_column_map_column, Hcol. simpl.
  destruct (bool_decide _); [|discriminate].
  unfold getitem. rewrite has_column_map_column, Hcol. simpl.
  rewrite (mapR_fmap_Ok epoch_seconds
             (fun c => match c with
                         | CTime t => CInt (t / 1000000000)
                         | CNaT => CInt (NaT_value / 1000000000)
                         | o => o
                         end)).
  - discriminate.
  - intros x Hx. apply in_map_iff in Hx as (r' & <- & Hr').
    apply in_map_iff in Hr' as (r & <- & Hr).
    rewrite cell_at_set_cell. destruct (Htimes r Hr) as [t ->]. reflexivity.
Qed.

Lemma find_all_false {A} (p : A -> bool) (l : list A) :
  (forall x, In x l -> p x = false) -> List.find p l = None.
Proof.
  induction l as [|a l IH]; intros H; [reflexivity|]. simpl.
  rewrite (H a (or_introl eq_refl)). apply IH. intros x Hx. apply H. right. exact Hx.
Qed.

Lemma filter_all_false {A} (p : A -> bool) (l : list A) :
  (forall x, In x l -> p x = false) -> List.filter p l = [].
Proof.
  induction l as [|a l IH]; intros H; [reflexivity|]. simpl.
  rewrite (H a (or_introl eq_refl)). apply IH. intros x Hx. apply H. right. exact Hx.
Qed.

Lemma saved_stamp_time (env : Env) (seconds : bool) (t : Z) :
  saved_stamp env seconds (CTime t)
  = if seconds then CInt ((t + 1000000000) / 1000000000) else CTime (t + 1000000000).
Proof. reflexivity. Qed.

(** X13: a frame that is ready is written: with rows, the twelve output columns
    and [client_id], a client in the first row, parsed timestamps, a window
    on the object and a path the file system accepts, [result_save] returns
    and the file is there, every timestamp one second later. *)
Theorem result_save_writes (env : Env) (st : State) (start stop : datetime)
    (r : nat * Row) (rows : list (nat * Row)) :
  df_rows (DF st) = r :: rows ->
  (forall c, In c ("client_id" :: selected_columns) -> has_column c (DF st) = true) ->
  cell_at "client_id" r <> CNone ->
  (forall r', In r' (df_rows (DF st)) ->
     exists t1 t2, cell_at "created_at" r' = CTime t1
                   /\ cell_at "accepted_at" r' = CTime t2) ->
  start_date st = Some start -> end_date st = Some stop ->
  write_error env (saved_path env (client_name st) start stop) = None ->
  exists st',
    result_save env st = (Ok tt, st')
    /\ files st'
       = (saved_path env (client_name st) start stop,
          mk_file (saved_format (client_name st)) selected_columns
            (saved_row env (has_prefix (client_name st)) <$> df_rows (DF st)))
         :: List.filter
              (fun f => negb (String.eqb f.1 (saved_path env (client_name st) start stop)))
              (files st)
    /\ forall r' t, cell_at "accepted_at" r' = CTime t ->
         saved_row env (has_prefix (client_name st)) r' !! 5%nat
         = Some (if has_prefix (client_name st)
                 then CInt ((t + 1000000000) / 1000000000)
                 else CTime (t + 1000000000)).
Proof.
  intros Hrows Hcols Hid Htimes Hstart Hstop Hwrite.
  set (path := saved_path env (client_name st) start stop) in *.
  set (data := mk_file (saved_format (client_name st)) selected_columns
                 (saved_row env (has_prefix (client_name st)) <$> df_rows (DF st))).
  assert (exists st', result_save env st = (Ok tt, st')
                      /\ files st'
                         = (path, data)
                           :: List.filter (fun f => negb (String.eqb f.1 path)) (files st))
    as (st' & Hrun & Hnew).
  2:{ exists st'. split; [exact Hrun|]. split; [exact Hnew|].
      intros r' t Ht. unfold saved_row, selected_columns. simpl.
      rewrite Ht, saved_stamp_time. reflexivity. }
  unfold result_save. unfold bind at 1, get at 1.
  assert (df_empty (DF st) = false) as ->.
  { unfold df_empty. rewrite Hrows.
    specialize (Hcols "client_id" (or_introl eq_refl)). unfold has_column in Hcols.
    destruct (df_columns (DF st)); [discriminate Hcols|reflexivity]. }
  unfold bind at 1, mkdir_exist_ok at 1, modify at 1.
  set (st1 := match save_dir st with Some _ => st | None => with_save_dir (Some []) st end).
  assert (DF st1 = DF st /\ client_name st1 = client_name st
          /\ start_date st1 = start_date st /\ end_date st1 = end_date st
          /\ save_dir st1 = Some (files st)) as (HDF & Hname & Hs1 & He1 & Hdir).
  { unfold st1, files. destruct (save_dir st) eqn:Hd; [rewrite Hd|]; repeat split. }
  rewrite filter_all_false.
  2:{ intros c Hc. rewrite (Hcols c (or_intror Hc)). reflexivity. }
  unfold bind at 1, lift at 1.
  rewrite (Hcols "client_id" (or_introl eq_refl)), Hrows.
  match goal with
  | |- context [bind (nudge_column env "created_at") ?k] =>
      set (body := bind (nudge_column env "created_at") k)
  end.
  assert (exists st', body st1 = (Ok tt, st')
                      /\ files st'
                         = (path, data)
                           :: List.filter (fun f => negb (String.eqb f.1 path)) (files st))
    as Hbody.
  2:{ destruct (cell_at "client_id" r); try exact Hbody. congruence. }
  unfold body. clear body.
  unfold bind at 1. rewrite nudge_column_run.
  2:{ rewrite HDF. apply Hcols. simpl. auto 10. }
  2:{ rewrite HDF. intros r' Hr'. destruct (Htimes r' Hr') as (t1 & _ & H1 & _). eauto. }
  unfold bind at 1. rewrite nudge_column_run.
  2:{ cbn [DF with_DF]. rewrite has_column_map_column, HDF. apply Hcols. simpl. auto 10. }
  2:{ cbn [DF with_DF]. rewrite HDF. unfold map_column. cbn [df_rows].
      intros r' Hr'. apply in_map_iff in Hr' as (r0 & <- & Hr0).
      rewrite cell_at_set_cell_ne by discriminate.
      destruct (Htimes r0 Hr0) as (_ & t2 & _ & H2). eauto. }
  cbn [client_name with_DF DF]. rewrite Hname, HDF.
  unfold bind at 1, attribute at 1. cbn [start_date with_DF]. rewrite Hs1, Hstart.
  unfold bind at 1, attribute at 1. cbn [end_date with_DF]. rewrite He1, Hstop.
  unfold bind at 1, get at 1. cbn [client_name with_DF DF]. rewrite Hname.
  unfold path, data, saved_path, saved_format in *. clear path data.
  assert (forall df', df_columns df' = df_columns (DF st) ->
            project df' selected_columns
            = Ok ((fun r => (fun c => cell_at c r) <$> selected_columns) <$> df_rows df'))
    as Hproj.
  { intros df' Hsame. unfold project. rewrite find_all_false; [reflexivity|].
    intros c Hc. unfold has_column. rewrite Hsame.
    fold (has_column c (DF st)). rewrite (Hcols c (or_intror Hc)). reflexivity. }
  destruct (file_prefix (client_name st)) as [prefix|] eqn:Hprefix;
    cbn zeta; unfold try_except, bind at 1, lift at 1;
    rewrite Hproj by reflexivity;
    rewrite saved_rows_table;
    unfold bind at 1, write_file at 1; rewrite Hwrite;
    cbn [save_dir with_DF]; rewrite Hdir;
    unfold logger, modify; eexists; (split; [reflexivity|]);
    reflexivity.
Qed.

Lemma result_save_writes_witness :
  exists st',
    result_save env_ok filtered_sample.2 = (Ok tt, st')
    /\ fst <$> files st' = ["saveАвто/Shop_18.11.2024-19.11.2024_2024.xlsx"].
Proof.
  destruct (result_save_writes env_ok filtered_sample.2
              (mk_datetime 739208 0 0 0 0) (mk_datetime 739209 0 0 0 0)
              (hd (0%nat, ∅) (df_rows (DF filtered_sample.2)))
              (tl (df_rows (DF filtered_sample.2))))
    as (st' & Hrun & Hfiles & _).
  - destruct (df_rows (DF filtered_sample.2)) eqn:E; [|reflexivity].
    apply (f_equal length) in E. vm_compute in E. discriminate E.
  - apply forallb_forall. vm_compute. reflexivity.
  - vm_compute. discriminate.
  - intros r' Hr'.
    assert (forallb (fun r => match cell_at "created_at" r, cell_at "accepted_at" r with
                              | CTime _, CTime _ => true
                              | _, _ => false
                              end) (df_rows (DF filtered_sample.2)) = true) as Hall
      by (vm_compute; reflexivity).
    rewrite forallb_forall in Hall. specialize (Hall r' Hr').
    destruct (cell_at "created_at" r'), (cell_at "accepted_at" r'); try discriminate Hall.
    eexists _, _. split; reflexivity.
  - reflexivity.
  - reflexivity.
  - reflexivity.
  - exists st'. split; [exact Hrun|]. rewrite Hfiles. reflexivity.
Defined.

(** ** The run: clock, directory and files *)

Lemma reads_logger (lvl : Level) (msg : Message) : preserves clock_reads (logger lvl msg).
Proof. unfold logger. frame. Qed.

Lemma reads_create_df (env : Env) (c : Z) (s e : datetime) :
  preserves clock_reads (create_df env c s e).
Proof. unfold create_df, logger. frame. Qed.

Lemma reads_set_new_col (df : DataFrame) : preserves clock_reads (set_new_col df).
Proof. unfold set_new_col, logger. frame. Qed.

Lemma reads_filter_data_time (env : Env) (df : DataFrame) (c : string) :
  preserves clock_reads (filter_data_time env df c).
Proof. unfold filter_data_time, logger. frame. Qed.

Lemma reads_write_file (env : Env) (path : string) (data : FileData) :
  preserves clock_reads (write_file env path data).
Proof.
  intros st. unfold write_file.
  destruct (write_error env path) as [[]|], (save_dir st); reflexivity.
Qed.

Lemma reads_mkdir : preserves clock_reads mkdir_exist_ok.
Proof.
  apply preserves_modify. intros st. destruct (save_dir st); reflexivity.
Qed.

Lemma reads_result_save (env : Env) : preserves clock_reads (result_save env).
Proof.
  unfold result_save, nudge_column, logger. frame;
    first [apply reads_mkdir | apply reads_write_file].
Qed.

Lemma activate_client_reads (env : Env) (cid : Z) (cfg : ClientConfig) (st : State) :
  clock_reads (activate_client env cid cfg st).2 = S (clock_reads st).
Proof.
  unfold activate_client.
  unfold bind at 1. unfold logger at 1, modify at 1.
  unfold bind at 1. unfold modify at 1.
  unfold bind at 1. unfold get_current_day, datetime_now.
  unfold bind at 1. unfold bind at 1. unfold lift at 1.
  destruct (current_day_of _ _) as [w|e]; [|reflexivity].
  unfold bind at 1, logger at 1, modify at 1. unfold ret at 1.
  unfold bind at 1. unfold modify at 1.
  match goal with
  | |- clock_reads (?m ?s).2 = _ =>
      assert (preserves clock_reads m) as Hp; [|rewrite (Hp s); reflexivity]
  end.
  apply preserves_bind; [apply reads_create_df|intros df].
  destruct (df_empty df); [apply reads_logger|].
  apply preserves_bind; [apply reads_set_new_col|intros df1].
  apply preserves_bind; [apply preserves_get|intros st1].
  apply preserves_bind; [apply reads_filter_data_time|intros df2].
  apply preserves_bind; [apply reads_result_save|intros _].
  apply reads_logger.
Qed.

(** X14: [activate] reads the clock once for every client: a run that
    returns has read it as many times as there are clients, so each client
    gets a window of its own reading. *)
Theorem activate_reads_clock_per_client (env : Env) (clients : list (Z * ClientConfig))
    (st st' : State) :
  activate_over env clients st = (Ok tt, st') ->
  clock_reads st' = (clock_reads st + length clients)%nat.
Proof.
  revert st. induction clients as [|[cid cfg] rest IH]; intros st; simpl.
  - unfold ret. intros [= <-]. lia.
  - unfold bind.
    pose proof (activate_client_reads env cid cfg st) as Hone.
    destruct (activate_client env cid cfg st) as [[[]|e] st1]; [|discriminate].
    intros Hrest. apply IH in Hrest. simpl in Hone. lia.
Qed.

Lemma activate_reads_clock_per_client_witness :
  clock_reads (activate env_db_down (initial_state (Some []))).2 = 8%nat.
Proof.
  apply (activate_reads_clock_per_client env_db_down CLIENTS (initial_state (Some []))).
  vm_compute. reflexivity.
Defined.

















Lemma activate_client_no_data (env : Env) (cid : Z) (cfg : ClientConfig)
    (st : State) (w : datetime * datetime) :
  current_day_of (now env (clock_reads st)) default_delta_time = Ok w ->
  (forall df, read_sql env cid w.1 w.2 = Ok df -> df_empty df = true) ->
  exists st' l,
    activate_client env cid cfg st = (Ok tt, st')
    /\ save_dir st' = save_dir st
    /\ log st' = (log st ++ l)%list
    /\ In (WARNING, MsgNoData cid) l
    /\ forall c, ~ In (INFO, MsgClientDone c) l.
Proof.
  intros Hw Hq. unfold activate_client.
  unfold bind at 1. unfold logger at 1, modify at 1.
  unfold bind at 1. unfold modify at 1.
  unfold bind at 1. rewrite (get_current_day_run env _ _ w) by exact Hw.
  unfold bind at 1. unfold modify at 1.
  unfold bind at 1. unfold create_df. run.
  destruct (read_sql env cid w.1 w.2) as [df|x] eqn:Hsql; simpl.
  - rewrite (Hq df eq_refl). simpl.
    eexists _, _. split; [reflexivity|]. simpl. split; [reflexivity|].
    split; [rewrite <- !app_assoc; reflexivity|].
    simpl. split; [auto 10|].
    intros c H. repeat (destruct H as [H|H]; [discriminate H|]). exact H.
  - eexists _, _. split; [reflexivity|]. simpl. split; [reflexivity|].
    split; [rewrite <- !app_assoc; reflexivity|].
    simpl. split; [auto 10|].
    intros c H. repeat (destruct H as [H|H]; [discriminate H|]). exact H.
Qed.

(** X15: a run in which the query fails or answers with an empty frame for
    every client returns normally, leaves the output directory as it was,
    warns once for every client and completes none. *)
Theorem activate_without_data (env : Env) (clients : list (Z * ClientConfig))
    (st : State) :
  (forall n, valid (now env n) /\ 4 <= ordinal (now env n)) ->
  (forall cid s e df, read_sql env cid s e = Ok df -> df_empty df = true) ->
  exists st' l,
    activate_over env clients st = (Ok tt, st')
    /\ save_dir st' = save_dir st
    /\ log st' = (log st ++ l)%list
    /\ (forall cid cfg, In (cid, cfg) clients -> In (WARNING, MsgNoData cid) l)
    /\ (forall cid, ~ In (INFO, MsgClientDone cid) l).
Proof.
  intros Hclock Hempty. revert st.
  induction clients as [|[cid cfg] rest IH]; intros st; simpl.
  - exists st, []. unfold ret. rewrite app_nil_r. repeat split; intros; tauto.
  - destruct (Hclock (clock_reads st)) as [Hv H4].
    pose proof (current_day_of_ok _ default_delta_time Hv H4 ltac:(unfold default_delta_time; lia))
      as Hw. cbv zeta in Hw.
    destruct (activate_client_no_data env cid cfg st _ Hw) as (st1 & l1 & Hrun & Hd1 & Hl1 & Hin1 & Hno1).
    { intros df. apply Hempty. }
    destruct (IH st1) as (st2 & l2 & Hrest & Hd2 & Hl2 & Hin2 & Hno2).
    exists st2, (l1 ++ l2)%list. unfold bind. rewrite Hrun.
    split; [exact Hrest|]. split; [congruence|].
    split; [rewrite Hl2, Hl1, app_assoc; reflexivity|].
    split.
    + intros c g [[= <- <-]|Hin]; apply in_or_app; [left; exact Hin1|right; eauto].
    + intros c Hin. apply in_app_or in Hin as [Hin|Hin]; [|exact (Hno2 c Hin)].
      exact (Hno1 c Hin).
Qed.

Lemma activate_without_data_witness :
  exists st' l,
    activate env_db_down (initial_state (Some [])) = (Ok tt, st')
    /\ save_dir st' = Some []
    /\ log st' = l
    /\ In (WARNING, MsgNoData 1352) l.
Proof.
  destruct (activate_without_data env_db_down CLIENTS (initial_state (Some [])))
    as (st' & l & Hrun & Hdir & Hlog & Hin & _).
  - intros n. unfold valid, MAXORDINAL. simpl. lia.
  - intros cid s e df. discriminate.
  - exists st', l. split; [exact Hrun|]. split; [exact Hdir|].
    split; [exact Hlog|]. apply (Hin 1352 (mk_config "accepted_at" 3)).
    simpl. auto 10.
Defined.

(** ** The SLA report ([SLA.py]) *)

Example SLA_main_sample :
  exists obj w,
    SLA_main sla_env_ok fresh_world = (Ok obj, w)
    /\ ID obj = [CStr "t1"; CStr "t2"; CStr "t3"]
    /\ fst <$> df_rows (result obj) = [3%nat; 0%nat]
    /\ cell_at "admin_status" <$> df_rows (result obj) = [CStr "Обнуление"; CStr "Succeed"]
    /\ file_header <$> sla_xlsx w = Some (admin_columns ++ ["gateway_status"])%list.
Proof. eexists _, _. vm_compute. repeat split. Qed.

Lemma admin_report_Ok (env : SLAEnv) (ids : list Cell) (from to : string)
    (df : DataFrame) :
  admin_report env ids from to = Ok df ->
  exists answer,
    read_admin env ids from to = Ok answer
    /\ has_column "admin_status" answer = true
    /\ has_column "gateway_admin_name" df = true
    /\ df_columns df = add_column "gateway_status" (df_columns answer)
    /\ Permutation (df_rows df)
         (dedup_rows (add_column "gateway_status" (df_columns answer)) []
            (List.filter
               (fun r => negb (cell_eq_str "Истек" (cell_at "admin_status" r)))
               (report_row <$> df_rows answer))).
Proof.
  unfold admin_report.
  destruct (read_admin env ids from to) as [answer|] eqn:Hq;
    cbn [mbind Result_bind]; [|discriminate].
  destruct (getitem answer "admin_status") as [status|] eqn:Hs;
    cbn [mbind Result_bind]; [|discriminate].
  rewrite (setitem_map_column _ _ _ _ Hs).
  apply getitem_Ok in Hs as [_ Hcol].
  rewrite setitem_fmap.
  unfold getitem at 1. rewrite has_column_add.
  rewrite has_column_map_column, Hcol. cbn [orb mbind Result_bind df_rows].
  rewrite <- !list_fmap_compose.
  rewrite (list_fmap_compose (fun r : nat * Row => set_cell "gateway_status" r CNone)
             ((fun c => negb (cell_eq_str "Истек" c)) ∘ cell_at "admin_status")).
  match goal with
  | |- context [select_rows ?d (_ <$> ?rows)] =>
      change (select_rows d _)
        with (select_rows d ((fun r => negb (cell_eq_str "Истек" (cell_at "admin_status" r)))
                               <$> df_rows d))
  end.
  rewrite select_rows_fmap. unfold drop_duplicate_rows. cbn [df_columns df_rows map_column].
  rewrite <- list_fmap_compose.
  intros H. apply sort_values_Ok in H as (Hg & Hcols & Hperm & _).
  exists answer. split; [reflexivity|]. split; [exact Hcol|].
  split; [|split; [exact Hcols|exact Hperm]].
  unfold has_column in *. rewrite Hcols. exact Hg.
Qed.


Lemma dedup_rows_length (cols : list string) (seen rows : list (nat * Row)) :
  (length (dedup_rows cols seen rows) <= length rows)%nat.
Proof.
  revert seen. induction rows as [|x rows IH]; intros seen; simpl; [lia|].
  destruct (existsb _ seen); simpl;
    [specialize (IH seen)|specialize (IH (x :: seen))]; lia.
Qed.

Lemma row_same_sym (cols : list string) (r1 r2 : nat * Row) :
  row_same cols r1 r2 = row_same cols r2 r1.
Proof.
  unfold row_same. induction cols as [|c cols IH]; simpl; [reflexivity|].
  rewrite IH, cell_eqb_sym. reflexivity.
Qed.

Lemma DistinctRows_Permutation (cols : list string) (l l' : list (nat * Row)) :
  Permutation l l' -> DistinctRows cols l -> DistinctRows cols l'.
Proof.
  induction 1 as [|x l l' Hp IH|x y l|l l' l'' _ IH1 _ IH2]; intros Hd.
  - exact Hd.
  - inversion Hd as [|? ? Hx Hl]; subst. constructor; [|apply IH; exact Hl].
    rewrite List.Forall_forall in *. intros z Hz. apply Hx.
    apply (Permutation_in _ (Permutation_sym Hp) Hz).
  - inversion Hd as [|? ? Hy Hl]; subst. inversion Hl as [|? ? Hx Hl']; subst.
    inversion Hy as [|? ? Hyx Hy']; subst.
    constructor; [constructor; [rewrite row_same_sym; exact Hyx|exact Hx]|].
    constructor; assumption.
  - auto.
Qed.

Lemma dedup_rows_distinct (cols : list string) (seen rows : list (nat * Row)) :
  DistinctRows cols (dedup_rows cols seen rows)
  /\ Forall (fun r => existsb (row_same cols r) seen = false)
            (dedup_rows cols seen rows).
Proof.
  revert seen. induction rows as [|x rows IH]; intros seen; simpl.
  - split; constructor.
  - destruct (existsb _ seen) eqn:Hseen; [apply IH|].
    destruct (IH (x :: seen)) as [Hd Hf]. split.
    + constructor; [|exact Hd].
      eapply Forall_impl; [exact Hf|]. simpl. intros k Hk.
      apply orb_false_iff in Hk as [Hk _]. rewrite row_same_sym. exact Hk.
    + constructor; [exact Hseen|].
      eapply Forall_impl; [exact Hf|]. simpl. intros k Hk.
      apply orb_false_iff in Hk as [_ Hk]. exact Hk.
Qed.

Lemma dedup_rows_cover (cols : list string) (seen rows : list (nat * Row))
    (r0 : nat * Row) :
  In r0 rows ->
  existsb (row_same cols r0) seen = true
  \/ In r0 (dedup_rows cols seen rows)
  \/ exists r, In r (dedup_rows cols seen rows) /\ row_same cols r0 r = true.
Proof.
  revert seen. induction rows as [|x rows IH]; intros seen Hin; [destruct Hin|].
  simpl. destruct (existsb (row_same cols x) seen) eqn:Hseen.
  - destruct Hin as [->|Hin]; [left; exact Hseen|]. apply IH, Hin.
  - destruct Hin as [->|Hin]; [right; left; left; reflexivity|].
    destruct (IH (x :: seen) Hin) as [H|[H|(r & Hr & Heq)]].
    + simpl in H. apply orb_true_iff in H as [H|H]; [|left; exact H].
      right; right. exists x. split; [left; reflexivity|exact H].
    + right; left; right; exact H.
    + right; right. exists r. split; [right; exact Hr|exact Heq].
Qed.


Lemma report_row_untouched (c : string) (r : nat * Row) :
  c <> "admin_status" -> c <> "gateway_status" ->
  cell_at c (report_row r) = cell_at c r.
Proof.
  intros H1 H2. unfold report_row. rewrite !cell_at_set_cell_ne by congruence.
  reflexivity.
Qed.

(** X17: a workbook that is not there is absorbed by [load_transaction],
    which prints a line and returns an empty frame; the construction of the
    object then fails with [IndexError] in [get_id_zai], before any query,
    and no report is written. *)
Theorem SLA_missing_workbook (env : SLAEnv) (from to path : string) (w : SLAWorld) :
  read_excel env path = Raise FileNotFoundError ->
  load_transaction env path w
  = (Ok empty_df, mk_sla_world (printed w ++ ["Файл не найден."]) (sla_xlsx w))
  /\ SLA_init env from to path w
     = (Raise IndexError,
        mk_sla_world (printed w ++ ["Файл не найден."]) (sla_xlsx w)).
Proof.
  intros H. unfold SLA_init, load_transaction. rewrite H. split; reflexivity.
Qed.

Lemma SLA_missing_workbook_witness :
  SLA_main sla_env_no_workbook fresh_world
  = (Raise IndexError, mk_sla_world ["Файл не найден."] None).
Proof.
  apply (SLA_missing_workbook sla_env_no_workbook "2024-11-12 00:00:00"
           "2024-11-19 00:00:00" "файл.xlsx" fresh_world).
  reflexivity.
Defined.



(** X19: the report has no two rows that agree on every column, no more
    rows than the answer, and every row of the answer whose status is not
    the expired one is in it, itself or as an equal row. *)
Theorem admin_report_rows (env : SLAEnv) (ids : list Cell) (from to : string)
    (answer df : DataFrame) :
  read_admin env ids from to = Ok answer ->
  admin_report env ids from to = Ok df ->
  DistinctRows (df_columns df) (df_rows df)
  /\ (length (df_rows df) <= length (df_rows answer))%nat
  /\ forall r0, In r0 (df_rows answer) ->
       cell_at "admin_status" (report_row r0) <> CStr "Истек" ->
       exists r, In r (df_rows df)
                 /\ (r = report_row r0
                     \/ row_same (df_columns df) (report_row r0) r = true).
Proof.
  intros Hq Hrep. apply admin_report_Ok in Hrep as (answer' & Hq' & _ & _ & Hcols & Hperm).
  assert (answer' = answer) as -> by congruence. rewrite Hcols.
  split; [|split].
  - apply (DistinctRows_Permutation _ _ _ (Permutation_sym Hperm)).
    apply dedup_rows_distinct.
  - rewrite (Permutation_length Hperm).
    rewrite <- (length_fmap report_row (df_rows answer)).
    pose proof (dedup_rows_length (add_column "gateway_status" (df_columns answer)) []
                  (List.filter
                     (fun r => negb (cell_eq_str "Истек" (cell_at "admin_status" r)))
                     (report_row <$> df_rows answer))) as H1.
    pose proof (List.filter_length_le
                  (fun r => negb (cell_eq_str "Истек" (cell_at "admin_status" r)))
                  (report_row <$> df_rows answer)) as H2.
    lia.
  - intros r0 Hr0 Hstatus.
    assert (In (report_row r0)
              (List.filter
                 (fun r => negb (cell_eq_str "Истек" (cell_at "admin_status" r)))
                 (report_row <$> df_rows answer))) as Hin.
    { apply filter_In. split; [apply in_map, Hr0|].
      destruct (cell_at "admin_status" (report_row r0)) as [| | |s| |]; try reflexivity.
      simpl. destruct (String.eqb_spec s "Истек") as [->|]; [congruence|reflexivity]. }
    destruct (dedup_rows_cover (add_column "gateway_status" (df_columns answer)) [] _ _ Hin)
      as [H|[H|(r & Hr & Hsame)]].
    + discriminate H.
    + exists (report_row r0). split; [|left; reflexivity].
      apply (Permutation_in _ (Permutation_sym Hperm) H).
    + exists r. split; [|right; exact Hsame].
      apply (Permutation_in _ (Permutation_sym Hperm) Hr).
Qed.

Lemma admin_report_rows_witness :
  DistinctRows (admin_columns ++ ["gateway_status"])
    (df_rows (match admin_report sla_env_ok [] "" "" with Ok df => df | Raise _ => empty_df end)).
Proof.
  destruct (admin_report sla_env_ok [] "" "") as [df|e] eqn:Hrep.
  - assert (df_columns df = (admin_columns ++ ["gateway_status"])%list) as <-.
    { vm_compute in Hrep. injection Hrep as <-. reflexivity. }
    apply (admin_report_rows sla_env_ok [] "" "" admin_answer df eq_refl Hrep).
  - vm_compute in Hrep. discriminate Hrep.
Defined.
